(** * Drift detection and fit diagnosis of the migraine MLOps pipeline

  A shallow embedding of [scripts/evaluate_models.py]
  ([ModelEvaluator.detect_overfitting] and its helpers) and of
  [scripts/check_model_drift.py] ([DriftDetector]).

  Conventions of the embedding.
  - A Python float that the code computes with a few arithmetic
    operations and then compares with a threshold is a binary64 number
    with the operations of IEEE 754 ([PrimFloat]): the metric gaps of
    [detect_overfitting], the label shares and the magnitude of
    [detect_target_drift], the degradation of
    [detect_model_performance_drift], the p-values of the KS test.
    [a > b] is written [(b <? a)%float].
  - The values of a column are rationals [Q] (every finite binary64
    number is one); comparing them, sorting them and counting them in
    bins is exact in the code as it is here.
  - [np.percentile] interpolates between ranks in binary64, and the
    rounding of that interpolation moves bin edges: the interpolation is
    a parameter of the model, [percentile_at].
  - The population stability index itself (proportions, logarithm, sum)
    and the means and standard deviations stored beside it are taken in
    exact arithmetic, rationals and reals [R]; the statements about them
    are those that rounding does not change.  A NaN produced by pandas
    on an empty column is kept as the value [NaN].
  - A Python exception is a value [Raise e] of the type [result].
  - A [dict] is an association list in insertion order with at most one
    binding per key, as Python dictionaries are.
  - Status and severity are the strings the code stores.
  - Time stamps and log lines are left out: no branch reads them. *)

From Stdlib Require Import List String Ascii Bool Arith ZArith QArith Qround.
From Stdlib Require Import Qreals Reals Lra Lia Permutation.
From Stdlib Require Import Floats.
From Stdlib Require Uint63.
Import ListNotations.

Set Warnings "-inexact-float".

(** ** Python values: exceptions and dictionaries *)

Module Py.

Inductive exn : Type :=
| KeyError (key : string)
| TypeError
| ValueError
| IndexError
| ZeroDivisionError
| IOError.

Inductive result (A : Type) : Type :=
| Ok (a : A)
| Raise (e : exn).

Arguments Ok {A} a.
Arguments Raise {A} e.

Definition bind {A B : Type} (c : result A) (k : A -> result B) : result B :=
  match c with
  | Ok a => k a
  | Raise e => Raise e
  end.

Definition raises {A : Type} (c : result A) : bool :=
  match c with Ok _ => false | Raise _ => true end.

Definition dict (V : Type) : Type := list (string * V).

Fixpoint get {V : Type} (d : dict V) (k : string) : option V :=
  match d with
  | [] => None
  | (k', v) :: d' => if String.eqb k k' then Some v else get d' k
  end.

(** [d[k]]: a missing key raises [KeyError]. *)
Definition getitem {V : Type} (d : dict V) (k : string) : result V :=
  match get d k with
  | Some v => Ok v
  | None => Raise (KeyError k)
  end.

(** [d.get(k, default)]. *)
Definition get_default {V : Type} (d : dict V) (k : string) (default : V) : V :=
  match get d k with
  | Some v => v
  | None => default
  end.

(** [d[k] = v]: overwrite in place, or append a new key. *)
Fixpoint set {V : Type} (d : dict V) (k : string) (v : V) : dict V :=
  match d with
  | [] => [(k, v)]
  | (k', v') :: d' =>
      if String.eqb k k' then (k', v) :: d' else (k', v') :: set d' k v
  end.

Definition keys {V : Type} (d : dict V) : list string := map fst d.

Definition len {V : Type} (d : dict V) : nat := List.length d.

(** [sep.join(parts)]. *)
Fixpoint join (sep : string) (parts : list string) : string :=
  match parts with
  | [] => EmptyString
  | [p] => p
  | p :: rest => p ++ sep ++ join sep rest
  end.

(** [needle in haystack] on strings. *)
Fixpoint contains (needle haystack : string) : bool :=
  if String.prefix needle haystack then true
  else match haystack with
       | EmptyString => false
       | String _ rest => contains needle rest
       end.

End Py.

Import Py.

Declare Scope py_scope.
Delimit Scope py_scope with py.
Notation "x <- c ;; k" := (bind c (fun x => k))
(at level 61, c at next level, right associativity) : py_scope.
Notation "'ret' v" := (Ok v) (at level 60) : py_scope.

(** ** Binary64 numbers *)

Module Binary64.

(** [float(n)] for a count [n]; counts are below 2^63, and exact below
    2^53. *)
Definition of_nat (n : nat) : float :=
  PrimFloat.of_uint63 (Uint63.of_Z (Z.of_nat n)).

(** The largest count whose conversion, and that of every smaller one, is
    exact. *)
Definition exact_counts : Z := 2 ^ 53.

(** The numbers from 0 to 1 in the representation of [SpecFloat]: a
    zero, or a positive number with exponent below -52, or 1.0 itself. *)
Definition in_unit_interval (x : spec_float) : bool :=
  match x with
  | S754_zero _ => true
  | S754_finite false m e =>
      (e <? -52)%Z || ((e =? -52)%Z && (m =? 4503599627370496)%positive)
  | _ => false
  end.

(** Everything but the positive numbers and plus infinity: what a
    comparison [> c] with a positive [c] answers false on. *)
Definition not_positive (x : spec_float) : bool :=
  match x with
  | S754_finite false _ _ | S754_infinity false => false
  | _ => true
  end.

(** The positive numbers and plus infinity. *)
Definition positive (x : spec_float) : bool :=
  match x with
  | S754_finite false _ _ | S754_infinity false => true
  | _ => false
  end.

End Binary64.

(** ** Exact comparisons on the rationals *)

Definition Qltb (a b : Q) : bool := negb (Qle_bool b a).

(** ** [scripts/evaluate_models.py]: fit diagnosis *)

Module Evaluate.

Open Scope string_scope.

Record FitVerdict : Type := {
  status : string;
  severity : string;
  accuracy_gap : float;
  f1_gap : float;
  recommendation : string
}.

(** [ModelEvaluator.get_recommendation]. *)
Definition recommendations : dict string :=
  [ ("OVERFITTING",
     "Consider: 1) Regularization, 2) More training data, 3) Reduce model complexity, 4) Cross-validation");
    ("UNDERFITTING",
     "Consider: 1) More complex model, 2) More features, 3) Feature engineering, 4) Remove regularization");
    ("GOOD_FIT", "Model is performing well! Continue monitoring.") ].

Definition get_recommendation (st : string) : string :=
  get_default recommendations st "No specific recommendation".

(** [ModelEvaluator.detect_overfitting]; [threshold] defaults to 0.10. *)
Definition detect_overfitting (train_metrics test_metrics : dict float)
    (threshold : float) : result FitVerdict :=
  (train_acc <- getitem train_metrics "accuracy" ;;
   test_acc <- getitem test_metrics "accuracy" ;;
   let accuracy_gap := (train_acc - test_acc)%float in
   train_f1 <- getitem train_metrics "f1" ;;
   test_f1 <- getitem test_metrics "f1" ;;
   let f1_gap := (train_f1 - test_f1)%float in
   if (threshold <? accuracy_gap)%float || (threshold <? f1_gap)%float then
     let st := "OVERFITTING" in
     let sev := if (0.15 <? accuracy_gap)%float then "HIGH" else "MEDIUM" in
     ret {| status := st; severity := sev; accuracy_gap := accuracy_gap;
            f1_gap := f1_gap; recommendation := get_recommendation st |}
   else
     test_acc' <- getitem test_metrics "accuracy" ;;
     if (test_acc' <? 0.60)%float then
       let st := "UNDERFITTING" in
       test_acc'' <- getitem test_metrics "accuracy" ;;
       let sev := if (test_acc'' <? 0.50)%float then "HIGH" else "MEDIUM" in
       ret {| status := st; severity := sev; accuracy_gap := accuracy_gap;
              f1_gap := f1_gap; recommendation := get_recommendation st |}
     else
       let st := "GOOD_FIT" in
       ret {| status := st; severity := "NONE"; accuracy_gap := accuracy_gap;
              f1_gap := f1_gap; recommendation := get_recommendation st |})%py.

Definition default_threshold : float := 0.10.

(** [ModelEvaluator.detect_overfitting_regression]. *)
Record FitVerdictRegression : Type := {
  r_status : string;
  r_severity : string;
  r2_gap : float;
  r_recommendation : string
}.

Definition detect_overfitting_regression (train_metrics test_metrics : dict
    float)
    (threshold : float) : result FitVerdictRegression :=
  (train_r2 <- getitem train_metrics "r2" ;;
   test_r2 <- getitem test_metrics "r2" ;;
   let gap := (train_r2 - test_r2)%float in
   if (threshold <? gap)%float then
     let sev := if (0.15 <? gap)%float then "HIGH" else "MEDIUM" in
     ret {| r_status := "OVERFITTING"; r_severity := sev; r2_gap := gap;
            r_recommendation := get_recommendation "OVERFITTING" |}
   else if (test_r2 <? 0.50)%float then
     let sev := if (test_r2 <? 0.30)%float then "HIGH" else "MEDIUM" in
     ret {| r_status := "UNDERFITTING"; r_severity := sev; r2_gap := gap;
            r_recommendation := get_recommendation "UNDERFITTING" |}
   else
     ret {| r_status := "GOOD_FIT"; r_severity := "NONE"; r2_gap := gap;
            r_recommendation := get_recommendation "GOOD_FIT" |})%py.

(** The metric dictionaries [evaluate_classification] builds. *)
Definition classification_metrics (accuracy precision recall f1 : float)
  : dict float :=
  [ ("accuracy", accuracy); ("precision", precision);
    ("recall", recall); ("f1", f1) ].

End Evaluate.

(** ** The numpy and pandas operations the detector calls

    These functions belong to third-party libraries; they are written out
    here with the behaviour the detector relies on. *)

Module Np.

Open Scope Q_scope.

(** A pandas column: a numeric dtype, or [object] holding strings. *)
Inductive Series : Type :=
| NumSeries (values : list Q)
| ObjSeries (values : list string).

(** [pd.api.types.is_numeric_dtype]. *)
Definition is_numeric_dtype (s : Series) : bool :=
  match s with
  | NumSeries _ => true
  | ObjSeries _ => false
  end.

(** [len(series)]. *)
Definition series_len (s : Series) : nat :=
  match s with
  | NumSeries l => List.length l
  | ObjSeries l => List.length l
  end.

(** The result of a pandas reduction: a float, possibly NaN. *)
Inductive pyfloat : Type :=
| NaN
| Fin (x : R).

Definition Qsum (l : list Q) : Q := fold_right Qplus 0 l.

Definition Qmean (l : list Q) : Q := Qsum l / inject_Z (Z.of_nat (List.length
    l)).

(** [Series.mean()]: NaN on an empty column, [TypeError] on strings. *)
Definition series_mean (s : Series) : result pyfloat :=
  match s with
  | NumSeries [] => Ok NaN
  | NumSeries l => Ok (Fin (Q2R (Qmean l)))
  | ObjSeries [] => Ok NaN
  | ObjSeries _ => Raise TypeError
  end.

(** [Series.std()]: sample standard deviation (ddof = 1), NaN below two
    values, [TypeError] on strings. *)
Definition series_std (s : Series) : result pyfloat :=
  match s with
  | NumSeries l =>
      match l with
      | [] | [_] => Ok NaN
      | _ =>
          let m := Qmean l in
          let ss := Qsum (map (fun x => (x - m) * (x - m)) l) in
          Ok (Fin (R_sqrt.sqrt (Q2R (ss / inject_Z (Z.of_nat (List.length l) -
              1)))))
      end
  | ObjSeries [] => Ok NaN
  | ObjSeries _ => Raise TypeError
  end.

(** [np.linspace(start, stop, num)]. *)
Definition linspace (start stop : Q) (num : Z) : result (list Q) :=
  if (num <? 0)%Z then Raise ValueError
  else
    match Z.to_nat num with
    | O => Ok []
    | S O => Ok [start]
    | n =>
        let step := (stop - start) / inject_Z (num - 1) in
        Ok (map (fun j => start + inject_Z (Z.of_nat j) * step) (seq 0 n))
    end.

Fixpoint insert_sorted (x : Q) (l : list Q) : list Q :=
  match l with
  | [] => [x]
  | y :: l' => if Qle_bool x y then x :: l else y :: insert_sorted x l'
  end.

(** [np.sort]. *)
Definition sort (l : list Q) : list Q := fold_right insert_sorted [] l.

Section Interpolation.

(** One percentile of a sorted, non-empty array.  numpy interpolates
    between the two closest ranks in binary64, and the last bit of the
    result decides in which bin a value equal to an edge is counted.
    The function is a parameter: every statement about the index holds
    for whatever it returns. *)
Variable percentile_at : list Q -> Q -> Q.

(** [np.percentile(a, qs)]: strings cannot be interpolated ([TypeError]),
    percentiles lie in [0, 100] ([ValueError]), an empty array has no
    ranks ([IndexError]). *)
Definition percentile (a : Series) (qs : list Q) : result (list Q) :=
  match a with
  | ObjSeries _ => Raise TypeError
  | NumSeries l =>
      if existsb (fun q => Qltb q 0 || Qltb 100 q) qs then Raise ValueError
      else
        match l with
        | [] => Raise IndexError
        | _ => Ok (map (percentile_at (sort l)) qs)
        end
  end.

End Interpolation.

Fixpoint dedup (l : list Q) : list Q :=
  match l with
  | [] => []
  | x :: l' =>
      match l' with
      | [] => [x]
      | y :: _ => if Qeq_bool x y then dedup l' else x :: dedup l'
      end
  end.

(** [np.unique]: the sorted distinct values. *)
Definition unique (l : list Q) : list Q := dedup (sort l).

Fixpoint increasing (edges : list Q) : bool :=
  match edges with
  | a :: (b :: _) as tl => Qle_bool a b && increasing tl
  | _ => true
  end.

(** Counts per bin: every bin is half-open [[lo, hi)] but the last, which
    is closed; values outside the edges are not counted. *)
Fixpoint bin_counts (xs : list Q) (edges : list Q) : list nat :=
  match edges with
  | lo :: ((hi :: rest) as tl) =>
      let inside x :=
        Qle_bool lo x &&
        match rest with
        | [] => Qle_bool x hi
        | _ => Qltb x hi
        end in
      List.length (filter inside xs) :: bin_counts xs tl
  | _ => []
  end.

(** [np.histogram(a, bins=edges)[0]]. *)
Definition histogram (a : Series) (edges : list Q) : result (list nat) :=
  match a with
  | ObjSeries _ => Raise TypeError
  | NumSeries xs =>
      if (List.length edges <? 2)%nat then Raise ValueError
      else if negb (increasing edges) then Raise ValueError
      else Ok (bin_counts xs edges)
  end.

(** [np.sum] of a real array. *)
Definition Rsum (l : list R) : R := fold_right Rplus 0%R l.

(** The comparison [x >= y] of two indices. *)
Definition Rgeb (x y : R) : bool := if Rle_dec y x then true else false.

End Np.

(** ** [scripts/check_model_drift.py]: the drift detector *)

Module Drift.

Import Np.
Open Scope string_scope.

(** A data frame: its columns in order, by name. *)
Definition DataFrame : Type := dict Series.

Definition columns (df : DataFrame) : list string := keys df.

(** [col in df.columns]. *)
Definition has_column (df : DataFrame) (col : string) : bool :=
  existsb (String.eqb col) (columns df).

(** [len(df)]: the number of rows. *)
Definition frame_len (df : DataFrame) : nat :=
  match df with
  | [] => O
  | (_, s) :: _ => series_len s
  end.

(** [df.drop(columns=[col], errors='ignore')]. *)
Definition drop_column (df : DataFrame) (col : string) : DataFrame :=
  filter (fun kv => negb (String.eqb (fst kv) col)) df.

(** The detector object: the path of the reference data and the cached
    reference frame ([None] until it is first loaded). *)
Record DriftDetector : Type := {
  reference_data_path : string;
  reference_data : option DataFrame
}.

Definition target_col : string := "migraine_occurrence".

(** A score as scikit-learn returns it: a Python [float] in recent
    versions, a [numpy.float64] in older ones.  The two hold the same
    binary64 number and agree on every operation the detector applies
    but one: a quotient with a zero divisor. *)
Inductive score : Type :=
| PyFloat (x : float)
| NpFloat64 (x : float).

Definition score_value (s : score) : float :=
  match s with
  | PyFloat x | NpFloat64 x => x
  end.

(** *** The records of the report *)

Record Verdict : Type := {
  psi : R;
  status : string;
  ref_mean : pyfloat;
  curr_mean : pyfloat;
  ref_std : pyfloat;
  curr_std : pyfloat
}.

Record Summary : Type := {
  total_features : nat;
  drifted_features : nat;
  drifted_feature_names : list string;
  drift_percentage : Q;
  overall_status : string
}.

Record FeatureDrift : Type := {
  feature_drift : dict Verdict;
  summary : Summary
}.

(** [drift_detected] is the [numpy.bool_] that comparing scipy's p-value
    with [alpha] gives. *)
Record KsVerdict : Type := {
  statistic : float;
  p_value : float;
  ks_drift_detected : bool
}.

Record KsSummary : Type := {
  ks_total_features : nat;
  ks_drifted_features : nat;
  significance_level : float
}.

Record StatisticalDrift : Type := {
  statistical_drift : dict KsVerdict;
  ks_summary : KsSummary
}.

(** A key of [value_counts().to_dict()]: a number or a string. *)
Inductive label : Type :=
| NumLabel (q : Q)
| StrLabel (s : string).

Record TargetDrift : Type := {
  reference_distribution : list (label * float);
  current_distribution : list (label * float);
  drift_magnitude : float;
  target_status : string
}.

Record PerformanceDrift : Type := {
  baseline_accuracy : float;
  current_accuracy : float;
  current_f1 : float;
  accuracy_drop : float;
  performance_degradation_pct : float;
  perf_status : string
}.

Record Assessment : Type := {
  drift_detected : bool;
  action_required : bool;
  recommendation : string
}.

(** The keys [performance_drift] and [overall_assessment] are absent
    ([None]) until the code stores them. *)
Record DriftReport : Type := {
  data_size : nat;
  report_feature_drift : FeatureDrift;
  report_statistical_drift : StatisticalDrift;
  report_target_drift : option TargetDrift;
  report_performance_drift : option PerformanceDrift;
  overall_assessment : option Assessment
}.

(** *** [calculate_psi] *)

Definition epsilon : Q := 1 # 10000.

(** [(counts + epsilon) / (n + epsilon * bins)]. *)
Definition proportions (counts : list nat) (n : nat) (bins : Z) : list Q :=
  map (fun c => ((inject_Z (Z.of_nat c) + epsilon)
                 / (inject_Z (Z.of_nat n) + epsilon * inject_Z bins))%Q) counts.

(** One bin of the index: [(curr - ref) * ln (curr / ref)]. *)
Definition psi_term (ref_prop curr_prop : Q) : R :=
  ((Q2R curr_prop - Q2R ref_prop) * ln (Q2R curr_prop / Q2R ref_prop))%R.

Definition psi_sum (ref_props curr_props : list Q) : R :=
  Rsum (map (fun rc => psi_term (fst rc) (snd rc)) (combine ref_props
      curr_props)).

Definition default_bins : Z := 10.

(** The shared columns, the label apart, in the order of the current
    frame. *)
Definition common_cols (reference current : DataFrame) : list string :=
  filter (fun col => has_column reference col && negb (String.eqb col
      target_col))
         (columns current).

Fixpoint foldM {A S : Type} (f : S -> A -> result S) (l : list A) (s : S)
  : result S :=
  match l with
  | [] => Ok s
  | a :: l' => bind (f s a) (foldM f l')
  end.

(** The tier of one index value. *)
Definition psi_status (value : R) (threshold : Q) : string :=
  if Rgeb value (Q2R threshold) then "SIGNIFICANT_DRIFT"
  else if Rgeb value (Q2R (1 # 10)) then "MODERATE_DRIFT"
  else "NO_DRIFT".

Definition summarize (drift_results : dict Verdict) (drifted : list string)
  : Summary :=
  {| total_features := len drift_results;
     drifted_features := List.length drifted;
     drifted_feature_names := drifted;
     drift_percentage :=
       match drift_results with
       | [] => 0%Q
       | _ => (inject_Z (Z.of_nat (List.length drifted))
               / inject_Z (Z.of_nat (len drift_results)) * 100)%Q
       end;
     overall_status :=
       match drifted with
       | [] => "NO_DRIFT"
       | _ => "DRIFT_DETECTED"
       end |}.

Definition default_threshold : Q := 2 # 10.

(** The columns the statements below count: shared with the reference,
    not the label, and of a numeric dtype in the current frame. *)
Definition numeric_in (df : DataFrame) (col : string) : bool :=
  match get df col with
  | Some s => is_numeric_dtype s
  | None => false
  end.

Definition analysed_columns (reference current : DataFrame) : list string :=
  filter (numeric_in current) (common_cols reference current).

(** The current frame without its non-numeric columns. *)
Definition numeric_part (df : DataFrame) : DataFrame :=
  filter (fun kv => is_numeric_dtype (snd kv)) df.

(** A verdict whose index reaches the threshold. *)
Definition significant (threshold : Q) (kv : string * Verdict) : bool :=
  Rgeb (psi (snd kv)) (Q2R threshold).

(** *** [detect_target_drift] *)

Definition labels_of (s : Series) : list label :=
  match s with
  | NumSeries l => map NumLabel l
  | ObjSeries l => map StrLabel l
  end.

Definition label_eqb (a b : label) : bool :=
  match a, b with
  | NumLabel x, NumLabel y => Qeq_bool x y
  | StrLabel x, StrLabel y => String.eqb x y
  | _, _ => false
  end.

Fixpoint distinct (l : list label) : list label :=
  match l with
  | [] => []
  | x :: l' => x :: filter (fun y => negb (label_eqb x y)) (distinct l')
  end.

(** [count / total] of two counts, in binary64. *)
Definition share (count total : nat) : float :=
  (Binary64.of_nat count / Binary64.of_nat total)%float.

(** [series.value_counts(normalize=True).to_dict()]: every distinct value
    with its share of the rows.  The dictionary is kept in order of first
    appearance; pandas orders it by frequency, which no reader of the
    dictionary here depends on. *)
Definition value_counts_normalized (s : Series) : list (label * float) :=
  let ls := labels_of s in
  map (fun v => (v, share (List.length (filter (label_eqb v) ls))
                          (List.length ls)))
      (distinct ls).

(** [dist.get(key, default)]. *)
Fixpoint dist_get (dist : list (label * float)) (key : label) (default : float)
  : float :=
  match dist with
  | [] => default
  | (k, v) :: rest => if label_eqb key k then v else dist_get rest key default
  end.

(** The detector's target drift on a loaded reference frame; [None] is
    the empty dictionary the code returns when the label is missing. *)
Definition target_drift_of (reference current : DataFrame) : option TargetDrift
    :=
  if negb (has_column current target_col) || negb (has_column reference
      target_col)
  then None
  else
    match get reference target_col, get current target_col with
    | Some ref_col, Some cur_col =>
        let ref_dist := value_counts_normalized ref_col in
        let curr_dist := value_counts_normalized cur_col in
        let magnitude :=
          PrimFloat.abs (dist_get ref_dist (NumLabel 1) 0
                         - dist_get curr_dist (NumLabel 1) 0)%float in
        Some {| reference_distribution := ref_dist;
                current_distribution := curr_dist;
                drift_magnitude := magnitude;
                target_status :=
                  if (0.1 <? magnitude)%float then "SIGNIFICANT_DRIFT"
                  else "NO_DRIFT" |}
    | _, _ => None
    end.

(** The number of rows of a label column that hold the value 1. *)
Definition positives (s : Series) : nat :=
  match s with
  | NumSeries l => List.length (filter (Qeq_bool 1) l)
  | ObjSeries _ => O
  end.

(** The share of the rows of a label column that hold the value 1: the
    entry of the distribution under the key 1, and the default 0 when no
    row holds it. *)
Definition positive_share (s : Series) : float :=
  match positives s with
  | O => 0%float
  | k => share k (series_len s)
  end.

(** *** The report of [comprehensive_drift_check] *)

(** [drift_report['target_drift'].get('status')]. *)
Definition target_status_of (t : option TargetDrift) : option string :=
  option_map target_status t.

Definition feature_drift_detected (r : DriftReport) : bool :=
  String.eqb (overall_status (summary (report_feature_drift r)))
      "DRIFT_DETECTED".

Definition target_drift_significant (r : DriftReport) : bool :=
  match target_status_of (report_target_drift r) with
  | Some s => String.eqb s "SIGNIFICANT_DRIFT"
  | None => false
  end.

(** [DriftDetector.get_drift_recommendation]. *)
Definition triggered_messages (r : DriftReport) : list string :=
  let recommendations := [] in
  let recommendations :=
    if feature_drift_detected r
    then (recommendations ++
        ["RETRAIN MODEL: Significant feature drift detected"])%list
    else recommendations in
  let recommendations :=
    if target_drift_significant r
    then (recommendations
            ++
                ["INVESTIGATE DATA: Target distribution has shifted significantly"])%list
    else recommendations in
  let recommendations :=
    match report_performance_drift r with
    | Some p =>
        let st := perf_status p in
        if String.eqb st "SIGNIFICANT_DEGRADATION"
           || String.eqb st "MODERATE_DEGRADATION"
        then (recommendations ++ [("MODEL RETRAINING REQUIRED: " ++
            st)%string])%list
        else recommendations
    | None => recommendations
    end in
  recommendations.

Definition get_drift_recommendation (r : DriftReport) : string :=
  let recommendations := triggered_messages r in
  let recommendations :=
    match recommendations with
    | [] => ["NO ACTION REQUIRED: Model is performing well"]
    | _ => recommendations
    end in
  join " | " recommendations.



(** What [json.dump] can encode: strings, Python numbers and booleans,
    lists and dictionaries of them.  Every entry of the report is one of
    these but the [drift_detected] of a KS verdict, a [numpy.bool_]: a
    report can be encoded exactly when it holds no KS verdict. *)
Definition json_serializable (r : DriftReport) : bool :=
  match statistical_drift (report_statistical_drift r) with
  | [] => true
  | _ :: _ => false
  end.

Definition reports_dir : string := "reports/drift".

Definition latest_file : string := "reports/drift/drift_report_latest.json".

Definition default_alpha : float := 0.05.

(** *** The methods that read the detector and the outside world

    numpy's interpolation of percentiles, the file system, scipy's
    Kolmogorov-Smirnov test and scikit-learn's scores are outside the
    repository: the methods take them as parameters, and every statement
    below holds whatever they answer. *)

Section Detector.

Variable percentile_at : list Q -> Q -> Q.

(** The breakpoints of the bins: the distinct percentiles of the
    reference sample. *)
Definition breakpoints_of (reference : Series) (bins : Z) : result (list Q) :=
  (qs <- linspace 0 100 (bins + 1) ;;
   bps <- percentile percentile_at reference qs ;;
   ret (unique bps))%py.

(** The body of the [try] block. *)
Definition calculate_psi_try (reference current : Series) (bins : Z) : result R
    :=
  (breakpoints <- breakpoints_of reference bins ;;
   if (List.length breakpoints <? 3)%nat then ret 0%R
   else
     ref_counts <- histogram reference breakpoints ;;
     curr_counts <- histogram current breakpoints ;;
     let ref_props := proportions ref_counts (series_len reference) bins in
     let curr_props := proportions curr_counts (series_len current) bins in
     ret (psi_sum ref_props curr_props))%py.

(** [DriftDetector.calculate_psi]: [except Exception] answers 0.0. *)
Definition calculate_psi (reference current : Series) (bins : Z) : R :=
  match calculate_psi_try reference current bins with
  | Ok psi => psi
  | Raise _ => 0%R
  end.

(** [self.calculate_psi(self.reference_data[col], current_data[col])],
    for a column both frames hold. *)
Definition column_psi (reference current : DataFrame) (col : string) : R :=
  match get reference col, get current col with
  | Some ref_col, Some cur_col => calculate_psi ref_col cur_col default_bins
  | _, _ => 0%R
  end.

(** One turn of the loop over [common_cols]; the state is
    [(drift_results, drifted_features)]. *)
Definition feature_step (reference current : DataFrame) (threshold : Q)
    (st : dict Verdict * list string) (col : string)
  : result (dict Verdict * list string) :=
  (cur_col <- getitem current col ;;
   if negb (is_numeric_dtype cur_col) then ret st
   else
     ref_col <- getitem reference col ;;
     let value := calculate_psi ref_col cur_col default_bins in
     let drifted :=
       if Rgeb value (Q2R threshold) then (snd st ++ [col])%list else snd st in
     rm <- series_mean ref_col ;;
     cm <- series_mean cur_col ;;
     rs <- series_std ref_col ;;
     cs <- series_std cur_col ;;
     ret (set (fst st) col
              {| psi := value; status := psi_status value threshold;
                 ref_mean := rm; curr_mean := cm;
                 ref_std := rs; curr_std := cs |},
          drifted))%py.

(** The detector's feature drift on a loaded reference frame. *)
Definition feature_drift_of (reference current : DataFrame) (threshold : Q)
  : result FeatureDrift :=
  (st <- foldM (feature_step reference current threshold)
               (common_cols reference current) ([], []) ;;
   ret {| feature_drift := fst st; summary := summarize (fst st) (snd st)
       |})%py.

Variable read_csv : string -> result DataFrame.
Variable ks_2samp : Series -> Series -> result (float * float).
Variable accuracy_score : Series -> Series -> result score.
Variable f1_score : Series -> Series -> result score.
(** [Path.mkdir(parents=True, exist_ok=True)], [open(file, 'w')], and
    the writes of an encoded report down to the closing of the file. *)
Variable make_dirs : string -> result unit.
Variable open_w : string -> result unit.
Variable write_json : string -> DriftReport -> result unit.
(** The name of the time-stamped report file. *)
Variable timestamped_file : string.

(** [DriftDetector.load_reference_data]. *)
Definition load_reference_data (self : DriftDetector) : result DriftDetector :=
  (df <- read_csv (reference_data_path self) ;;
   ret {| reference_data_path := reference_data_path self;
          reference_data := Some df |})%py.

(** [if self.reference_data is None: self.load_reference_data()], then
    the frame the method goes on to read. *)
Definition with_reference (self : DriftDetector)
  : result (DriftDetector * DataFrame) :=
  match reference_data self with
  | Some df => Ok (self, df)
  | None =>
      (self' <- load_reference_data self ;;
       match reference_data self' with
       | Some df => ret (self', df)
       | None => Raise TypeError
       end)%py
  end.

(** [DriftDetector.detect_feature_drift]; [threshold] defaults to 0.2. *)
Definition detect_feature_drift (self : DriftDetector) (current_data :
    DataFrame)
    (threshold : Q) : result (FeatureDrift * DriftDetector) :=
  (sr <- with_reference self ;;
   fd <- feature_drift_of (snd sr) current_data threshold ;;
   ret (fd, fst sr))%py.

(** One turn of the loop of [detect_statistical_drift].  The modelled
    columns hold no missing value, so [dropna()] returns them as they
    are. *)
Definition statistical_step (reference current : DataFrame) (alpha : float)
    (drift_results : dict KsVerdict) (col : string) : result (dict KsVerdict) :=
  (cur_col <- getitem current col ;;
   if negb (is_numeric_dtype cur_col) then ret drift_results
   else
     ref_col <- getitem reference col ;;
     sp <- ks_2samp ref_col cur_col ;;
     ret (set drift_results col
              {| statistic := fst sp; p_value := snd sp;
                 ks_drift_detected := (snd sp <? alpha)%float |}))%py.

(** [DriftDetector.detect_statistical_drift]; [alpha] defaults to 0.05. *)
Definition detect_statistical_drift (self : DriftDetector)
    (current_data : DataFrame) (alpha : float)
  : result (StatisticalDrift * DriftDetector) :=
  (sr <- with_reference self ;;
   drift_results <- foldM (statistical_step (snd sr) current_data alpha)
                          (common_cols (snd sr) current_data) [] ;;
   let drifted_count :=
     List.length (filter (fun kv => ks_drift_detected (snd kv)) drift_results)
         in
   ret ({| statistical_drift := drift_results;
           ks_summary := {| ks_total_features := len drift_results;
                            ks_drifted_features := drifted_count;
                            significance_level := alpha |} |},
        fst sr))%py.

(** [DriftDetector.detect_target_drift]. *)
Definition detect_target_drift (self : DriftDetector) (current_data : DataFrame)
  : result (option TargetDrift * DriftDetector) :=
  (sr <- with_reference self ;;
   ret (target_drift_of (snd sr) current_data, fst sr))%py.

(** [DriftDetector.detect_model_performance_drift].  A model is its
    [predict] method.  The drop has the type of the accuracy; dividing it
    by a zero baseline raises when it is a Python float and answers an
    infinity or a NaN when it is a [numpy.float64]. *)
Definition detect_model_performance_drift (model : DataFrame -> result Series)
    (current_data : DataFrame) (current_labels : Series) (baseline : float)
  : result PerformanceDrift :=
  (predictions <- model current_data ;;
   accuracy <- accuracy_score current_labels predictions ;;
   f1 <- f1_score current_labels predictions ;;
   let drop := (baseline - score_value accuracy)%float in
   degradation <-
     match accuracy with
     | PyFloat _ =>
         if (baseline =? 0)%float then Raise ZeroDivisionError
         else ret (drop / baseline * 100)%float
     | NpFloat64 _ => ret (drop / baseline * 100)%float
     end ;;
   let st :=
     if (10 <? degradation)%float then "SIGNIFICANT_DEGRADATION"
     else if (5 <? degradation)%float then "MODERATE_DEGRADATION"
     else "NO_DEGRADATION" in
   ret {| baseline_accuracy := baseline;
          current_accuracy := score_value accuracy;
          current_f1 := score_value f1; accuracy_drop := drop;
          performance_degradation_pct := degradation; perf_status := st |})%py.

(** [json.dump(report, f, indent=2)]: a value that cannot be encoded
    raises [TypeError]. *)
Definition json_dump (file : string) (report : DriftReport) : result unit :=
  if json_serializable report then write_json file report
  else Raise TypeError.

(** [DriftDetector.save_drift_report]: the report is written twice. *)
Definition save_drift_report (report : DriftReport) : result unit :=
  (_ <- make_dirs reports_dir ;;
   _ <- open_w timestamped_file ;;
   _ <- json_dump timestamped_file report ;;
   _ <- open_w latest_file ;;
   json_dump latest_file report)%py.

(** [DriftDetector.comprehensive_drift_check]. *)
Definition comprehensive_drift_check (self : DriftDetector)
    (current_data : DataFrame) (current_labels : option Series)
    (model : option (DataFrame -> result Series)) (baseline : option float)
  : result (DriftReport * DriftDetector) :=
  (fs <- detect_feature_drift self current_data default_threshold ;;
   ss <- detect_statistical_drift (snd fs) current_data default_alpha ;;
   ts <- detect_target_drift (snd ss) current_data ;;
   performance <-
     match model, current_labels, baseline with
     | Some m, Some labels, Some b =>
         let X_current := drop_column current_data target_col in
         p <- detect_model_performance_drift m X_current labels b ;;
         ret (Some p)
     | _, _, _ => ret None
     end ;;
   let drift_report :=
     {| data_size := frame_len current_data;
        report_feature_drift := fst fs;
        report_statistical_drift := fst ss;
        report_target_drift := fst ts;
        report_performance_drift := performance;
        overall_assessment := None |} in
   let detected :=
     feature_drift_detected drift_report || target_drift_significant
         drift_report in
   let drift_report :=
     {| data_size := data_size drift_report;
        report_feature_drift := report_feature_drift drift_report;
        report_statistical_drift := report_statistical_drift drift_report;
        report_target_drift := report_target_drift drift_report;
        report_performance_drift := report_performance_drift drift_report;
        overall_assessment :=
          Some {| drift_detected := detected;
                  action_required := detected;
                  recommendation := get_drift_recommendation drift_report |} |}
                      in
   _ <- save_drift_report drift_report ;;
   ret (drift_report, snd ts))%py.

End Detector.

End Drift.

(** ** Sample frames and stand-ins for the outside world *)

Module Samples.

Import Np Drift.
Open Scope string_scope.
Open Scope Q_scope.

(** Linear interpolation between the two closest ranks, in exact
    arithmetic.  Where the rank [q / 100 * (n - 1)] is whole it answers
    the order statistic of that rank, and so does numpy; the sample
    columns below have 11 rows (or 5, for 4 bins), which puts every
    percentile the index asks for on a whole rank. *)
Definition linear_percentile_at (sorted : list Q) (q : Q) : Q :=
  let n := List.length sorted in
  let virtual_index := (q / 100) * inject_Z (Z.of_nat n - 1) in
  let previous := Qfloor virtual_index in
  let gamma := virtual_index - inject_Z previous in
  let lo := nth (Z.to_nat previous) sorted 0 in
  let hi := nth (Nat.min (Z.to_nat previous + 1) (n - 1)) sorted 0 in
  lo + gamma * (hi - lo).

Definition reference_frame : DataFrame :=
  [ ("age", NumSeries [25; 31; 38; 44; 52; 60; 33; 47; 29; 55; 41]);
    ("stress_level", NumSeries [2; 5; 7; 3; 8; 6; 4; 9; 1; 5; 6]);
    ("notes", ObjSeries ["none"; "aura"; "none"; "none"; "aura"; "none";
                         "none"; "none"; "aura"; "none"; "none"]);
    ("migraine_occurrence", NumSeries [1; 0; 0; 1; 0; 0; 1; 0; 0; 0; 1]) ].

(** A current frame of older patients: every age lies above the ages of
    the reference, the stress levels are those of the reference, and two
    columns hold strings, one of them shared. *)
Definition current_frame : DataFrame :=
  [ ("age", NumSeries [66; 71; 78; 84; 92; 61; 73; 87; 69; 95; 81]);
    ("city", ObjSeries ["Pune"; "Chennai"; "Delhi"; "Pune"; "Pune"; "Delhi";
                        "Chennai"; "Pune"; "Delhi"; "Pune"; "Chennai"]);
    ("notes", ObjSeries ["aura"; "none"; "none"; "aura"; "none"; "none";
                         "none"; "aura"; "none"; "none"; "none"]);
    ("stress_level", NumSeries [2; 5; 7; 3; 8; 6; 4; 9; 1; 5; 6]);
    ("migraine_occurrence", NumSeries [1; 1; 0; 1; 0; 0; 1; 0; 1; 0; 1]) ].

(** Ten rows, three of them positive. *)
Definition label_frame : DataFrame :=
  [ ("migraine_occurrence", NumSeries [1; 0; 0; 1; 0; 0; 1; 0; 0; 0]) ].

(** Ten rows, four of them positive. *)
Definition label_frame_40 : DataFrame :=
  [ ("migraine_occurrence", NumSeries [1; 0; 1; 1; 0; 0; 1; 0; 0; 0]) ].

(** Twenty rows, nine of them positive. *)
Definition shifted_label_frame : DataFrame :=
  [ ("migraine_occurrence",
     NumSeries [1; 0; 1; 0; 1; 0; 1; 0; 1; 0; 1; 0; 1; 0; 1; 0; 1; 0; 0; 0]) ].

(** A frame without the label. *)
Definition unlabelled_frame : DataFrame :=
  [ ("age", NumSeries [26; 30; 39]) ].

(** A reference whose [age] column was read as text. *)
Definition text_reference_frame : DataFrame :=
  [ ("age", ObjSeries ["young"; "old"]) ].

Definition numeric_age_frame : DataFrame :=
  [ ("age", NumSeries [30; 40]) ].

Definition fresh_detector : DriftDetector :=
  {| reference_data_path := "data/processed/classification_data.csv";
     reference_data := None |}.

Definition loaded_detector (reference : DataFrame) : DriftDetector :=
  {| reference_data_path := "data/processed/classification_data.csv";
     reference_data := Some reference |}.

Definition read_csv_sample (path : string) : result DataFrame :=
  Ok reference_frame.

Definition ks_same (reference current : Series) : result (float * float) :=
  Ok (0%float, 1%float).

Definition ks_apart (reference current : Series) : result (float * float) :=
  Ok (1%float, 0%float).

(** A score function that answers a fixed value, as a Python float. *)
Definition score_of (value : float) (truth predicted : Series) : result score :=
  Ok (PyFloat value).

(** The same, as [numpy.float64]. *)
Definition numpy_score_of (value : float) (truth predicted : Series)
  : result score :=
  Ok (NpFloat64 value).

(** A file system that accepts everything: the directory can be made,
    the files opened, and an encoded report written.  Whether a report
    can be encoded is not for the file system to say: [json_dump] decides
    it before anything is written. *)
Definition make_dirs_ok (path : string) : result unit := Ok tt.

Definition open_ok (path : string) : result unit := Ok tt.

Definition write_json_ok (path : string) (report : DriftReport) : result unit :=
  Ok tt.

Definition constant_model (predictions : Series) (X : DataFrame) : result Series
    :=
  Ok predictions.

(** The labels of [shifted_label_frame], and predictions that agree with
    them on twelve rows of twenty. *)
Definition sample_labels : Series :=
  NumSeries [1; 0; 1; 0; 1; 0; 1; 0; 1; 0; 1; 0; 1; 0; 1; 0; 1; 0; 0; 0].

Definition sample_predictions : Series :=
  NumSeries [1; 0; 1; 0; 1; 0; 1; 0; 1; 0; 1; 0; 0; 1; 0; 1; 0; 1; 1; 1].


End Samples.

(** ** [scripts/evaluate_models.py]: the HTML class and the script's loop *)

Module EvaluationScript.

Import Evaluate.
Open Scope string_scope.

(** [str.lower()], on the ASCII letters the status strings are made of. *)
Definition lower_ascii (c : ascii) : ascii :=
  let n := nat_of_ascii c in
  if (65 <=? n)%nat && (n <=? 90)%nat then ascii_of_nat (n + 32) else c.

Fixpoint lower (s : string) : string :=
  match s with
  | EmptyString => EmptyString
  | String c rest => String (lower_ascii c) (lower rest)
  end.

(** [s.replace(old, new)] for a one-character [old]. *)
Fixpoint replace_char (old : ascii) (new : string) (s : string) : string :=
  match s with
  | EmptyString => EmptyString
  | String c rest =>
      if Ascii.eqb c old then new ++ replace_char old new rest
      else String c (replace_char old new rest)
  end.

(** [results['overfitting_status']['status'].lower().replace('_', '')]
    in [generate_html_report]. *)
Definition status_class (status : string) : string :=
  replace_char "_"%char "" (lower status).

(** The class selectors of the style sheet of [generate_html_report]. *)
Definition stylesheet_classes : list string :=
  [ "header"; "model-section"; "metric"; "metric-label"; "metric-value";
    "good-fit"; "overfitting"; "underfitting" ].

(** What stops the script: a name that was never bound, or an exception
    of a call. *)
Inductive script_exn : Type :=
| NameError (name : string)
| Library (e : exn).

Inductive outcome (A : Type) : Type :=
| Finished (a : A)
| Aborted (e : script_exn).

Arguments Finished {A} a.
Arguments Aborted {A} e.

Section Script.

(** Pickled models and evaluation results are opaque here; the file
    system, [pickle.load] and [evaluate_classification] (scikit-learn and
    matplotlib throughout) are parameters. *)
Variable Model : Type.
Variable Results : Type.
Variable path_exists : string -> bool.
Variable pickle_load : string -> result Model.
Variable evaluate_classification : Model -> string -> result Results.

(** One turn of the two loops of [load_models]. *)
Definition load_one (models : dict Model) (file key : string)
  : result (dict Model) :=
  if path_exists file
  then (m <- pickle_load file ;; ret (set models key m))%py
  else Ok models.

(** [ModelEvaluator.load_models], with [models_dir] the working
    directory. *)
Definition load_models : result (dict Model) :=
  (models <- load_one [] "classification_model_top1.pkl" "classification_top1"
      ;;
   models <- load_one models "classification_model_top2.pkl"
       "classification_top2" ;;
   models <- load_one models "regression_model_top1.pkl" "regression_top1" ;;
   load_one models "regression_model_top2.pkl" "regression_top2")%py.

(** One turn of the loop of the script; the state is the variable
    [results] ([None] while unbound) and [evaluator.evaluation_results]. *)
Definition evaluate_step (st : option Results * dict Results)
    (entry : string * Model) : outcome (option Results * dict Results) :=
  let model_name := fst entry in
  let model := snd entry in
  if contains "classification" model_name then
    match evaluate_classification model model_name with
    | Ok r => Finished (Some r, set (snd st) model_name r)
    | Raise e => Aborted (Library e)
    end
  else
    match fst st with
    | Some r => Finished (fst st, set (snd st) model_name r)
    | None => Aborted (NameError "results")
    end.

Fixpoint evaluate_all (models : dict Model)
    (st : option Results * dict Results)
  : outcome (option Results * dict Results) :=
  match models with
  | [] => Finished st
  | entry :: rest =>
      match evaluate_step st entry with
      | Finished st' => evaluate_all rest st'
      | Aborted e => Aborted e
      end
  end.

(** The script from [load_models] to the end of its loop. *)
Definition evaluate_loaded_models : outcome (dict Results) :=
  match load_models with
  | Raise e => Aborted (Library e)
  | Ok models =>
      match evaluate_all models (None, []) with
      | Finished st => Finished (snd st)
      | Aborted e => Aborted e
      end
  end.

End Script.

End EvaluationScript.

(** * Properties *)

(** ** Binary64 arithmetic

    Facts of IEEE 754 double precision, proved from the specification of
    the operations in [SpecFloat]: the order is transitive, the absolute
    difference is symmetric, the quotient of two counts and the absolute
    difference of two such quotients lie between 0 and 1, and a
    difference [a - b] with [a <= b] is never positive. *)

Module Binary64Facts.

(** *** Digits and shifts *)

Lemma digits2_size (p : positive) : digits2_pos p = Pos.size p.
Proof. induction p; cbn; congruence. Qed.

Lemma digits2_bounds (p : positive) :
  (2 ^ (Zpos (digits2_pos p) - 1) <= Zpos p < 2 ^ Zpos (digits2_pos p))%Z.
Proof.
  rewrite digits2_size.
  pose proof (Pos.size_gt p) as Hgt. pose proof (Pos.size_le p) as Hle.
  assert (H2 : (Zpos (2 ^ Pos.size p) = 2 ^ Zpos (Pos.size p))%Z)
    by (now rewrite Pos2Z.inj_pow).
  split.
  - assert (Hd : (2 ^ Zpos (Pos.size p) = 2 * 2 ^ (Zpos (Pos.size p) - 1))%Z).
    { rewrite <- Z.pow_succ_r by lia. f_equal. lia. }
    assert (Hz : (Zpos (2 ^ Pos.size p) <= Zpos p~0)%Z) by exact Hle.
    rewrite H2, Hd in Hz. lia.
  - rewrite <- H2. exact Hgt.
Qed.

Lemma digits2_unique (p : positive) (k : Z) :
  (2 ^ (k - 1) <= Zpos p < 2 ^ k)%Z -> Zpos (digits2_pos p) = k.
Proof.
  intros [Hlo Hhi]. pose proof (digits2_bounds p) as [Dlo Dhi].
  set (d := Zpos (digits2_pos p)) in *.
  assert (Hk : (0 < k)%Z).
  { destruct (Z_lt_le_dec 0 k) as [H|H]; [exact H|].
    assert (2 ^ k <= 1)%Z.
    { destruct (Z.eq_dec k 0) as [->|Hne]; [cbn; lia|].
      rewrite Z.pow_neg_r by lia. lia. }
    lia. }
  destruct (Z.lt_trichotomy d k) as [Hlt|[Heq|Hgt]]; [|exact Heq|].
  - exfalso. assert (2 ^ d <= 2 ^ (k - 1))%Z by (apply Z.pow_le_mono_r; lia).
      lia.
  - exfalso. assert (2 ^ k <= 2 ^ (d - 1))%Z by (apply Z.pow_le_mono_r; lia).
      lia.
Qed.

Lemma shr_1_m (mrs : shr_record) :
  (0 <= shr_m mrs)%Z -> shr_m (shr_1 mrs) = (shr_m mrs / 2)%Z.
Proof.
  destruct mrs as [m r s]. cbn [shr_m]. intro H.
  destruct m as [|p|p]; [reflexivity| |lia].
  destruct p as [p|p|]; cbn [shr_1 shr_m].
  - rewrite Pos2Z.inj_xI. apply Z.div_unique with (r := 1%Z); lia.
  - rewrite Pos2Z.inj_xO. apply Z.div_unique with (r := 0%Z); lia.
  - reflexivity.
Qed.

Lemma iter_pos_shr_1 (k : positive) :
  forall mrs, (0 <= shr_m mrs)%Z ->
  shr_m (iter_pos shr_1 k mrs) = (shr_m mrs / 2 ^ Zpos k)%Z.
Proof.
  induction k as [k IH|k IH|]; intros mrs H; cbn [iter_pos].
  - assert (H1 : (0 <= shr_m (shr_1 mrs))%Z)
      by (rewrite shr_1_m by exact H; apply Z.div_pos; lia).
    assert (H2 : (0 <= shr_m (iter_pos shr_1 k (shr_1 mrs)))%Z)
      by (rewrite IH by exact H1; apply Z.div_pos; [exact H1|apply
          Z.pow_pos_nonneg; lia]).
    rewrite IH by exact H2. rewrite IH by exact H1. rewrite shr_1_m by exact H.
    rewrite !Z.div_div by (try apply Z.pow_pos_nonneg; lia).
    f_equal. replace (Z.pos k~1) with (Z.pos k + Z.pos k + 1)%Z by lia.
    rewrite !Z.pow_add_r, Z.pow_1_r by lia. ring.
  - assert (H2 : (0 <= shr_m (iter_pos shr_1 k mrs))%Z)
      by (rewrite IH by exact H; apply Z.div_pos; [exact H|apply
          Z.pow_pos_nonneg; lia]).
    rewrite IH by exact H2. rewrite IH by exact H.
    rewrite !Z.div_div by (try apply Z.pow_pos_nonneg; lia).
    f_equal. replace (Z.pos k~0) with (Z.pos k + Z.pos k)%Z by lia.
    now rewrite Z.pow_add_r by lia.
  - rewrite shr_1_m by exact H. reflexivity.
Qed.

Lemma round_nearest_even_cases (m : Z) (l : location) :
  round_nearest_even m l = m \/ round_nearest_even m l = (m + 1)%Z.
Proof.
  destruct l as [|[]]; cbn; auto. destruct (Z.even m); auto.
Qed.

Lemma loc_of_record_of_loc (m : Z) (l : location) :
  loc_of_shr_record (shr_record_of_loc m l) = l.
Proof. destruct l as [|[]]; reflexivity. Qed.

Lemma shr_m_record_of_loc (m : Z) (l : location) :
  shr_m (shr_record_of_loc m l) = m.
Proof. destruct l as [|[]]; reflexivity. Qed.

(** *** Rounding *)

Lemma fexp_eq (x : Z) : fexp prec emax x = Z.max (x - 53) (-1074).
Proof. reflexivity. Qed.

Lemma round_aux_canonical (s : bool) (m : positive) (e : Z) :
  canonical_mantissa prec emax m e = true ->
  (e <= 971)%Z ->
  binary_round_aux prec emax s (Zpos m) e loc_Exact = S754_finite s m e.
Proof.
  unfold canonical_mantissa. intros Hc He. apply Z.eqb_eq in Hc.
  unfold binary_round_aux, shr_fexp. cbn [Zdigits2 shr_record_of_loc].
  rewrite Hc, Z.sub_diag. cbn [shr loc_of_shr_record round_nearest_even shr_m].
  cbn [Zdigits2 shr_record_of_loc]. rewrite Hc, Z.sub_diag. cbn [shr shr_m].
  assert (H : (e <=? emax - prec)%Z = true) by (apply Z.leb_le; cbn; lia).
  now rewrite H.
Qed.

Lemma round_aux_shape (s : bool) (m : positive) (e : Z) (l : location) :
  (53 <= Zpos (digits2_pos m))%Z ->
  (-1074 <= e + Zpos (digits2_pos m) - 53)%Z ->
  (e + Zpos (digits2_pos m) - 52 <= 971)%Z ->
  (exists m1,
      binary_round_aux prec emax s (Zpos m) e l
      = S754_finite s m1 (e + Zpos (digits2_pos m) - 53)
      /\ Zpos (digits2_pos m1) = 53%Z)
  \/ binary_round_aux prec emax s (Zpos m) e l
     = S754_finite s 4503599627370496 (e + Zpos (digits2_pos m) - 52).
Proof.
  intros Hd Hlo Hhi. set (d := Zpos (digits2_pos m)) in *.
  pose proof (digits2_bounds m) as [Dlo Dhi]. fold d in Dlo, Dhi.
  unfold binary_round_aux, shr_fexp. cbn [Zdigits2]. fold d.
  rewrite fexp_eq.
  replace (Z.max (d + e - 53) (-1074) - e)%Z with (d - 53)%Z by lia.
  (* the first shift *)
  assert (Hfirst :
    exists mrs',
      shr (shr_record_of_loc (Zpos m) l) e (d - 53) = (mrs', (e + d - 53)%Z)
      /\ (2 ^ 52 <= shr_m mrs' < 2 ^ 53)%Z).
  { destruct (d - 53)%Z as [|k|k] eqn:Hk; [| |lia].
    - exists (shr_record_of_loc (Zpos m) l). cbn [shr]. split.
      + f_equal. lia.
      + rewrite shr_m_record_of_loc. replace d with 53%Z in * by lia.
        cbn in Dlo |- *. lia.
    - exists (iter_pos shr_1 k (shr_record_of_loc (Zpos m) l)). cbn [shr].
        split.
      + f_equal. lia.
      + rewrite iter_pos_shr_1 by (rewrite shr_m_record_of_loc; lia).
        rewrite shr_m_record_of_loc.
        assert (Hp : (0 < 2 ^ Zpos k)%Z) by (apply Z.pow_pos_nonneg; lia).
        assert (E1 : (2 ^ (d - 1) = 2 ^ Zpos k * 2 ^ 52)%Z).
        { rewrite <- Z.pow_add_r by lia. f_equal. lia. }
        assert (E2 : (2 ^ d = 2 ^ Zpos k * 2 ^ 53)%Z).
        { rewrite <- Z.pow_add_r by lia. f_equal. lia. }
        split.
        * apply Z.div_le_lower_bound; [exact Hp|]. lia.
        * apply Z.div_lt_upper_bound; [exact Hp|]. lia. }
  destruct Hfirst as (mrs' & -> & Hm').
  set (m1 := round_nearest_even (shr_m mrs') (loc_of_shr_record mrs')).
  assert (Hm1 : (2 ^ 52 <= m1 <= 2 ^ 53)%Z).
  { unfold m1.
    destruct (round_nearest_even_cases (shr_m mrs') (loc_of_shr_record mrs'))
      as [-> | ->]; lia. }
  destruct m1 as [|p1|p1] eqn:Hp1; [cbn in Hm1; lia| |cbn in Hm1; lia].
  cbn [Zdigits2 shr_record_of_loc]. rewrite fexp_eq.
  destruct (Z.eq_dec (Zpos p1) (2 ^ 53)) as [Heq|Hne].
  - right. assert (Hp : p1 = 9007199254740992%positive) by (cbn in Heq;
      congruence).
    subst p1. cbn [digits2_pos Pos.succ].
    replace (Z.max (54 + (e + d - 53) - 53) (-1074) - (e + d - 53))%Z with 1%Z
        by lia.
    cbn [shr iter_pos shr_1 shr_m orb].
    assert (H : (e + d - 53 + 1 <=? emax - prec)%Z = true)
      by (apply Z.leb_le; cbn; lia).
    rewrite H. f_equal. lia.
  - left. assert (Hdig : Zpos (digits2_pos p1) = 53%Z)
      by (apply digits2_unique; cbn in Hm1 |- *; cbn in Hne; lia).
    rewrite Hdig.
    replace (Z.max (53 + (e + d - 53) - 53) (-1074) - (e + d - 53))%Z with 0%Z
        by lia.
    cbn [shr shr_m].
    assert (H : (e + d - 53 <=? emax - prec)%Z = true)
      by (apply Z.leb_le; cbn; lia).
    rewrite H. exists p1. split; [reflexivity|exact Hdig].
Qed.

(** *** Alignment and the conversion of integers *)

Lemma iter_xO_value (m k : positive) :
  Zpos (Pos.iter xO m k) = (Zpos m * 2 ^ Zpos k)%Z.
Proof.
  induction k as [|k IH] using Pos.peano_ind.
  - cbn. lia.
  - rewrite Pos.iter_succ, Pos2Z.inj_xO, IH, Pos2Z.inj_succ, Z.pow_succ_r by
      lia.
    ring.
Qed.

Lemma iter_xO_digits (m k : positive) :
  Zpos (digits2_pos (Pos.iter xO m k)) = (Zpos (digits2_pos m) + Zpos k)%Z.
Proof.
  induction k as [|k IH] using Pos.peano_ind.
  - cbn. lia.
  - rewrite Pos.iter_succ. cbn [digits2_pos]. rewrite Pos2Z.inj_succ, IH. lia.
Qed.

(** [shl_align] keeps the value and lowers the exponent. *)
Lemma shl_align_spec (m : positive) (e e' : Z) :
  (e' <= e)%Z ->
  exists m',
    shl_align m e e' = (m', e')
    /\ Zpos m' = (Zpos m * 2 ^ (e - e'))%Z
    /\ Zpos (digits2_pos m') = (Zpos (digits2_pos m) + (e - e'))%Z.
Proof.
  intro H. unfold shl_align. destruct (e' - e)%Z as [|k|k] eqn:Hk; [|lia|].
  - exists m. replace (e - e')%Z with 0%Z by lia. replace e' with e by lia.
    split; [reflexivity|]. split; [cbn; lia|lia].
  - exists (Pos.iter xO m k). replace (e - e')%Z with (Zpos k) by lia.
    split; [reflexivity|]. split; [apply iter_xO_value|apply iter_xO_digits].
Qed.

Lemma shl_align_none (m : positive) (e e' : Z) :
  (e <= e')%Z -> shl_align m e e' = (m, e).
Proof.
  intro H. unfold shl_align. destruct (e' - e)%Z eqn:Hk; try reflexivity. lia.
Qed.

(** The float of a positive integer below 2^53: the integer itself, with
    53 digits. *)
Lemma normalize_small_int (c : positive) :
  (Zpos c < 2 ^ 53)%Z ->
  exists m,
    binary_normalize prec emax (Zpos c) 0 false
    = S754_finite false m (Zpos (digits2_pos c) - 53)
    /\ Zpos (digits2_pos m) = 53%Z
    /\ Zpos m = (Zpos c * 2 ^ (53 - Zpos (digits2_pos c)))%Z.
Proof.
  intro Hc. pose proof (digits2_bounds c) as [Dlo Dhi].
  set (d := Zpos (digits2_pos c)) in *.
  assert (Hd : (1 <= d <= 53)%Z).
  { split; [unfold d; lia|].
    destruct (Z_le_gt_dec d 53) as [H|H]; [exact H|].
    assert (2 ^ 53 <= 2 ^ (d - 1))%Z by (apply Z.pow_le_mono_r; lia). lia. }
  cbn [binary_normalize]. unfold binary_round. fold d. rewrite fexp_eq.
  replace (Z.max (d + 0 - 53) (-1074)) with (d - 53)%Z by lia.
  destruct (shl_align_spec c 0 (d - 53)) as (m & -> & Hval & Hdig); [lia|].
  fold d in Hdig. exists m.
  rewrite round_aux_canonical.
  - split; [reflexivity|]. split; [lia|]. rewrite Hval. f_equal. f_equal. lia.
  - unfold canonical_mantissa. apply Z.eqb_eq. rewrite fexp_eq, Hdig. lia.
  - lia.
Qed.

(** *** The quotient of two counts *)

Lemma digits2_mono (c n : positive) :
  (Zpos c <= Zpos n)%Z -> (Zpos (digits2_pos c) <= Zpos (digits2_pos n))%Z.
Proof.
  intro H. pose proof (digits2_bounds c) as [Clo _].
  pose proof (digits2_bounds n) as [_ Nhi].
  destruct (Z_le_gt_dec (Zpos (digits2_pos c)) (Zpos (digits2_pos n))) as [L|G];
    [exact L|].
  assert (2 ^ Zpos (digits2_pos n) <= 2 ^ (Zpos (digits2_pos c) - 1))%Z
    by (apply Z.pow_le_mono_r; lia).
  lia.
Qed.

Lemma div_eucl_div (a b q r : Z) :
  Z.div_eucl a b = (q, r) -> q = (a / b)%Z /\ r = (a mod b)%Z.
Proof. intro H. unfold Z.div, Z.modulo. now rewrite H. Qed.

Lemma new_location_zero (n : Z) : new_location n 0 = loc_Exact.
Proof.
  unfold new_location, new_location_even, new_location_odd.
  now destruct (Z.even n).
Qed.

(** A result of rounding with at most 53 + [k] digits at exponent [e],
    where [e + digits <= 0], lies in the unit interval. *)
Lemma round_aux_unit (m : positive) (e : Z) (l : location) :
  (53 <= Zpos (digits2_pos m))%Z ->
  (-1074 <= e + Zpos (digits2_pos m) - 53)%Z ->
  (e + Zpos (digits2_pos m) <= 0)%Z ->
  Binary64.in_unit_interval (binary_round_aux prec emax false (Zpos m) e l) =
      true.
Proof.
  intros Hd Hlo Hhi.
  destruct (round_aux_shape false m e l Hd Hlo) as [(m1 & -> & _) | ->]; [lia|
      |].
  - cbn [Binary64.in_unit_interval].
    assert (H : (e + Zpos (digits2_pos m) - 53 <? -52)%Z = true)
      by (apply Z.ltb_lt; lia).
    now rewrite H.
  - cbn [Binary64.in_unit_interval].
    destruct (Z.ltb_spec (e + Zpos (digits2_pos m) - 52) (-52)) as [H|H];
      [reflexivity|].
    assert (E : (e + Zpos (digits2_pos m) - 52 =? -52)%Z = true)
      by (apply Z.eqb_eq; lia).
    rewrite E. reflexivity.
Qed.

Lemma div_small_ints (c n : positive) :
  (Zpos c <= Zpos n)%Z -> (Zpos n < 2 ^ 53)%Z ->
  Binary64.in_unit_interval
    (SFdiv prec emax (binary_normalize prec emax (Zpos c) 0 false)
                     (binary_normalize prec emax (Zpos n) 0 false)) = true.
Proof.
  intros Hcn Hn.
  destruct (normalize_small_int c) as (mc & -> & Dc & Vc); [lia|].
  destruct (normalize_small_int n) as (mn & -> & Dn & Vn); [exact Hn|].
  pose proof (digits2_mono c n Hcn) as Hmono.
  pose proof (digits2_bounds c) as [_ Chi].
  pose proof (digits2_bounds n) as [_ Nhi].
  pose proof (digits2_bounds mc) as [MClo MChi]. rewrite Dc in MClo, MChi.
  pose proof (digits2_bounds mn) as [MNlo MNhi]. rewrite Dn in MNlo, MNhi.
  set (dc := Zpos (digits2_pos c)) in *. set (dn := Zpos (digits2_pos n)) in *.
  assert (Hdn : (dn <= 53)%Z).
  { destruct (Z_le_gt_dec dn 53) as [H|H]; [exact H|].
    pose proof (digits2_bounds n) as [Nlo _]. fold dn in Nlo.
    assert (2 ^ 53 <= 2 ^ (dn - 1))%Z by (apply Z.pow_le_mono_r; lia). lia. }
  assert (Hdc : (1 <= dc)%Z) by (unfold dc; lia).
  cbn [SFdiv xorb]. unfold SFdiv_core_binary. cbn [Zdigits2].
  rewrite Dc, Dn, fexp_eq.
  replace (Z.min (Z.max (53 + (dc - 53) - (53 + (dn - 53)) - 53) (-1074))
                 (dc - 53 - (dn - 53)))
    with (dc - dn - 53)%Z by lia.
  replace (dc - 53 - (dn - 53) - (dc - dn - 53))%Z with 53%Z by lia.
  rewrite Z.shiftl_mul_pow2 by lia.
  destruct (Z.div_eucl (Zpos mc * 2 ^ 53) (Zpos mn)) as [q r] eqn:Hqr.
  apply div_eucl_div in Hqr as [Hq Hr].
  destruct (Z.eq_dec (Zpos c) (Zpos n)) as [Heq|Hne].
  - (* equal counts: the quotient is 1.0 *)
    assert (c = n) by congruence. subst n. clear Hcn.
    assert (mn = mc) by (apply Pos2Z.inj; rewrite Vc, Vn; reflexivity).
    subst mn. rewrite (Z.mul_comm (Zpos mc)) in Hq, Hr.
    rewrite Z.div_mul in Hq by lia. rewrite Z.mod_mul in Hr by lia.
    subst q r. rewrite new_location_zero.
    replace (dc - dn - 53)%Z with (-53)%Z by (unfold dc, dn; lia).
    vm_compute. reflexivity.
  - assert (Hlt : (Zpos c < Zpos n)%Z) by lia.
    assert (Hpow : forall k, (0 < 2 ^ (53 - k))%Z \/ (53 < k)%Z).
    { intro k. destruct (Z_le_gt_dec k 53); [left; apply Z.pow_pos_nonneg;
        lia|right; lia]. }
    assert (Hq52 : (2 ^ 52 <= q)%Z).
    { subst q. apply Z.div_le_lower_bound; [lia|].
      change (2 ^ 53)%Z with (2 * 2 ^ 52)%Z. nia. }
    assert (Hq54 : (q < 2 ^ 54)%Z).
    { subst q. apply Z.div_lt_upper_bound; [lia|].
      change (2 ^ 54)%Z with (2 * 2 ^ 53)%Z. nia. }
    destruct q as [|pq|pq]; [cbn in Hq52; lia| |cbn in Hq52; lia].
    destruct (Z_lt_le_dec (Zpos pq) (2 ^ 53)) as [Hsmall|Hbig].
    + assert (Dq : Zpos (digits2_pos pq) = 53%Z)
        by (apply digits2_unique; cbn in Hq52, Hsmall |- *; lia).
      apply round_aux_unit; rewrite Dq; lia.
    + assert (Dq : Zpos (digits2_pos pq) = 54%Z)
        by (apply digits2_unique; cbn in Hq54, Hbig |- *; lia).
      assert (Hx : (dc < dn)%Z).
      { destruct (Z.eq_dec dc dn) as [E|E]; [|lia]. exfalso.
        assert (Hm : (Zpos mc < Zpos mn)%Z).
        { rewrite Vc, Vn. fold dc dn. rewrite E.
          apply Z.mul_lt_mono_pos_r; [apply Z.pow_pos_nonneg; lia|exact Hlt]. }
        assert (Zpos pq < 2 ^ 53)%Z.
        { rewrite Hq. apply Z.div_lt_upper_bound; [lia|]. nia. }
        lia. }
      apply round_aux_unit; rewrite Dq; lia.
Qed.

(** *** Order and absolute value *)

Lemma cmp_spec (a b : positive) :
  CompareSpec (a = b) (a < b)%positive (b < a)%positive (PosDef.Pos.compare_cont
      Eq a b).
Proof. exact (Pos.compare_spec a b). Qed.

Lemma SFleb_ltb_trans (a b c : spec_float) :
  SFleb a b = true -> SFltb b c = true -> SFltb a c = true.
Proof.
  unfold SFleb, SFltb.
  destruct a as [sa|sa| |sa ma ea], b as [sb|sb| |sb mb eb], c as [sc|sc| |sc mc
      ec];
    cbn; try discriminate; try reflexivity;
    repeat match goal with
           | s : bool |- _ => destruct s
           end; cbn; try discriminate; try reflexivity.
  all: destruct (Z.compare_spec ea eb); destruct (Z.compare_spec eb ec);
       destruct (Z.compare_spec ea ec); subst; try discriminate; try
           reflexivity; try lia.
  all: destruct (cmp_spec ma mb); destruct (cmp_spec mb mc);
       destruct (cmp_spec ma mc); subst; cbn; intros; try discriminate; try
           reflexivity; try lia.
Qed.

Lemma SFabs_round_aux s m e l :
  SFabs (binary_round_aux prec emax s m e l) = binary_round_aux prec emax false
      m e l.
Proof.
  unfold binary_round_aux.
  destruct (shr_fexp prec emax m e l) as [mrs' e'].
  destruct (shr_fexp prec emax _ e' loc_Exact) as [mrs'' e''].
  destruct (shr_m mrs''); try reflexivity.
  destruct (Z.leb e'' _); reflexivity.
Qed.

Lemma SFabs_normalize m e sz :
  SFabs (binary_normalize prec emax (Z.opp m) e sz) = SFabs (binary_normalize
      prec emax m e sz).
Proof.
  destruct m; cbn; try reflexivity; unfold binary_round;
  destruct (shl_align _ _ _); now rewrite !SFabs_round_aux.
Qed.

Lemma SFabs_sub_sym (x y : spec_float) :
  SFabs (SFsub prec emax x y) = SFabs (SFsub prec emax y x).
Proof.
  destruct x as [sx|sx| |sx mx ex], y as [sy|sy| |sy my ey]; cbn [SFsub SFabs];
    try reflexivity;
    repeat match goal with s : bool |- _ => destruct s end; try reflexivity.
  all: rewrite (Z.min_comm ey ex).
  all: rewrite <- SFabs_normalize; f_equal; f_equal; cbn [cond_Zopp]; lia.
Qed.

Lemma abs_sub_sym (x y : float) : abs (x - y) = abs (y - x).
Proof.
  apply Prim2SF_inj. rewrite !FloatAxioms.abs_spec, !FloatAxioms.sub_spec. apply
      SFabs_sub_sym.
Qed.

Lemma abs_not_negative (x : float) : (abs x <? 0)%float = false.
Proof.
  rewrite FloatAxioms.ltb_spec, FloatAxioms.abs_spec. destruct (Prim2SF x);
      reflexivity.
Qed.

(** *** The unit interval *)

(** A valid finite float has at most 53 digits and an exponent from
    -1074 on. *)
Lemma valid_finite (s : bool) (m : positive) (e : Z) :
  SpecFloat.valid_binary prec emax (S754_finite s m e) = true ->
  (Zpos (digits2_pos m) <= 53)%Z /\ (-1074 <= e)%Z
  /\ ((-1074 < e)%Z -> Zpos (digits2_pos m) = 53%Z).
Proof.
  cbn [SpecFloat.valid_binary]. unfold bounded, canonical_mantissa.
  intro H. apply andb_true_iff in H as [H _]. apply Z.eqb_eq in H.
  rewrite fexp_eq in H. lia.
Qed.

(** An integer below [2^(-e)] at exponent [e] normalises into the unit
    interval. *)
Lemma normalize_unit (M : positive) (ez : Z) :
  (-1074 <= ez)%Z -> (Zpos M < 2 ^ (- ez))%Z ->
  Binary64.in_unit_interval (binary_normalize prec emax (Zpos M) ez false) =
      true.
Proof.
  intros Hez HM. pose proof (digits2_bounds M) as [Dlo Dhi].
  set (D := Zpos (digits2_pos M)) in *.
  assert (HD : (D + ez <= 0)%Z).
  { destruct (Z_le_gt_dec (D + ez) 0) as [H|H]; [exact H|].
    destruct (Z_le_gt_dec 0 (- ez)) as [N|N].
    - assert (2 ^ (- ez) <= 2 ^ (D - 1))%Z by (apply Z.pow_le_mono_r; lia). lia.
    - rewrite Z.pow_neg_r in HM by lia. lia. }
  assert (H1 : (1 <= D)%Z) by (unfold D; lia).
  cbn [binary_normalize]. unfold binary_round. fold D. rewrite fexp_eq.
  destruct (Z_le_gt_dec (Z.max (D + ez - 53) (-1074)) ez) as [Hle|Hgt].
  - destruct (shl_align_spec M ez (Z.max (D + ez - 53) (-1074)) Hle)
      as (m & -> & Hval & Hdig). fold D in Hdig.
    rewrite round_aux_canonical.
    + cbn [Binary64.in_unit_interval].
      assert (E : (Z.max (D + ez - 53) (-1074) <? -52)%Z = true)
        by (apply Z.ltb_lt; lia).
      now rewrite E.
    + unfold canonical_mantissa. apply Z.eqb_eq. rewrite fexp_eq, Hdig. lia.
    + lia.
  - rewrite shl_align_none by lia.
    apply round_aux_unit; fold D; lia.
Qed.

(** The integer a unit-interval float stands for at a lower exponent. *)
Lemma unit_aligned (m : positive) (e ez : Z) :
  SpecFloat.valid_binary prec emax (S754_finite false m e) = true ->
  Binary64.in_unit_interval (S754_finite false m e) = true ->
  (ez <= e)%Z ->
  (0 < Zpos m * 2 ^ (e - ez) <= 2 ^ (- ez))%Z.
Proof.
  intros V U Hez. apply valid_finite in V as (Vd & Ve & _).
  pose proof (digits2_bounds m) as [_ Dhi].
  assert (P : (0 < 2 ^ (e - ez))%Z) by (apply Z.pow_pos_nonneg; lia).
  split; [lia|].
  cbn [Binary64.in_unit_interval] in U. apply orb_true_iff in U as [U|U].
  - apply Z.ltb_lt in U.
    assert (Zpos m < 2 ^ 53)%Z.
    { eapply Z.lt_le_trans; [exact Dhi|]. apply Z.pow_le_mono_r; lia. }
    assert (2 ^ 53 <= 2 ^ (- e))%Z by (apply Z.pow_le_mono_r; lia).
    replace (- ez)%Z with (- e + (e - ez))%Z by lia.
    rewrite Z.pow_add_r by lia. nia.
  - apply andb_true_iff in U as [Ue Um]. apply Z.eqb_eq in Ue.
    apply Pos.eqb_eq in Um. subst e m.
    change (Zpos 4503599627370496) with (2 ^ 52)%Z.
    rewrite <- Z.pow_add_r by lia. apply Z.pow_le_mono_r; lia.
Qed.

Lemma SFabs_normalize_neg (p : positive) (e : Z) :
  SFabs (binary_normalize prec emax (Zneg p) e false)
  = binary_normalize prec emax (Zpos p) e false.
Proof.
  cbn [binary_normalize]. unfold binary_round.
  destruct (shl_align _ _ _) as [mz ez].
  apply SFabs_round_aux.
Qed.

Lemma SFabs_unit (x : spec_float) :
  Binary64.in_unit_interval x = true -> SFabs x = x \/ exists s, x = S754_zero
      s.
Proof.
  destruct x as [s|s| |[|] m e]; cbn; try discriminate; intros _.
  - right. now exists s.
  - left. reflexivity.
Qed.

(** The unit interval is closed under the absolute difference. *)
Lemma sub_unit (a b : spec_float) :
  SpecFloat.valid_binary prec emax a = true -> SpecFloat.valid_binary prec emax
      b = true ->
  Binary64.in_unit_interval a = true -> Binary64.in_unit_interval b = true ->
  Binary64.in_unit_interval (SFabs (SFsub prec emax a b)) = true.
Proof.
  intros Va Vb Ua Ub.
  destruct a as [sa|sa| |[|] ma ea]; try discriminate Ua;
  destruct b as [sb|sb| |[|] mb eb]; try discriminate Ub.
  - destruct sa, sb; reflexivity.
  - exact Ub.
  - exact Ua.
  - cbn [SFsub negb cond_Zopp].
    set (ez := Z.min ea eb).
    pose proof (valid_finite _ _ _ Va) as (_ & Ea & _).
    pose proof (valid_finite _ _ _ Vb) as (_ & Eb & _).
    destruct (shl_align_spec ma ea ez) as (ma' & -> & Ha & _); [unfold ez;
        lia|].
    destruct (shl_align_spec mb eb ez) as (mb' & -> & Hb & _); [unfold ez;
        lia|].
    cbn [fst].
    pose proof (unit_aligned ma ea ez Va Ua ltac:(unfold ez; lia)) as Ba.
    pose proof (unit_aligned mb eb ez Vb Ub ltac:(unfold ez; lia)) as Bb.
    rewrite <- Ha in Ba. rewrite <- Hb in Bb.
    match goal with
    | |- context [binary_normalize _ _ ?M _ _] =>
        set (M0 := M);
        assert (HM : M0 = (Zpos ma' - Zpos mb')%Z) by reflexivity;
        clearbody M0
    end.
    destruct M0 as [|p|p].
    + reflexivity.
    + destruct (SFabs_unit (binary_normalize prec emax (Zpos p) ez false))
        as [-> | [s ->]].
      * apply normalize_unit; [unfold ez; lia|lia].
      * apply normalize_unit; [unfold ez; lia|lia].
      * reflexivity.
    + rewrite SFabs_normalize_neg. apply normalize_unit; [unfold ez; lia|lia].
Qed.

(** What the unit interval means for the order. *)
Lemma unit_leb (x : spec_float) :
  Binary64.in_unit_interval x = true ->
  SFleb (S754_zero false) x = true
  /\ SFleb x (S754_finite false 4503599627370496 (-52)) = true.
Proof.
  destruct x as [s|s| |[|] m e]; cbn [Binary64.in_unit_interval]; try
      discriminate.
  - intros _. split; reflexivity.
  - intro U. split; [reflexivity|].
    unfold SFleb. cbn [SFcompare].
    apply orb_true_iff in U as [U|U].
    + apply Z.ltb_lt in U. apply Z.compare_lt_iff in U. now rewrite U.
    + apply andb_true_iff in U as [Ue Um]. apply Z.eqb_eq in Ue.
      apply Pos.eqb_eq in Um. subst. reflexivity.
Qed.

(** *** Signs *)

(** Rounding keeps the sign. *)
Lemma round_aux_negative (m e : Z) (l : location) :
  Binary64.not_positive (binary_round_aux prec emax true m e l) = true.
Proof.
  unfold binary_round_aux.
  destruct (shr_fexp prec emax m e l) as [mrs' e'].
  destruct (shr_fexp prec emax _ e' loc_Exact) as [mrs'' e''].
  destruct (shr_m mrs''); try reflexivity.
  destruct (Z.leb e'' _); reflexivity.
Qed.

Lemma normalize_not_positive (M e : Z) :
  (M <= 0)%Z ->
  Binary64.not_positive (binary_normalize prec emax M e false) = true.
Proof.
  intro H. destruct M as [|p|p]; [reflexivity|lia|].
  cbn [binary_normalize]. unfold binary_round.
  destruct (shl_align _ _ _) as [mz ez]. apply round_aux_negative.
Qed.

(** Of two valid positive floats the one with the lower exponent is the
    smaller. *)
Lemma aligned_lt (m1 m2 : positive) (e1 e2 : Z) (s1 s2 : bool) :
  SpecFloat.valid_binary prec emax (S754_finite s1 m1 e1) = true ->
  SpecFloat.valid_binary prec emax (S754_finite s2 m2 e2) = true ->
  (e1 < e2)%Z ->
  (Zpos m1 < Zpos m2 * 2 ^ (e2 - e1))%Z.
Proof.
  intros V1 V2 H.
  apply valid_finite in V1 as (D1 & E1 & _).
  apply valid_finite in V2 as (_ & _ & D2). specialize (D2 ltac:(lia)).
  pose proof (digits2_bounds m1) as [_ Hi1].
  pose proof (digits2_bounds m2) as [Lo2 _]. rewrite D2 in Lo2.
  assert (Zpos m1 < 2 ^ 53)%Z.
  { eapply Z.lt_le_trans; [exact Hi1|]. apply Z.pow_le_mono_r; lia. }
  assert (2 ^ 1 <= 2 ^ (e2 - e1))%Z by (apply Z.pow_le_mono_r; lia).
  change (2 ^ 1)%Z with 2%Z in *. change (53 - 1)%Z with 52%Z in Lo2.
  change (2 ^ 53)%Z with (2 ^ 52 * 2)%Z in *. nia.
Qed.

(** [a <= b] makes [a - b] zero or negative, or not a number. *)
Lemma SFsub_leb_not_positive (a b : spec_float) :
  SpecFloat.valid_binary prec emax a = true ->
  SpecFloat.valid_binary prec emax b = true ->
  SFleb a b = true ->
  Binary64.not_positive (SFsub prec emax a b) = true.
Proof.
  intros Va Vb L.
  destruct a as [sa|sa| |sa ma ea], b as [sb|sb| |sb mb eb];
    try discriminate L;
    try (destruct sa, sb; try discriminate L; reflexivity);
    try (destruct sa; try discriminate L; reflexivity);
    try (destruct sb; try discriminate L; reflexivity).
  cbn [SFsub]. apply normalize_not_positive.
  pose proof (valid_finite _ _ _ Va) as (_ & Ea & _).
  pose proof (valid_finite _ _ _ Vb) as (_ & Eb & _).
  set (ez := Z.min ea eb).
  destruct (shl_align_spec ma ea ez) as (ma' & -> & Ha & _); [unfold ez; lia|].
  destruct (shl_align_spec mb eb ez) as (mb' & -> & Hb & _); [unfold ez; lia|].
  cbn [fst]. unfold SFleb in L. cbn [SFcompare] in L.
  destruct sa, sb; cbn [negb cond_Zopp]; try discriminate L; try lia.
  - (* both negative *)
    destruct (Z.compare_spec ea eb) as [E|E|E]; try discriminate L.
    + subst eb. replace ez with ea in * by (unfold ez; lia).
      rewrite Z.sub_diag in Ha, Hb. cbn in Ha, Hb.
      destruct (cmp_spec ma mb) as [C|C|C]; try discriminate L; lia.
    + pose proof (aligned_lt mb ma eb ea _ _ Vb Va E) as A.
      replace ez with eb in * by (unfold ez; lia).
      rewrite Z.sub_diag in Hb. cbn in Hb. lia.
  - (* both positive *)
    destruct (Z.compare_spec ea eb) as [E|E|E]; try discriminate L.
    + subst eb. replace ez with ea in * by (unfold ez; lia).
      rewrite Z.sub_diag in Ha, Hb. cbn in Ha, Hb.
      destruct (cmp_spec ma mb) as [C|C|C]; try discriminate L; lia.
    + pose proof (aligned_lt ma mb ea eb _ _ Va Vb E) as A.
      replace ez with ea in * by (unfold ez; lia).
      rewrite Z.sub_diag in Ha. cbn in Ha. lia.
Qed.

Lemma SFdiv_not_positive (x y : spec_float) :
  Binary64.not_positive x = true -> Binary64.positive y = true ->
  Binary64.not_positive (SFdiv prec emax x y) = true.
Proof.
  destruct x as [sx|[|]| |[|] mx ex], y as [sy|[|]| |[|] my ey];
    cbn [Binary64.not_positive Binary64.positive]; try discriminate;
    intros _ _; try reflexivity; try (destruct sx; reflexivity).
  cbn [SFdiv xorb].
  destruct (SFdiv_core_binary _ _ _ _ _ _) as [[mz ez] lz].
  apply round_aux_negative.
Qed.

Lemma SFmul_not_positive (x y : spec_float) :
  Binary64.not_positive x = true -> Binary64.positive y = true ->
  Binary64.not_positive (SFmul prec emax x y) = true.
Proof.
  destruct x as [sx|[|]| |[|] mx ex], y as [sy|[|]| |[|] my ey];
    cbn [Binary64.not_positive Binary64.positive]; try discriminate;
    intros _ _; try reflexivity; try (destruct sx; reflexivity).
  cbn [SFmul xorb]. apply round_aux_negative.
Qed.

Lemma not_positive_ltb (c x : spec_float) :
  Binary64.positive c = true -> Binary64.not_positive x = true ->
  SFltb c x = false.
Proof.
  destruct c as [sc|[|]| |[|] mc ec], x as [sx|[|]| |[|] mx ex];
    cbn [Binary64.not_positive Binary64.positive]; try discriminate;
    intros _ _; try reflexivity.
Qed.

Lemma ltb_positive (x : spec_float) :
  SFltb (S754_zero false) x = true -> Binary64.positive x = true.
Proof.
  destruct x as [sx|[|]| |[|] mx ex]; try discriminate; reflexivity.
Qed.

(** *** The same facts on [float] *)

Lemma Prim2SF_of_nat (n : nat) :
  (Z.of_nat n < 2 ^ 53)%Z ->
  Prim2SF (Binary64.of_nat n) = binary_normalize prec emax (Z.of_nat n) 0 false.
Proof.
  intro H. unfold Binary64.of_nat. rewrite FloatAxioms.of_uint63_spec.
  rewrite Uint63.of_Z_spec. rewrite Z.mod_small; [reflexivity|].
  split; [lia|]. eapply Z.lt_trans; [exact H|]. reflexivity.
Qed.

Lemma share_unit (c n : nat) :
  (0 < c <= n)%nat -> (Z.of_nat n < 2 ^ 53)%Z ->
  Binary64.in_unit_interval (Prim2SF (Drift.share c n)) = true.
Proof.
  intros Hc Hn. unfold Drift.share.
  rewrite FloatAxioms.div_spec, !Prim2SF_of_nat by lia.
  destruct (Z.of_nat c) as [|pc|pc] eqn:Ec; [lia| |lia].
  destruct (Z.of_nat n) as [|pn|pn] eqn:En; [lia| |lia].
  apply div_small_ints; lia.
Qed.

Lemma abs_sub_unit (x y : float) :
  Binary64.in_unit_interval (Prim2SF x) = true ->
  Binary64.in_unit_interval (Prim2SF y) = true ->
  Binary64.in_unit_interval (Prim2SF (abs (x - y))) = true.
Proof.
  intros Ux Uy. rewrite FloatAxioms.abs_spec, FloatAxioms.sub_spec.
  apply sub_unit; try assumption; apply FloatAxioms.Prim2SF_valid.
Qed.

Lemma unit_bounds (x : float) :
  Binary64.in_unit_interval (Prim2SF x) = true ->
  (0 <=? x)%float = true /\ (x <=? 1)%float = true.
Proof.
  intro U. rewrite !FloatAxioms.leb_spec. apply (unit_leb _ U).
Qed.

Lemma not_above_baseline (baseline accuracy c : float) :
  Binary64.positive (Prim2SF c) = true ->
  (0 <? baseline)%float = true -> (baseline <=? accuracy)%float = true ->
  (c <? (baseline - accuracy) / baseline * 100)%float = false.
Proof.
  intros Hc Hb Hle. rewrite FloatAxioms.ltb_spec in *.
  rewrite FloatAxioms.leb_spec in Hle.
  rewrite FloatAxioms.mul_spec, FloatAxioms.div_spec, FloatAxioms.sub_spec.
  apply not_positive_ltb; [exact Hc|].
  apply SFmul_not_positive; [|reflexivity].
  apply SFdiv_not_positive; [|exact (ltb_positive _ Hb)].
  apply SFsub_leb_not_positive;
    [apply FloatAxioms.Prim2SF_valid|apply FloatAxioms.Prim2SF_valid|exact Hle].
Qed.

Lemma leb_ltb_trans (a b c : float) :
  (a <=? b)%float = true -> (b <? c)%float = true -> (a <? c)%float = true.
Proof.
  rewrite FloatAxioms.leb_spec, !FloatAxioms.ltb_spec. apply SFleb_ltb_trans.
Qed.

End Binary64Facts.

(** ** Comparisons *)

Lemma Qltb_lt (a b : Q) : Qltb a b = true <-> (a < b)%Q.
Proof.
  unfold Qltb. rewrite negb_true_iff. split; intro H.
  - apply Qnot_le_lt. intro Hle. apply Qle_bool_iff in Hle. congruence.
  - destruct (Qle_bool b a) eqn:E; [|reflexivity].
    apply Qle_bool_iff in E. exfalso. exact (Qlt_not_le _ _ H E).
Qed.

Lemma Qltb_nlt (a b : Q) : Qltb a b = false <-> ~ (a < b)%Q.
Proof.
  rewrite <- Qltb_lt. destruct (Qltb a b); split; intro H; congruence.
Qed.

(** ** Fit diagnosis *)

Module EvaluateFacts.

Import Evaluate.
Open Scope string_scope.

(** The verdict of [detect_overfitting] once the four metrics are found. *)
Lemma detect_overfitting_found (train test : dict float) (th ta te fa fe :
    float) :
  getitem train "accuracy" = Ok ta ->
  getitem test "accuracy" = Ok te ->
  getitem train "f1" = Ok fa ->
  getitem test "f1" = Ok fe ->
  detect_overfitting train test th =
  Ok (let over := (th <? ta - te)%float || (th <? fa - fe)%float in
      let under := (te <? 0.60)%float in
      let st := if over then "OVERFITTING"
                else if under then "UNDERFITTING" else "GOOD_FIT" in
      {| status := st;
         severity :=
           if over then (if (0.15 <? ta - te)%float then "HIGH" else "MEDIUM")
           else if under
                then (if (te <? 0.50)%float then "HIGH" else "MEDIUM")
                else "NONE";
         accuracy_gap := (ta - te)%float;
         f1_gap := (fa - fe)%float;
         recommendation := get_recommendation st |}).
Proof.
  intros Hta Hte Hfa Hfe. unfold detect_overfitting.
  rewrite Hta, Hte, Hfa, Hfe. cbn [bind].
  destruct ((th <? ta - te)%float || (th <? fa - fe)%float); cbn [bind];
    [reflexivity|].
  destruct (te <? 0.60)%float; reflexivity.
Qed.

(** Case analysis on every comparison of the goal, each case keeping the
    answer of the comparison. *)
Ltac comparison_cases :=
  repeat match goal with
         | |- context [PrimFloat.ltb ?a ?b] =>
             let E := fresh "E" in
             destruct (PrimFloat.ltb a b) eqn:E
         end.

Ltac settle := cbn; intuition (try discriminate; try congruence).

(** The gaps the examples of the specification compute to. *)
Lemma gap_of_95_and_80 : (0.95 - 0.80 = 0.14999999999999991)%float.
Proof. reflexivity. Qed.

Lemma gap_of_70_and_55 : (0.70 - 0.55 = 0.14999999999999991)%float.
Proof. reflexivity. Qed.

(** C1 (as stated, refuted): a verdict whose only gap above 0.10 is the
    F1 gap, here 0.95 - 0.70 and so strictly above 0.15, is OVERFITTING
    with severity MEDIUM, not HIGH. *)
Lemma detect_overfitting_f1_gap_is_medium :
  exists v,
    detect_overfitting (classification_metrics 0.80 0.80 0.80 0.95)
                       (classification_metrics 0.80 0.80 0.80 0.70)
                       default_threshold = Ok v
    /\ status v = "OVERFITTING"
    /\ (0.10 <? accuracy_gap v)%float = false
    /\ (0.10 <? f1_gap v)%float = true
    /\ (0.15 <? f1_gap v)%float = true
    /\ severity v = "MEDIUM"
    /\ severity v <> "HIGH".
Proof.
  eexists. split; [reflexivity|]. cbn.
  repeat split; try reflexivity; try discriminate.
Qed.

(** The gap is the rounded difference: train accuracy 1.0 and test
    accuracy 0.85 give the gap 0.15000000000000002, above 0.15, and the
    severity HIGH. *)
Lemma detect_overfitting_gap_is_rounded :
  exists v,
    detect_overfitting (classification_metrics 1.0 0.9 0.9 0.9)
                       (classification_metrics 0.85 0.9 0.9 0.9)
                       default_threshold = Ok v
    /\ accuracy_gap v = 0.15000000000000002%float
    /\ status v = "OVERFITTING"
    /\ severity v = "HIGH".
Proof.
  eexists. split; [reflexivity|]. cbn. repeat split; reflexivity.
Qed.

(** C1 (amended): with the four metrics present, [detect_overfitting]
    answers OVERFITTING exactly when the accuracy gap or the F1 gap, each
    the binary64 difference of the two metrics, exceeds 0.10; the
    severity of an OVERFITTING verdict is HIGH exactly when the accuracy
    gap is strictly above 0.15 and MEDIUM otherwise, the F1 gap playing
    no part in it; an accuracy gap equal to 0.15 gives OVERFITTING with
    severity MEDIUM, and so do train accuracy 0.95 and test accuracy
    0.80. *)
Theorem detect_overfitting_status_and_severity
    (train test : dict float) (ta te fa fe : float) :
  getitem train "accuracy" = Ok ta ->
  getitem test "accuracy" = Ok te ->
  getitem train "f1" = Ok fa ->
  getitem test "f1" = Ok fe ->
  exists v,
    detect_overfitting train test default_threshold = Ok v
    /\ accuracy_gap v = (ta - te)%float
    /\ f1_gap v = (fa - fe)%float
    /\ (status v = "OVERFITTING"
        <-> (0.10 <? ta - te)%float = true \/ (0.10 <? fa - fe)%float = true)
    /\ (status v = "OVERFITTING" ->
        (severity v = "HIGH" <-> (0.15 <? ta - te)%float = true)
        /\ (severity v = "MEDIUM" <-> (0.15 <? ta - te)%float = false))
    /\ ((ta - te)%float = 0.15%float ->
        status v = "OVERFITTING" /\ severity v = "MEDIUM")
    /\ (ta = 0.95%float -> te = 0.80%float ->
        status v = "OVERFITTING" /\ severity v = "MEDIUM").
Proof.
  intros Hta Hte Hfa Hfe.
  rewrite (@detect_overfitting_found train test default_threshold ta te fa fe
      Hta Hte Hfa Hfe).
  eexists. split; [reflexivity|]. cbn zeta. cbn [status severity accuracy_gap
      f1_gap].
  unfold default_threshold.
  split; [reflexivity|]. split; [reflexivity|].
  split; [|split; [|split]].
  - comparison_cases; settle.
  - comparison_cases; settle.
  - intros ->. split; reflexivity.
  - intros -> ->. rewrite gap_of_95_and_80. split; reflexivity.
Qed.

Lemma detect_overfitting_status_and_severity_witness :
  exists v,
    detect_overfitting
      (classification_metrics 0.95 0.94 0.94 0.84)
      (classification_metrics 0.80 0.81 0.80 0.80)
      default_threshold = Ok v
    /\ status v = "OVERFITTING" /\ severity v = "MEDIUM".
Proof.
  destruct (detect_overfitting_status_and_severity
              (classification_metrics 0.95 0.94 0.94 0.84)
              (classification_metrics 0.80 0.81 0.80 0.80)
              0.95 0.80 0.84 0.80
              eq_refl eq_refl eq_refl eq_refl)
    as (v & Hv & _ & _ & _ & _ & _ & Hexample).
  exists v. split; [exact Hv|]. apply Hexample; reflexivity.
Defined.

(** C2: the gap check comes first.  With the four metrics present, a gap
    above 0.10 gives OVERFITTING whatever the test accuracy is, so also
    below 0.60 (train accuracy 0.70 and test accuracy 0.55 give
    OVERFITTING, not UNDERFITTING); UNDERFITTING is answered exactly when
    no gap exceeds 0.10 and the test accuracy is below 0.60, and then with
    severity HIGH if the test accuracy is below 0.50 and MEDIUM
    otherwise.  The gaps are the binary64 differences the code
    computes. *)
Theorem gap_check_precedes_accuracy_check
    (train test : dict float) (ta te fa fe : float) :
  getitem train "accuracy" = Ok ta ->
  getitem test "accuracy" = Ok te ->
  getitem train "f1" = Ok fa ->
  getitem test "f1" = Ok fe ->
  exists v,
    detect_overfitting train test default_threshold = Ok v
    /\ ((0.10 <? ta - te)%float = true \/ (0.10 <? fa - fe)%float = true ->
        status v = "OVERFITTING" /\ status v <> "UNDERFITTING")
    /\ (ta = 0.70%float -> te = 0.55%float ->
        (te <? 0.60)%float = true /\ status v = "OVERFITTING")
    /\ (status v = "UNDERFITTING"
        <-> (0.10 <? ta - te)%float = false /\ (0.10 <? fa - fe)%float = false
            /\ (te <? 0.60)%float = true)
    /\ (status v = "UNDERFITTING" ->
        (severity v = "HIGH" <-> (te <? 0.50)%float = true)
        /\ (severity v = "MEDIUM" <-> (te <? 0.50)%float = false)).
Proof.
  intros Hta Hte Hfa Hfe.
  rewrite (@detect_overfitting_found train test default_threshold ta te fa fe
             Hta Hte Hfa Hfe).
  eexists. split; [reflexivity|]. cbn zeta.
  cbn [status severity accuracy_gap f1_gap]. unfold default_threshold.
  split; [|split; [|split]].
  - comparison_cases; settle.
  - intros -> ->. rewrite gap_of_70_and_55. split; reflexivity.
  - comparison_cases; settle.
  - comparison_cases; settle.
Qed.

Lemma gap_check_precedes_accuracy_check_witness :
  exists v,
    detect_overfitting
      (classification_metrics 0.70 0.70 0.70 0.70)
      (classification_metrics 0.55 0.60 0.55 0.66)
      default_threshold = Ok v
    /\ status v = "OVERFITTING".
Proof.
  destruct (gap_check_precedes_accuracy_check
              (classification_metrics 0.70 0.70 0.70 0.70)
              (classification_metrics 0.55 0.60 0.55 0.66)
              0.70 0.55 0.70 0.66
              eq_refl eq_refl eq_refl eq_refl)
    as (v & Hv & _ & Hexample & _).
  exists v. split; [exact Hv|]. apply Hexample; reflexivity.
Defined.

End EvaluateFacts.

(** ** The numpy operations *)

Module NpFacts.

Import Np.

Lemma Qle_bool_total (x y : Q) : Qle_bool x y = false -> Qle_bool y x = true.
Proof.
  intro H. apply Qle_bool_iff. apply Qlt_le_weak. apply Qnot_le_lt.
  intro Hle. apply Qle_bool_iff in Hle. congruence.
Qed.

Lemma insert_sorted_length (x : Q) (l : list Q) :
  List.length (insert_sorted x l) = S (List.length l).
Proof.
  induction l as [|y l IH]; cbn; [reflexivity|].
  destruct (Qle_bool x y); cbn; [reflexivity|]. now rewrite IH.
Qed.

Lemma sort_length (l : list Q) : List.length (sort l) = List.length l.
Proof.
  induction l as [|x l IH]; cbn; [reflexivity|].
  unfold sort in IH. now rewrite insert_sorted_length, IH.
Qed.

Lemma increasing_cons (a b : Q) (l : list Q) :
  increasing (a :: b :: l) = Qle_bool a b && increasing (b :: l).
Proof. reflexivity. Qed.

Lemma insert_sorted_increasing (x : Q) (l : list Q) :
  increasing l = true -> increasing (insert_sorted x l) = true.
Proof.
  induction l as [|y l IH]; intro Hl; [reflexivity|].
  cbn [insert_sorted]. destruct (Qle_bool x y) eqn:Exy.
  - now rewrite increasing_cons, Exy, Hl.
  - destruct l as [|z l].
    + cbn [insert_sorted]. rewrite increasing_cons.
      now rewrite (Qle_bool_total _ _ Exy).
    + rewrite increasing_cons in Hl. apply andb_prop in Hl as [Hyz Hl].
      specialize (IH Hl). cbn [insert_sorted] in IH |- *.
      destruct (Qle_bool x z) eqn:Exz.
      * rewrite increasing_cons. now rewrite (Qle_bool_total _ _ Exy), IH.
      * rewrite increasing_cons. now rewrite Hyz, IH.
Qed.

Lemma sort_increasing (l : list Q) : increasing (sort l) = true.
Proof.
  induction l as [|x l IH]; [reflexivity|].
  apply insert_sorted_increasing, IH.
Qed.

Lemma dedup_length (l : list Q) : (List.length (dedup l) <= List.length l)%nat.
Proof.
  induction l as [|x l IH]; [apply Nat.le_refl|].
  cbn [dedup]. destruct l as [|y l]; [apply Nat.le_refl|].
  destruct (Qeq_bool x y).
  - cbn [List.length] in *. lia.
  - cbn [List.length] in *. lia.
Qed.

Lemma dedup_head (x : Q) (l : list Q) :
  exists y l', dedup (x :: l) = y :: l' /\ Qeq_bool x y = true.
Proof.
  revert x. induction l as [|z l IH]; intro x.
  - exists x, []. split; [reflexivity|]. apply Qeq_bool_iff. reflexivity.
  - cbn [dedup]. destruct (Qeq_bool x z) eqn:E.
    + destruct (IH z) as (y & l' & Hd & Hy). exists y, l'. split; [exact Hd|].
      apply Qeq_bool_iff. apply Qeq_bool_iff in E, Hy. now rewrite E.
    + exists x, (dedup (z :: l)). split; [reflexivity|].
      apply Qeq_bool_iff. reflexivity.
Qed.

Lemma dedup_increasing (l : list Q) :
  increasing l = true -> increasing (dedup l) = true.
Proof.
  induction l as [|x l IH]; intro Hl; [reflexivity|].
  destruct l as [|z l]; [reflexivity|].
  rewrite increasing_cons in Hl. apply andb_prop in Hl as [Hxz Hl].
  specialize (IH Hl). cbn [dedup]. destruct (Qeq_bool x z); [exact IH|].
  destruct (dedup_head z l) as (y & l' & Hd & Hy).
  change (increasing (x :: dedup (z :: l)) = true).
  rewrite Hd in IH |- *. rewrite increasing_cons, IH, andb_true_r.
  apply Qle_bool_iff. apply Qle_bool_iff in Hxz. apply Qeq_bool_iff in Hy.
  now rewrite <- Hy.
Qed.

Lemma unique_length (l : list Q) : (List.length (unique l) <= List.length
    l)%nat.
Proof.
  unfold unique. rewrite <- (sort_length l). apply dedup_length.
Qed.

Lemma unique_increasing (l : list Q) : increasing (unique l) = true.
Proof. apply dedup_increasing, sort_increasing. Qed.

Lemma linspace_length (start stop : Q) (num : Z) (qs : list Q) :
  linspace start stop num = Ok qs -> List.length qs = Z.to_nat num.
Proof.
  unfold linspace. destruct (num <? 0)%Z; [discriminate|].
  destruct (Z.to_nat num) as [|[|n]]; intro H; inversion H; subst; clear H.
  - reflexivity.
  - reflexivity.
  - cbn. now rewrite length_map, length_seq.
Qed.

Section Interpolation.

Context {percentile_at : list Q -> Q -> Q}.

Lemma percentile_length (a : Series) (qs bps : list Q) :
  percentile percentile_at a qs = Ok bps -> List.length bps = List.length qs.
Proof.
  unfold percentile. destruct a as [l|l]; [|discriminate].
  destruct (existsb _ qs); [discriminate|].
  destruct l; [discriminate|].
  intro H. inversion H. now rewrite length_map.
Qed.

Lemma percentile_numeric (a : Series) (qs bps : list Q) :
  percentile percentile_at a qs = Ok bps -> exists x l, a = NumSeries (x :: l).
Proof.
  unfold percentile. destruct a as [l|l]; [|discriminate].
  destruct (existsb _ qs); [discriminate|].
  destruct l as [|x l]; [discriminate|]. intros _. now exists x, l.
Qed.

End Interpolation.

(** On the distinct breakpoints of a sample, [np.histogram] raises only
    for a column of strings. *)
Lemma histogram_unique (xs bps : list Q) :
  (2 <= List.length (unique bps))%nat ->
  histogram (NumSeries xs) (unique bps) = Ok (bin_counts xs (unique bps)).
Proof.
  intro Hlen. unfold histogram.
  destruct (List.length (unique bps) <? 2)%nat eqn:E.
  - apply Nat.ltb_lt in E. lia.
  - now rewrite unique_increasing.
Qed.

End NpFacts.

(** ** The population stability index *)

Module PsiFacts.

Import Np Drift NpFacts Samples.

Lemma psi_term_same (x : Q) : psi_term x x = 0%R.
Proof. unfold psi_term. ring. Qed.

Lemma psi_sum_same (props : list Q) : psi_sum props props = 0%R.
Proof.
  unfold psi_sum. induction props as [|x props IH]; [reflexivity|].
  cbn [combine map Rsum fold_right fst snd].
  unfold Rsum in IH. rewrite IH, psi_term_same. ring.
Qed.

Lemma Q2R_pos (x : Q) : (0 < x)%Q -> (0 < Q2R x)%R.
Proof. intro H. apply Qlt_Rlt in H. now rewrite RMicromega.Q2R_0 in H. Qed.

(** A bin never lowers the index: the difference of two positive
    proportions and the logarithm of their ratio have the same sign. *)
Lemma psi_term_nonneg (ref_prop curr_prop : Q) :
  (0 < ref_prop)%Q -> (0 < curr_prop)%Q ->
  (0 <= psi_term ref_prop curr_prop)%R.
Proof.
  intros Hr Hc. apply Q2R_pos in Hr, Hc. unfold psi_term.
  set (x := Q2R curr_prop) in *. set (y := Q2R ref_prop) in *.
  assert (Hinv : (0 < / y)%R) by (apply Rinv_0_lt_compat; exact Hr).
  assert (Hone : (y * / y = 1)%R) by (apply Rinv_r; lra).
  destruct (Rtotal_order x y) as [Hlt | [Heq | Hgt]].
  - assert (Hq : (x / y < 1)%R).
    { unfold Rdiv. rewrite <- Hone. apply Rmult_lt_compat_r; assumption. }
    assert (Hq0 : (0 < x / y)%R) by (unfold Rdiv; apply Rmult_lt_0_compat;
        assumption).
    pose proof (ln_increasing _ _ Hq0 Hq) as Hln. rewrite ln_1 in Hln. nra.
  - rewrite Heq. replace (y - y)%R with 0%R by ring. lra.
  - assert (Hq : (1 < x / y)%R).
    { unfold Rdiv. rewrite <- Hone. apply Rmult_lt_compat_r; assumption. }
    pose proof (ln_increasing _ _ Rlt_0_1 Hq) as Hln. rewrite ln_1 in Hln. nra.
Qed.

Lemma psi_sum_nonneg (ref_props curr_props : list Q) :
  Forall (fun p => (0 < p)%Q) ref_props ->
  Forall (fun p => (0 < p)%Q) curr_props ->
  (0 <= psi_sum ref_props curr_props)%R.
Proof.
  intros Hr. revert curr_props. unfold psi_sum.
  induction Hr as [|r ref_props Hr _ IH]; intros curr_props Hc; [cbn; lra|].
  destruct Hc as [|c curr_props Hc Hcs]; [cbn; lra|].
  cbn [combine map Rsum fold_right fst snd].
  pose proof (psi_term_nonneg _ _ Hr Hc). specialize (IH _ Hcs). unfold Rsum in
      IH.
  lra.
Qed.

Lemma proportions_pos (counts : list nat) (n : nat) (bins : Z) :
  (0 < bins)%Z -> Forall (fun p => (0 < p)%Q) (proportions counts n bins).
Proof.
  intro Hbins. unfold proportions. apply Forall_forall. intros p Hp.
  apply in_map_iff in Hp as (c & <- & _).
  assert (Heps : (0 < epsilon)%Q) by reflexivity.
  assert (Hc : (0 <= inject_Z (Z.of_nat c))%Q).
  { change 0%Q with (inject_Z 0). rewrite <- Zle_Qle. lia. }
  assert (Hn : (0 <= inject_Z (Z.of_nat n))%Q).
  { change 0%Q with (inject_Z 0). rewrite <- Zle_Qle. lia. }
  assert (Hb : (0 < inject_Z bins)%Q).
  { change 0%Q with (inject_Z 0). rewrite <- Zlt_Qlt. exact Hbins. }
  apply Qlt_shift_div_l.
  - apply Qlt_le_trans with (epsilon * inject_Z bins)%Q.
    + apply Qmult_lt_0_compat; assumption.
    + rewrite <- (Qplus_0_l (epsilon * inject_Z bins)) at 1.
      apply Qplus_le_l. exact Hn.
  - rewrite Qmult_0_l. apply Qlt_le_trans with epsilon; [exact Heps|].
    rewrite <- (Qplus_0_l epsilon) at 1. apply Qplus_le_l. exact Hc.
Qed.

(** A bin contributes nothing only if the two proportions are equal. *)
Lemma psi_term_pos (ref_prop curr_prop : Q) :
  (0 < ref_prop)%Q -> (0 < curr_prop)%Q ->
  ~ (ref_prop == curr_prop)%Q ->
  (0 < psi_term ref_prop curr_prop)%R.
Proof.
  intros Hr Hc Hne. apply Q2R_pos in Hr, Hc. unfold psi_term.
  assert (Hneq : Q2R curr_prop <> Q2R ref_prop).
  { intro H. apply eqR_Qeq in H. apply Hne. now symmetry. }
  set (x := Q2R curr_prop) in *. set (y := Q2R ref_prop) in *.
  assert (Hinv : (0 < / y)%R) by (apply Rinv_0_lt_compat; exact Hr).
  assert (Hone : (y * / y = 1)%R) by (apply Rinv_r; lra).
  destruct (Rtotal_order x y) as [Hlt | [Heq | Hgt]]; [|contradiction|].
  - assert (Hq : (x / y < 1)%R).
    { unfold Rdiv. rewrite <- Hone. apply Rmult_lt_compat_r; assumption. }
    assert (Hq0 : (0 < x / y)%R)
      by (unfold Rdiv; apply Rmult_lt_0_compat; assumption).
    pose proof (ln_increasing _ _ Hq0 Hq) as Hln. rewrite ln_1 in Hln. nra.
  - assert (Hq : (1 < x / y)%R).
    { unfold Rdiv. rewrite <- Hone. apply Rmult_lt_compat_r; assumption. }
    pose proof (ln_increasing _ _ Rlt_0_1 Hq) as Hln. rewrite ln_1 in Hln. nra.
Qed.

Lemma psi_term_eq (ref_prop curr_prop : Q) :
  (ref_prop == curr_prop)%Q -> psi_term ref_prop curr_prop = 0%R.
Proof.
  intro H. apply Qeq_eqR in H. unfold psi_term. rewrite H. ring.
Qed.

Lemma psi_sum_zero (ref_props curr_props : list Q) :
  Forall (fun p => (0 < p)%Q) ref_props ->
  Forall (fun p => (0 < p)%Q) curr_props ->
  List.length ref_props = List.length curr_props ->
  (psi_sum ref_props curr_props = 0%R <-> Forall2 Qeq ref_props curr_props).
Proof.
  intros Hr. revert curr_props. unfold psi_sum.
  induction Hr as [|r ref_props Hr Hrs IH]; intros curr_props Hc Hlen.
  - destruct curr_props; [|discriminate]. cbn. split; [constructor|reflexivity].
  - destruct Hc as [|c curr_props Hc Hcs]; [discriminate|].
    injection Hlen as Hlen. specialize (IH curr_props Hcs Hlen).
    cbn [combine map Rsum fold_right fst snd].
    pose proof (psi_term_nonneg r c Hr Hc) as Hterm.
    pose proof (psi_sum_nonneg ref_props curr_props Hrs Hcs) as Hrest.
    unfold psi_sum, Rsum in Hrest. unfold Rsum in IH. split.
    + intro Hsum.
      assert (Ht : psi_term r c = 0%R) by lra.
      assert (Hs : fold_right Rplus 0%R
                     (map (fun rc => psi_term (fst rc) (snd rc))
                          (combine ref_props curr_props)) = 0%R) by lra.
      constructor; [|now apply IH].
      destruct (Qeq_dec r c) as [Heq|Hne]; [exact Heq|].
      pose proof (psi_term_pos r c Hr Hc Hne). lra.
    + intro H2. inversion H2 as [|? ? ? ? Heq Hall]; subst.
      apply IH in Hall. rewrite Hall, (psi_term_eq r c Heq). ring.
Qed.

Section Interpolation.

Context {percentile_at : list Q -> Q -> Q}.

(** What a successful computation of the breakpoints went through. *)
Lemma breakpoints_of_inv (reference : Series) (bins : Z) (bps : list Q) :
  breakpoints_of percentile_at reference bins = Ok bps ->
  exists qs raw,
    linspace 0 100 (bins + 1) = Ok qs
    /\ percentile percentile_at reference qs = Ok raw
    /\ bps = unique raw.
Proof.
  unfold breakpoints_of.
  destruct (linspace 0 100 (bins + 1)) as [qs|e]; [|discriminate].
  cbn [bind].
  destruct (percentile percentile_at reference qs) as [raw|e] eqn:Hraw;
      [|discriminate].
  cbn [bind]. intro H. inversion H. exists qs, raw. now rewrite Hraw.
Qed.

(** Three distinct breakpoints need at least two bins. *)
Lemma breakpoints_of_bins (reference : Series) (bins : Z) (bps : list Q) :
  breakpoints_of percentile_at reference bins = Ok bps ->
  (3 <= List.length bps)%nat -> (2 <= bins)%Z.
Proof.
  intros H Hlen. apply breakpoints_of_inv in H as (qs & raw & Hqs & Hraw & ->).
  pose proof (unique_length raw) as Hu.
  apply percentile_length in Hraw. apply linspace_length in Hqs. lia.
Qed.

(** Past the degenerate case only a current column of strings raises. *)
Lemma calculate_psi_try_numeric (reference : Series) (xs : list Q) (bins : Z)
    (bps : list Q) :
  breakpoints_of percentile_at reference bins = Ok bps ->
  (3 <= List.length bps)%nat ->
  exists rs,
    reference = NumSeries rs
    /\ calculate_psi_try percentile_at reference (NumSeries xs) bins =
       Ok (psi_sum (proportions (bin_counts rs bps) (List.length rs) bins)
                   (proportions (bin_counts xs bps) (List.length xs) bins)).
Proof.
  intros Hbp Hlen. unfold calculate_psi_try. rewrite Hbp. cbn [bind].
  destruct (List.length bps <? 3)%nat eqn:E; [apply Nat.ltb_lt in E; lia|].
  apply breakpoints_of_inv in Hbp as (qs & raw & _ & Hraw & ->).
  apply percentile_numeric in Hraw as (x & l & ->).
  exists (x :: l). split; [reflexivity|].
  rewrite !histogram_unique by lia. reflexivity.
Qed.

(** A sample against itself: every path of [calculate_psi] ends in 0.0. *)
Lemma calculate_psi_self (sample : Series) (bins : Z) :
  calculate_psi percentile_at sample sample bins = 0%R.
Proof.
  unfold calculate_psi, calculate_psi_try.
  destruct (breakpoints_of percentile_at sample bins) as [bps|e];
      [|reflexivity].
  cbn [bind]. destruct (List.length bps <? 3)%nat; [reflexivity|].
  destruct (histogram sample bps) as [counts|e]; [|reflexivity].
  cbn [bind]. apply psi_sum_same.
Qed.

(** C3: for a reference sample with at least three distinct percentile
    breakpoints, [calculate_psi] of the sample against itself is exactly
    0.0, and it is the sum over the bins that is 0.0: no exception is
    raised on the way. *)
Theorem psi_of_identical_samples_is_zero
    (reference : Series) (bins : Z) (bps : list Q) :
  breakpoints_of percentile_at reference bins = Ok bps ->
  (3 <= List.length bps)%nat ->
  calculate_psi_try percentile_at reference reference bins = Ok 0%R
  /\ calculate_psi percentile_at reference reference bins = 0%R.
Proof.
  intros Hbp Hlen.
  assert (Htry : calculate_psi_try percentile_at reference reference bins = Ok
      0%R).
  { destruct (breakpoints_of_inv _ _ _ Hbp) as (qs & raw & _ & Hraw & _).
    destruct (percentile_numeric _ _ _ Hraw) as (x & l & Href).
    destruct (calculate_psi_try_numeric _ (x :: l) _ _ Hbp Hlen) as (rs & Hrs &
        Htry).
    rewrite Href in Hrs. inversion Hrs; subst rs.
    rewrite Href at 2. rewrite Htry. now rewrite psi_sum_same. }
  split; [exact Htry|]. unfold calculate_psi. now rewrite Htry.
Qed.

(** C4: whatever the two samples and the bin count, the value
    [calculate_psi] returns is not negative. *)
Theorem psi_is_nonnegative (reference current : Series) (bins : Z) :
  (0 <= calculate_psi percentile_at reference current bins)%R.
Proof.
  unfold calculate_psi.
  destruct (calculate_psi_try percentile_at reference current bins) as [value|e]
      eqn:Htry;
    [|apply Rle_refl].
  unfold calculate_psi_try in Htry.
  destruct (breakpoints_of percentile_at reference bins) as [bps|e] eqn:Hbp;
      [|discriminate].
  cbn [bind] in Htry.
  destruct (List.length bps <? 3)%nat eqn:Hlen.
  { inversion Htry. apply Rle_refl. }
  apply Nat.ltb_ge in Hlen.
  pose proof (breakpoints_of_bins _ _ _ Hbp Hlen) as Hbins.
  destruct (histogram reference bps) as [ref_counts|e]; [|discriminate].
  cbn [bind] in Htry.
  destruct (histogram current bps) as [curr_counts|e]; [|discriminate].
  cbn [bind] in Htry. inversion Htry.
  apply psi_sum_nonneg; apply proportions_pos; lia.
Qed.

End Interpolation.

Lemma psi_of_identical_samples_is_zero_witness :
  calculate_psi linear_percentile_at
    (NumSeries [3; 1; 2; 2; 7]%Q) (NumSeries [3; 1; 2; 2; 7]%Q) 4 = 0%R.
Proof.
  apply (psi_of_identical_samples_is_zero
           (percentile_at := linear_percentile_at) (NumSeries [3; 1; 2; 2; 7]%Q)
               4
           [400 # 400; 800 # 400; 1200 # 400; 2800 # 400]%Q).
  - vm_compute. reflexivity.
  - cbn. lia.
Defined.

End PsiFacts.

Module PsiFailOpen.

Import Np Drift NpFacts PsiFacts Samples.

Section Interpolation.

Context {percentile_at : list Q -> Q -> Q}.

Lemma calculate_psi_degenerate (reference current : Series) (bins : Z)
    (bps : list Q) :
  breakpoints_of percentile_at reference bins = Ok bps ->
  (List.length bps < 3)%nat ->
  calculate_psi_try percentile_at reference current bins = Ok 0%R.
Proof.
  intros Hbp Hlen. unfold calculate_psi_try. rewrite Hbp. cbn [bind].
  apply Nat.ltb_lt in Hlen. now rewrite Hlen.
Qed.

Lemma calculate_psi_raise (reference current : Series) (bins : Z) (e : exn) :
  calculate_psi_try percentile_at reference current bins = Raise e ->
  calculate_psi percentile_at reference current bins = 0%R.
Proof. intro H. unfold calculate_psi. now rewrite H. Qed.

Lemma breakpoints_of_empty (bins : Z) :
  raises (breakpoints_of percentile_at (NumSeries []) bins) = true.
Proof.
  unfold breakpoints_of. destruct (linspace 0 100 (bins + 1)) as [qs|e];
    [|reflexivity].
  cbn [bind percentile]. now destruct (existsb _ qs).
Qed.

Lemma breakpoints_of_strings (values : list string) (bins : Z) :
  raises (breakpoints_of percentile_at (ObjSeries values) bins) = true.
Proof.
  unfold breakpoints_of. now destruct (linspace 0 100 (bins + 1)).
Qed.

Lemma calculate_psi_try_breakpoints_raise (reference current : Series) (bins :
    Z) :
  raises (breakpoints_of percentile_at reference bins) = true ->
  raises (calculate_psi_try percentile_at reference current bins) = true.
Proof.
  unfold calculate_psi_try. now destruct (breakpoints_of percentile_at reference
      bins).
Qed.

Lemma raises_calculate_psi (reference current : Series) (bins : Z) :
  raises (calculate_psi_try percentile_at reference current bins) = true ->
  calculate_psi percentile_at reference current bins = 0%R.
Proof.
  unfold calculate_psi.
  now destruct (calculate_psi_try percentile_at reference current bins).
Qed.

(** An empty current sample raises nothing: its histogram is a row of
    zeros, and the index is the sum over the bins as for any other
    sample. *)
Lemma calculate_psi_empty_current (reference : Series) (bins : Z)
    (bps : list Q) :
  breakpoints_of percentile_at reference bins = Ok bps ->
  (3 <= List.length bps)%nat ->
  exists rs,
    reference = NumSeries rs
    /\ calculate_psi_try percentile_at reference (NumSeries []) bins =
       Ok (psi_sum (proportions (bin_counts rs bps) (List.length rs) bins)
                   (proportions (bin_counts [] bps) 0 bins)).
Proof. apply calculate_psi_try_numeric. Qed.

(** C5 (amended): [calculate_psi] is a function into the reals, it has
    no exceptional outcome: fewer than three distinct breakpoints give
    0.0, every exception raised inside the [try] block gives 0.0, and an
    empty reference sample, which does raise inside the block, gives 0.0.
    An empty current sample is no failure: past the degenerate case
    nothing is raised, and the value returned is the sum over the bins
    for a histogram of zeros. *)
Theorem calculate_psi_fails_open (reference current : Series) (bins : Z) :
  (forall bps,
      breakpoints_of percentile_at reference bins = Ok bps ->
      (List.length bps < 3)%nat ->
      calculate_psi percentile_at reference current bins = 0%R)
  /\ (forall e,
        calculate_psi_try percentile_at reference current bins = Raise e ->
        calculate_psi percentile_at reference current bins = 0%R)
  /\ (reference = NumSeries [] ->
      raises (calculate_psi_try percentile_at reference current bins) = true
      /\ calculate_psi percentile_at reference current bins = 0%R)
  /\ (current = NumSeries [] ->
      forall bps,
        breakpoints_of percentile_at reference bins = Ok bps ->
        (3 <= List.length bps)%nat ->
        raises (calculate_psi_try percentile_at reference current bins) = false
        /\ exists rs,
             reference = NumSeries rs
             /\ calculate_psi percentile_at reference current bins
                = psi_sum (proportions (bin_counts rs bps) (List.length rs)
                    bins)
                          (proportions (bin_counts [] bps) 0 bins)).
Proof.
  split; [|split; [|split]].
  - intros bps Hbp Hlen. unfold calculate_psi.
    now rewrite (calculate_psi_degenerate _ current _ _ Hbp Hlen).
  - intro e. apply calculate_psi_raise.
  - intros ->.
    assert (H : raises (calculate_psi_try percentile_at (NumSeries []) current
        bins) = true)
      by apply calculate_psi_try_breakpoints_raise, breakpoints_of_empty.
    split; [exact H|]. now apply raises_calculate_psi.
  - intros -> bps Hbp Hlen.
    destruct (calculate_psi_empty_current reference bins bps Hbp Hlen)
      as (rs & Hrs & Htry).
    unfold calculate_psi. rewrite Htry. split; [reflexivity|].
    exists rs. split; [exact Hrs|reflexivity].
Qed.

End Interpolation.

(** The breakpoints of the eleven values 1, ..., 11: the percentiles 0,
    10, ..., 100 fall on whole ranks, and are the values themselves. *)
Lemma breakpoints_of_one_to_eleven :
  breakpoints_of linear_percentile_at
    (NumSeries [1; 2; 3; 4; 5; 6; 7; 8; 9; 10; 11]%Q) 10
  = Ok [1000 # 1000; 2000 # 1000; 3000 # 1000; 4000 # 1000; 5000 # 1000;
        6000 # 1000; 7000 # 1000; 8000 # 1000; 9000 # 1000; 10000 # 1000;
        11000 # 1000]%Q.
Proof. vm_compute. reflexivity. Qed.

(** C5 (as stated, refuted): an empty current sample is not swallowed
    into 0.0.  Against the reference 1, ..., 11 nothing is raised, and
    the index returned is positive: every bin of the empty sample gets
    the proportion 0.0001 / 0.001 = 0.1, the first bin of the reference
    1.0001 / 11.001. *)
Lemma empty_current_sample_has_an_index :
  raises (calculate_psi_try linear_percentile_at
            (NumSeries [1; 2; 3; 4; 5; 6; 7; 8; 9; 10; 11]%Q) (NumSeries []) 10)
  = false
  /\ (0 < calculate_psi linear_percentile_at
            (NumSeries [1; 2; 3; 4; 5; 6; 7; 8; 9; 10; 11]%Q) (NumSeries [])
                10)%R
  /\ calculate_psi linear_percentile_at
       (NumSeries [1; 2; 3; 4; 5; 6; 7; 8; 9; 10; 11]%Q) (NumSeries []) 10
     <> 0%R.
Proof.
  destruct (calculate_psi_empty_current
              (percentile_at := linear_percentile_at) _ 10 _
              breakpoints_of_one_to_eleven ltac:(cbn; lia))
    as (rs & Hrs & Htry).
  inversion Hrs; subst rs; clear Hrs.
  unfold calculate_psi. rewrite Htry. split; [reflexivity|].
  match goal with
  | |- context [psi_sum ?r ?c] => set (ref_props := r); set (curr_props := c)
  end.
  assert (Hr : Forall (fun p => (0 < p)%Q) ref_props)
    by (apply proportions_pos; lia).
  assert (Hc : Forall (fun p => (0 < p)%Q) curr_props)
    by (apply proportions_pos; lia).
  assert (Hne : psi_sum ref_props curr_props <> 0%R).
  { intro H0. apply psi_sum_zero in H0; [|exact Hr|exact Hc|reflexivity].
    inversion H0 as [|r c rsl csl Heq _ Hrl Hcl].
    unfold ref_props, curr_props in Hrl, Hcl.
    vm_compute in Hrl, Hcl. inversion Hrl; inversion Hcl; subst.
    vm_compute in Heq. discriminate. }
  pose proof (psi_sum_nonneg ref_props curr_props Hr Hc) as Hge.
  split; [lra|exact Hne].
Qed.

Lemma calculate_psi_fails_open_witness :
  calculate_psi linear_percentile_at
    (NumSeries [4; 4; 4; 4; 4]%Q) (NumSeries [1; 9]%Q) 10 = 0%R
  /\ calculate_psi linear_percentile_at
       (NumSeries []) (NumSeries [1; 9]%Q) 10 = 0%R
  /\ raises (calculate_psi_try linear_percentile_at
               (NumSeries [1; 2; 3; 4; 5; 6; 7; 8; 9; 10; 11]%Q)
               (NumSeries []) 10) = false.
Proof.
  split; [|split].
  - apply (proj1 (calculate_psi_fails_open
                    (percentile_at := linear_percentile_at)
                    (NumSeries [4; 4; 4; 4; 4]%Q) (NumSeries [1; 9]%Q) 10)
             [4000 # 1000]%Q).
    + vm_compute. reflexivity.
    + cbn. lia.
  - apply (proj2 (proj2 (calculate_psi_fails_open
                           (percentile_at := linear_percentile_at)
                           (NumSeries []) (NumSeries [1; 9]%Q) 10))).
    reflexivity.
  - apply (proj2 (proj2 (proj2 (calculate_psi_fails_open
                                  (percentile_at := linear_percentile_at)
                                  (NumSeries [1; 2; 3; 4; 5; 6; 7; 8; 9; 10;
                                      11]%Q)
                                  (NumSeries []) 10)))
             eq_refl _ breakpoints_of_one_to_eleven).
    cbn. lia.
Defined.

End PsiFailOpen.

(** ** Dictionaries and frames *)

Module DictFacts.

Import Np Drift.

Lemma get_in_keys {V : Type} (d : dict V) (k : string) :
  In k (keys d) -> exists v, get d k = Some v.
Proof.
  induction d as [|[k' v'] d IH]; cbn; [tauto|].
  intros [-> | Hin].
  - rewrite String.eqb_refl. now exists v'.
  - destruct (String.eqb k k'); [now exists v'|]. now apply IH.
Qed.

Lemma get_none_not_in {V : Type} (d : dict V) (k : string) :
  get d k = None -> ~ In k (keys d).
Proof.
  intros Hget Hin. apply get_in_keys in Hin as [v Hv]. congruence.
Qed.

Lemma not_in_get_none {V : Type} (d : dict V) (k : string) :
  ~ In k (keys d) -> get d k = None.
Proof.
  induction d as [|[k' v'] d IH]; cbn; [reflexivity|].
  intro Hnot. destruct (String.eqb k k') eqn:E.
  - apply String.eqb_eq in E. subst. tauto.
  - apply IH. tauto.
Qed.

Lemma get_some_in {V : Type} (d : dict V) (k : string) (v : V) :
  get d k = Some v -> In (k, v) d.
Proof.
  induction d as [|[k' v'] d IH]; cbn; [discriminate|].
  destruct (String.eqb k k') eqn:E.
  - apply String.eqb_eq in E. subst. intro H. inversion H. now left.
  - intro H. right. now apply IH.
Qed.

Lemma set_fresh {V : Type} (d : dict V) (k : string) (v : V) :
  get d k = None -> set d k v = (d ++ [(k, v)])%list.
Proof.
  induction d as [|[k' v'] d IH]; cbn; [reflexivity|].
  destruct (String.eqb k k'); [discriminate|].
  intro H. now rewrite IH.
Qed.

Lemma keys_app {V : Type} (d d' : dict V) :
  keys (d ++ d')%list = (keys d ++ keys d')%list.
Proof. unfold keys. apply map_app. Qed.

Lemma has_column_get (df : DataFrame) (col : string) :
  has_column df col = true -> exists s, get df col = Some s.
Proof.
  unfold has_column. intro H. apply existsb_exists in H as (k & Hin & Heq).
  apply String.eqb_eq in Heq. subst. now apply get_in_keys.
Qed.

Lemma in_columns_has_column (df : DataFrame) (col : string) :
  In col (columns df) -> has_column df col = true.
Proof.
  intro Hin. unfold has_column. apply existsb_exists. exists col.
  split; [exact Hin|]. apply String.eqb_refl.
Qed.

Lemma get_has_column (df : DataFrame) (col : string) (s : Series) :
  get df col = Some s -> has_column df col = true.
Proof.
  intro H. apply in_columns_has_column.
  apply get_some_in in H. unfold columns, keys.
  change col with (fst (col, s)). now apply in_map.
Qed.

Lemma common_cols_spec (reference current : DataFrame) (col : string) :
  In col (common_cols reference current) <->
  In col (columns current) /\ has_column reference col = true
  /\ col <> target_col.
Proof.
  unfold common_cols. rewrite filter_In, andb_true_iff, negb_true_iff.
  rewrite String.eqb_neq. tauto.
Qed.

Lemma analysed_columns_spec (reference current : DataFrame) (col : string) :
  In col (analysed_columns reference current) <->
  In col (common_cols reference current) /\ numeric_in current col = true.
Proof. unfold analysed_columns. apply filter_In. Qed.

End DictFacts.

(** ** The loop of [detect_feature_drift] *)

Module FeatureLoop.

Import Np Drift DictFacts.
Open Scope string_scope.

Section Interpolation.

Context {percentile_at : list Q -> Q -> Q}.

Lemma numeric_mean (s : Series) :
  is_numeric_dtype s = true -> exists m, series_mean s = Ok m.
Proof.
  destruct s as [[|x l]|l]; cbn; try discriminate; intros _; eauto.
Qed.

Lemma numeric_std (s : Series) :
  is_numeric_dtype s = true -> exists m, series_std s = Ok m.
Proof.
  destruct s as [[|x [|y l]]|l]; cbn; try discriminate; intros _; eauto.
Qed.

(** A column that is not numeric in the current frame leaves the state
    of the loop as it is. *)
Lemma feature_step_skip (reference current : DataFrame) (threshold : Q)
    (st : dict Verdict * list string) (col : string) (cs : Series) :
  get current col = Some cs ->
  is_numeric_dtype cs = false ->
  feature_step percentile_at reference current threshold st col = Ok st.
Proof.
  intros Hget Hnum. unfold feature_step, getitem. rewrite Hget. cbn [bind].
  now rewrite Hnum.
Qed.

(** A column that is numeric on both sides adds one verdict. *)
Lemma feature_step_numeric (reference current : DataFrame) (threshold : Q)
    (st : dict Verdict * list string) (col : string) (rs cs : Series) :
  get current col = Some cs ->
  is_numeric_dtype cs = true ->
  get reference col = Some rs ->
  is_numeric_dtype rs = true ->
  exists v,
    feature_step percentile_at reference current threshold st col =
    Ok (set (fst st) col v,
        if significant threshold (col, v) then (snd st ++ [col])%list else snd
            st)
    /\ psi v = calculate_psi percentile_at rs cs default_bins
    /\ status v = psi_status (psi v) threshold
    /\ series_mean rs = Ok (ref_mean v) /\ series_mean cs = Ok (curr_mean v)
    /\ series_std rs = Ok (ref_std v) /\ series_std cs = Ok (curr_std v).
Proof.
  intros Hc Hcn Hr Hrn. unfold feature_step, getitem.
  rewrite Hc. cbn [bind]. rewrite Hcn. cbn [negb]. rewrite Hr. cbn [bind].
  destruct (numeric_mean _ Hrn) as [rm Hrm]. destruct (numeric_mean _ Hcn) as
      [cm Hcm].
  destruct (numeric_std _ Hrn) as [rsd Hrsd]. destruct (numeric_std _ Hcn) as
      [csd Hcsd].
  rewrite Hrm, Hcm, Hrsd, Hcsd. cbn [bind].
  exists {| psi := calculate_psi percentile_at rs cs default_bins;
            status := psi_status (calculate_psi percentile_at rs cs
                default_bins) threshold;
            ref_mean := rm; curr_mean := cm; ref_std := rsd; curr_std := csd |}.
  repeat split.
Qed.

(** A numeric current column against a reference column of strings: the
    index is computed, then the reference mean raises. *)
Lemma feature_step_strings (reference current : DataFrame) (threshold : Q)
    (st : dict Verdict * list string) (col : string) (cs : Series)
    (x : string) (l : list string) :
  get current col = Some cs ->
  is_numeric_dtype cs = true ->
  get reference col = Some (ObjSeries (x :: l)) ->
  feature_step percentile_at reference current threshold st col = Raise
      TypeError.
Proof.
  intros Hc Hcn Hr. unfold feature_step, getitem.
  rewrite Hc. cbn [bind]. rewrite Hcn. cbn [negb]. rewrite Hr. reflexivity.
Qed.

Lemma get_numeric_part (df : DataFrame) (col : string) (s : Series) :
  get df col = Some s ->
  is_numeric_dtype s = true ->
  NoDup (columns df) ->
  get (numeric_part df) col = Some s.
Proof.
  induction df as [|[k v] df IH]; cbn [get]; [discriminate|].
  intros Hget Hnum Hnd. inversion Hnd as [|? ? Hnotin Hnd']; subst.
  cbn [numeric_part filter snd]. destruct (String.eqb col k) eqn:E.
  - inversion Hget; subst v. rewrite Hnum. cbn [get]. now rewrite E.
  - destruct (is_numeric_dtype v); cbn [get]; [rewrite E|]; now apply IH.
Qed.

Lemma columns_numeric_part (df : DataFrame) :
  NoDup (columns df) ->
  columns (numeric_part df) = filter (numeric_in df) (columns df).
Proof.
  induction df as [|[k v] df IH]; [reflexivity|].
  intro Hnd. inversion Hnd as [|? ? Hnotin Hnd']; subst.
  cbn [numeric_part filter snd columns keys map fst].
  unfold numeric_in at 1. cbn [get]. rewrite String.eqb_refl.
  assert (Hrest : filter (numeric_in ((k, v) :: df)) (columns df)
                  = filter (numeric_in df) (columns df)).
  { apply filter_ext_in. intros c Hc. unfold numeric_in. cbn [get].
    destruct (String.eqb c k) eqn:E; [|reflexivity].
    apply String.eqb_eq in E. subst c. contradiction. }
  unfold columns, keys in *. rewrite Hrest.
  destruct (is_numeric_dtype v); cbn [map fst]; now rewrite <- IH.
Qed.

Lemma filter_comm {A : Type} (p q : A -> bool) (l : list A) :
  filter p (filter q l) = filter q (filter p l).
Proof.
  induction l as [|a l IH]; [reflexivity|]. cbn [filter].
  destruct (p a) eqn:Hp, (q a) eqn:Hq; cbn [filter];
    rewrite ?Hp, ?Hq, IH; reflexivity.
Qed.

Lemma common_cols_numeric_part (reference current : DataFrame) :
  NoDup (columns current) ->
  common_cols reference (numeric_part current)
  = analysed_columns reference current.
Proof.
  intro Hnd. unfold analysed_columns, common_cols.
  rewrite (columns_numeric_part current Hnd). apply filter_comm.
Qed.

(** Skipping the columns a step leaves alone does not change a loop. *)
Lemma foldM_skip {A S : Type} (f g : S -> A -> result S) (keep : A -> bool)
    (l : list A) :
  (forall a st, In a l -> keep a = true -> f st a = g st a) ->
  (forall a st, In a l -> keep a = false -> g st a = Ok st) ->
  forall st, foldM f (filter keep l) st = foldM g l st.
Proof.
  induction l as [|a l IH]; intros Hkeep Hskip st; [reflexivity|].
  cbn [filter foldM]. destruct (keep a) eqn:E.
  - cbn [foldM]. rewrite (Hkeep a st (or_introl eq_refl) E).
    destruct (g st a) as [st'|e]; [|reflexivity]. cbn [bind].
    apply IH; intros; [apply Hkeep | apply Hskip]; auto using in_cons.
  - rewrite (Hskip a st (or_introl eq_refl) E). cbn [bind].
    apply IH; intros; [apply Hkeep | apply Hskip]; auto using in_cons.
Qed.

(** The columns of strings of the current frame are invisible: with or
    without them the detector answers the same, report or exception. *)
Lemma feature_drift_of_numeric_part (reference current : DataFrame)
    (threshold : Q) :
  NoDup (columns current) ->
  feature_drift_of percentile_at reference (numeric_part current) threshold
  = feature_drift_of percentile_at reference current threshold.
Proof.
  intro Hnd. unfold feature_drift_of.
  rewrite (common_cols_numeric_part reference current Hnd).
  unfold analysed_columns.
  rewrite (foldM_skip
             (feature_step percentile_at reference (numeric_part current)
                 threshold)
             (feature_step percentile_at reference current threshold)
             (numeric_in current) (common_cols reference current));
    [reflexivity| |].
  - intros col st _ Hnum. unfold numeric_in in Hnum.
    destruct (get current col) as [cs|] eqn:Hcs; [|discriminate].
    unfold feature_step, getitem.
    now rewrite (get_numeric_part current col cs Hcs Hnum Hnd), Hcs.
  - intros col st Hin Hnum.
    apply common_cols_spec in Hin as (Hin & _ & _).
    apply in_columns_has_column, has_column_get in Hin as [cs Hcs].
    apply (feature_step_skip reference current threshold st col cs Hcs).
    unfold numeric_in in Hnum. now rewrite Hcs in Hnum.
Qed.

(** The verdicts the loop adds for the columns it is still to visit. *)
Lemma feature_loop (reference current : DataFrame) (threshold : Q)
    (cols : list string) :
  forall (results : dict Verdict) (drifted : list string),
    NoDup cols ->
    (forall col, In col cols -> has_column current col = true) ->
    (forall col, In col cols -> has_column reference col = true) ->
    (forall col, In col cols -> get results col = None) ->
    (forall col rs, In col cols -> numeric_in current col = true ->
                    get reference col = Some rs -> is_numeric_dtype rs = true)
                        ->
    exists new,
      foldM (feature_step percentile_at reference current threshold) cols
          (results, drifted)
      = Ok ((results ++ new)%list,
            (drifted ++ map fst (filter (significant threshold) new))%list)
      /\ keys new = filter (numeric_in current) cols
      /\ Forall (fun kv =>
                   exists rs cs,
                     get reference (fst kv) = Some rs
                     /\ get current (fst kv) = Some cs
                     /\ psi (snd kv) = calculate_psi percentile_at rs cs
                         default_bins
                     /\ status (snd kv) = psi_status (psi (snd kv)) threshold
                     /\ series_mean rs = Ok (ref_mean (snd kv))
                     /\ series_mean cs = Ok (curr_mean (snd kv))
                     /\ series_std rs = Ok (ref_std (snd kv))
                     /\ series_std cs = Ok (curr_std (snd kv)))
                new.
Proof.
  induction cols as [|col cols IH]; intros results drifted Hnd Hcur Href Hfresh
      Hnum.
  - exists []. cbn. rewrite !app_nil_r. repeat split. constructor.
  - inversion Hnd as [|? ? Hnotin Hnd']; subst.
    destruct (has_column_get _ _ (Hcur col (or_introl eq_refl))) as [cs Hcs].
    destruct (has_column_get _ _ (Href col (or_introl eq_refl))) as [rs Hrs].
    cbn [foldM filter]. unfold numeric_in at 1. rewrite Hcs.
    destruct (is_numeric_dtype cs) eqn:Hcn.
    + assert (Hrn : is_numeric_dtype rs = true).
      { apply (Hnum col rs); [now left| |exact Hrs].
        unfold numeric_in. now rewrite Hcs. }
      destruct (feature_step_numeric reference current threshold
                  (results, drifted) col rs cs Hcs Hcn Hrs Hrn)
        as (v & Hstep & Hpsi & Hst & Hmeans).
      rewrite Hstep. cbn [bind fst snd].
      rewrite (set_fresh _ _ _ (Hfresh col (or_introl eq_refl))).
      destruct (IH (results ++ [(col, v)])%list
                   (if significant threshold (col, v)
                    then (drifted ++ [col])%list else drifted) Hnd')
        as (new & Hfold & Hkeys & Hall).
      * intros c Hc. apply Hcur. now right.
      * intros c Hc. apply Href. now right.
      * intros c Hc. apply not_in_get_none. rewrite keys_app. cbn.
        intros Hin. apply in_app_or in Hin as [Hin | [Heq | []]].
        -- apply (get_none_not_in results c); [apply Hfresh; now right|exact
            Hin].
        -- subst. contradiction.
      * intros c r Hc. apply Hnum. now right.
      * exists ((col, v) :: new). rewrite Hfold. split; [|split].
        -- f_equal. f_equal.
           ++ now rewrite <- app_assoc.
           ++ cbn [filter]. destruct (significant threshold (col, v));
                cbn [map fst]; [now rewrite <- app_assoc | reflexivity].
        -- change (keys ((col, v) :: new)) with (col :: keys new).
           now rewrite Hkeys.
        -- constructor; [|exact Hall]. cbn [fst snd]. exists rs, cs. tauto.
    + rewrite (feature_step_skip reference current threshold _ col cs Hcs Hcn).
      cbn [bind].
      destruct (IH results drifted Hnd') as (new & Hfold & Hkeys & Hall).
      * intros c Hc. apply Hcur. now right.
      * intros c Hc. apply Href. now right.
      * intros c Hc. apply Hfresh. now right.
      * intros c r Hc. apply Hnum. now right.
      * exists new. now rewrite Hfold.
Qed.

(** One bad column is enough for the loop to raise. *)
Lemma feature_loop_raises (reference current : DataFrame) (threshold : Q)
    (cols : list string) (col : string) (cs : Series)
    (x : string) (l : list string) :
  In col cols ->
  get current col = Some cs ->
  is_numeric_dtype cs = true ->
  get reference col = Some (ObjSeries (x :: l)) ->
  forall st,
    raises (foldM (feature_step percentile_at reference current threshold) cols
        st) = true.
Proof.
  intros Hin Hcs Hcn Hrs. induction cols as [|c cols IH]; [destruct Hin|].
  intro st. cbn [foldM].
  destruct (String.eqb c col) eqn:E.
  - apply String.eqb_eq in E. subst c.
    now rewrite (feature_step_strings reference current threshold st col cs x
        l).
  - destruct Hin as [-> | Hin]; [rewrite String.eqb_refl in E; discriminate|].
    destruct (feature_step percentile_at reference current threshold st c) as
        [st'|e];
      [|reflexivity].
    cbn [bind]. now apply IH.
Qed.

End Interpolation.

End FeatureLoop.

(** ** [detect_feature_drift] *)

Module FeatureDriftFacts.

Import Np Drift DictFacts FeatureLoop.
Open Scope string_scope.

Lemma Rgeb_spec (x y : R) : Rgeb x y = true <-> (y <= x)%R.
Proof.
  unfold Rgeb. destruct (Rle_dec y x); split; intro H;
    try reflexivity; try assumption; try discriminate; contradiction.
Qed.

Lemma significant_spec (threshold : Q) (kv : string * Verdict) :
  significant threshold kv = true <-> (Q2R threshold <= psi (snd kv))%R.
Proof. apply Rgeb_spec. Qed.

Lemma with_reference_loaded (read_csv : string -> result DataFrame)
    (self self' : DriftDetector) (reference : DataFrame) :
  with_reference read_csv self = Ok (self', reference) ->
  with_reference read_csv self' = Ok (self', reference).
Proof.
  unfold with_reference, load_reference_data.
  destruct (reference_data self) as [df|] eqn:Hself.
  - intro H. inversion H; subst. now rewrite Hself.
  - destruct (read_csv (reference_data_path self)) as [df|e]; [|discriminate].
    cbn. intro H. inversion H; subst. reflexivity.
Qed.

Section Interpolation.

Context {percentile_at : list Q -> Q -> Q}.

(** What the report stores for one column: the index of the two columns
    of that name, its tier, and their means and standard deviations. *)
Lemma verdict_psi_is_column_psi (reference current : DataFrame)
    (kv : string * Verdict) (rs cs : Series) :
  get reference (fst kv) = Some rs ->
  get current (fst kv) = Some cs ->
  psi (snd kv) = calculate_psi percentile_at rs cs default_bins ->
  psi (snd kv) = column_psi percentile_at reference current (fst kv).
Proof. intros Hrs Hcs ->. unfold column_psi. now rewrite Hrs, Hcs. Qed.

(** The report of the loop run from the empty state. *)
Lemma feature_drift_of_ok (reference current : DataFrame) (threshold : Q) :
  NoDup (columns current) ->
  (forall col rs,
      numeric_in current col = true -> col <> target_col ->
      get reference col = Some rs -> is_numeric_dtype rs = true) ->
  exists results,
    feature_drift_of percentile_at reference current threshold =
    Ok {| feature_drift := results;
          summary := summarize results
                       (map fst (filter (significant threshold) results)) |}
    /\ keys results = analysed_columns reference current
    /\ Forall (fun kv =>
                 exists rs cs,
                   get reference (fst kv) = Some rs
                   /\ get current (fst kv) = Some cs
                   /\ psi (snd kv) = calculate_psi percentile_at rs cs
                       default_bins
                   /\ status (snd kv) = psi_status (psi (snd kv)) threshold
                   /\ series_mean rs = Ok (ref_mean (snd kv))
                   /\ series_mean cs = Ok (curr_mean (snd kv))
                   /\ series_std rs = Ok (ref_std (snd kv))
                   /\ series_std cs = Ok (curr_std (snd kv)))
              results.
Proof.
  intros Hnd Hnum.
  destruct (feature_loop (percentile_at := percentile_at)
              reference current threshold
              (common_cols reference current) [] [])
    as (new & Hfold & Hkeys & Hall).
  - unfold common_cols. now apply NoDup_filter.
  - intros col Hin. apply common_cols_spec in Hin as (Hin & _ & _).
    now apply in_columns_has_column.
  - intros col Hin. now apply common_cols_spec in Hin as (_ & Href & _).
  - reflexivity.
  - intros col rs Hin Hn Hrs. apply common_cols_spec in Hin as (_ & _ & Hne).
    now apply (Hnum col rs).
  - exists new. unfold feature_drift_of. unfold dict in *. rewrite Hfold.
    cbn [bind fst snd app].
    repeat split; assumption.
Qed.

(** The names the loop collects are the columns whose index reaches the
    threshold. *)
Lemma drifted_names_by_column (reference current : DataFrame) (threshold : Q)
    (results : dict Verdict) :
  Forall (fun kv =>
            exists rs cs,
              get reference (fst kv) = Some rs
              /\ get current (fst kv) = Some cs
              /\ psi (snd kv) = calculate_psi percentile_at rs cs default_bins
              /\ status (snd kv) = psi_status (psi (snd kv)) threshold
              /\ series_mean rs = Ok (ref_mean (snd kv))
              /\ series_mean cs = Ok (curr_mean (snd kv))
              /\ series_std rs = Ok (ref_std (snd kv))
              /\ series_std cs = Ok (curr_std (snd kv)))
         results ->
  map fst (filter (significant threshold) results)
  = filter (fun col => Rgeb (column_psi percentile_at reference current col)
                            (Q2R threshold))
           (keys results).
Proof.
  intro Hall. induction Hall as [|kv results Hkv _ IH]; [reflexivity|].
  destruct Hkv as (rs & cs & Hrs & Hcs & Hpsi & _).
  change (keys (kv :: results)) with (fst kv :: keys results).
  cbn [filter]. unfold significant at 1.
  rewrite (verdict_psi_is_column_psi reference current kv rs cs Hrs Hcs Hpsi).
  destruct (Rgeb _ _); cbn [map]; now rewrite IH.
Qed.

(** C6: with the reference frame at hand, the columns of the current frame
    that are not numeric never make [detect_feature_drift] raise: the call
    answers as it does on the frame without them.  When the reference is
    numeric wherever the current frame is, it returns a report: the
    non-numeric columns have no verdict, the verdicts are those of the
    shared numeric columns other than the label, each holding the index
    [calculate_psi] gives for the two columns of that name, its tier, and
    their means and standard deviations; [total_features] is the number
    of these columns, the drifted features are those of them whose index
    is 0.2 or more, [drift_percentage] is
    [drifted_features / total_features * 100] over these same columns and
    0 when there is none, and [overall_status] is DRIFT_DETECTED exactly
    when some analysed column has an index of 0.2 or more, NO_DRIFT
    otherwise. *)
Theorem detect_feature_drift_summary
    (read_csv : string -> result DataFrame) (self self' : DriftDetector)
    (reference current : DataFrame) :
  with_reference read_csv self = Ok (self', reference) ->
  NoDup (columns current) ->
  detect_feature_drift percentile_at read_csv self (numeric_part current)
    default_threshold
  = detect_feature_drift percentile_at read_csv self current default_threshold
  /\ ((forall col rs,
         numeric_in current col = true -> col <> target_col ->
         get reference col = Some rs -> is_numeric_dtype rs = true) ->
      exists fd,
        detect_feature_drift percentile_at read_csv self current
          default_threshold
        = Ok (fd, self')
        /\ keys (feature_drift fd) = analysed_columns reference current
        /\ (forall col s,
               get current col = Some s -> is_numeric_dtype s = false ->
               get (feature_drift fd) col = None)
        /\ (forall col v,
               In (col, v) (feature_drift fd) ->
               exists rs cs,
                 get reference col = Some rs /\ get current col = Some cs
                 /\ psi v = calculate_psi percentile_at rs cs default_bins
                 /\ psi v = column_psi percentile_at reference current col
                 /\ status v = psi_status (psi v) default_threshold
                 /\ series_mean rs = Ok (ref_mean v)
                 /\ series_mean cs = Ok (curr_mean v)
                 /\ series_std rs = Ok (ref_std v)
                 /\ series_std cs = Ok (curr_std v))
        /\ total_features (summary fd)
           = List.length (analysed_columns reference current)
        /\ drifted_feature_names (summary fd)
           = filter (fun col =>
                       Rgeb (column_psi percentile_at reference current col)
                            (Q2R default_threshold))
                    (analysed_columns reference current)
        /\ drifted_feature_names (summary fd)
           = map fst (filter (significant default_threshold) (feature_drift fd))
        /\ drifted_features (summary fd)
           = List.length (drifted_feature_names (summary fd))
        /\ (total_features (summary fd) = O ->
            drift_percentage (summary fd) = 0%Q)
        /\ (total_features (summary fd) <> O ->
            drift_percentage (summary fd)
            = (inject_Z (Z.of_nat (drifted_features (summary fd)))
               / inject_Z (Z.of_nat (total_features (summary fd))) * 100)%Q)
        /\ (overall_status (summary fd) = "DRIFT_DETECTED"
            <-> exists col,
                 In col (analysed_columns reference current)
                 /\ (Q2R default_threshold
                     <= column_psi percentile_at reference current col)%R)
        /\ (overall_status (summary fd) = "NO_DRIFT"
            <-> ~ exists col,
                   In col (analysed_columns reference current)
                   /\ (Q2R default_threshold
                       <= column_psi percentile_at reference current col)%R)).
Proof.
  intros Hwith Hnd. split.
  { unfold detect_feature_drift. rewrite Hwith. cbn [bind fst snd].
    now rewrite (feature_drift_of_numeric_part reference current
                   default_threshold Hnd). }
  intros Hnum.
  destruct (feature_drift_of_ok reference current default_threshold Hnd Hnum)
    as (results & Hfd & Hkeys & Hall).
  unfold detect_feature_drift. rewrite Hwith. cbn [bind fst snd].
  rewrite Hfd. cbn [bind].
  eexists. split; [reflexivity|]. cbn [feature_drift summary].
  pose proof (drifted_names_by_column reference current default_threshold
                results Hall) as Hnames.
  rewrite Hkeys in Hnames.
  set (reaches := fun col =>
         Rgeb (column_psi percentile_at reference current col)
              (Q2R default_threshold)) in *.
  assert (Hdrift :
            (exists col, In col (analysed_columns reference current)
                         /\ (Q2R default_threshold
                             <= column_psi percentile_at reference current
                                 col)%R)
            <-> filter reaches (analysed_columns reference current) <> []).
  { split.
    - intros (col & Hin & Hle) Hnil.
      assert (Hf : In col (filter reaches (analysed_columns reference
          current))).
      { apply filter_In. split; [exact Hin|]. now apply Rgeb_spec. }
      rewrite Hnil in Hf. destruct Hf.
    - destruct (filter reaches (analysed_columns reference current))
        as [|col rest] eqn:Hf; [congruence|]. intros _.
      assert (Hin : In col (filter reaches (analysed_columns reference
          current)))
        by (rewrite Hf; now left).
      apply filter_In in Hin as [Hin Hs]. exists col. split; [exact Hin|].
      now apply Rgeb_spec in Hs. }
  split; [exact Hkeys|].
  split; [|split; [|split; [|split; [|split; [|split; [|split; [|split;
      [|split]]]]]]]].
  - intros col s Hs Hn. apply not_in_get_none. rewrite Hkeys.
    intro Hin. apply analysed_columns_spec in Hin as [_ Hin].
    unfold numeric_in in Hin. rewrite Hs in Hin. congruence.
  - intros col v Hin. rewrite Forall_forall in Hall.
    destruct (Hall (col, v) Hin) as (rs & cs & Hrs & Hcs & Hpsi & Hrest).
    cbn [fst snd] in *. exists rs, cs.
    split; [exact Hrs|]. split; [exact Hcs|]. split; [exact Hpsi|].
    split; [|exact Hrest].
    exact (verdict_psi_is_column_psi reference current (col, v) rs cs
             Hrs Hcs Hpsi).
  - cbn. unfold len. rewrite <- Hkeys. unfold keys. now rewrite length_map.
  - cbn [summarize drifted_feature_names]. exact Hnames.
  - reflexivity.
  - reflexivity.
  - cbn. unfold len. destruct results; [reflexivity|discriminate].
  - cbn. unfold len. destruct results as [|kv results]; [intro H; now elim H|].
    intros _. reflexivity.
  - cbn [summarize overall_status]. rewrite Hdrift, Hnames.
    destruct (filter reaches (analysed_columns reference current)).
    + split; intro H; try discriminate; congruence.
    + split; intro H; try discriminate; reflexivity.
  - cbn [summarize overall_status]. rewrite Hdrift, Hnames.
    destruct (filter reaches (analysed_columns reference current)).
    + split; intro H; try reflexivity. intro H'. now apply H'.
    + split; intro H; try discriminate. exfalso. apply H. discriminate.
Qed.

Lemma Rgeb_zero (threshold : Q) :
  (0 < threshold)%Q -> Rgeb 0 (Q2R threshold) = false.
Proof.
  intro H. apply PsiFacts.Q2R_pos in H. unfold Rgeb.
  destruct (Rle_dec (Q2R threshold) 0); [lra|reflexivity].
Qed.

(** A frame does not drift from itself. *)
Lemma feature_drift_of_itself (frame : DataFrame) (threshold : Q) :
  NoDup (columns frame) ->
  (0 < threshold)%Q ->
  exists fd,
    feature_drift_of percentile_at frame frame threshold = Ok fd
    /\ overall_status (summary fd) = "NO_DRIFT".
Proof.
  intros Hnd Hpos.
  destruct (feature_drift_of_ok frame frame threshold Hnd)
    as (results & Hfd & _ & Hall).
  { intros col rs Hnum _ Hrs. unfold numeric_in in Hnum. now rewrite Hrs in
      Hnum. }
  eexists. split; [exact Hfd|]. cbn [summary summarize overall_status].
  assert (Hnone : filter (significant threshold) results = []).
  { clear Hfd. induction Hall as [|kv results Hkv _ IH]; [reflexivity|].
    cbn [filter]. destruct Hkv as (rs & cs & Hrs & Hcs & Hpsi & _).
    rewrite Hrs in Hcs. inversion Hcs; subst cs.
    unfold significant at 1. rewrite Hpsi, PsiFacts.calculate_psi_self.
    now rewrite (Rgeb_zero threshold Hpos). }
  now rewrite Hnone.
Qed.

End Interpolation.

End FeatureDriftFacts.

Module FeatureDriftWitness.

Import Np Drift NpFacts PsiFacts DictFacts FeatureLoop FeatureDriftFacts
    Samples.
Open Scope string_scope.

Ltac nodup_strings :=
  repeat (constructor; [cbn; intuition discriminate|]); constructor.

Lemma ln_monotone (x y : R) : (0 < x)%R -> (x <= y)%R -> (ln x <= ln y)%R.
Proof.
  intros Hx [Hlt | ->]; [|apply Rle_refl].
  apply Rlt_le. now apply ln_increasing.
Qed.

Lemma ln_quotient (x y : R) :
  (0 < x)%R -> (0 < y)%R -> ln (x / y) = (ln x - ln y)%R.
Proof.
  intros Hx Hy. unfold Rdiv.
  rewrite ln_mult by (try apply Rinv_0_lt_compat; assumption).
  rewrite ln_Rinv by assumption. ring.
Qed.

Lemma ln_3_ge_1 : (1 <= ln 3)%R.
Proof.
  rewrite <- (ln_exp 1) at 1.
  apply ln_monotone; [apply exp_pos|apply exp_le_3].
Qed.

(** A bin whose reference proportion is at least three times the current
    one adds at least their difference to the index. *)
Lemma psi_term_lower (ref_prop curr_prop : Q) :
  (0 < ref_prop)%Q -> (0 < curr_prop)%Q ->
  (3 * curr_prop <= ref_prop)%Q ->
  (Q2R ref_prop - Q2R curr_prop <= psi_term ref_prop curr_prop)%R.
Proof.
  intros Hr Hc H3. apply Q2R_pos in Hr, Hc. apply Qle_Rle in H3.
  rewrite Q2R_mult in H3.
  replace (Q2R 3) with 3%R in H3 by (unfold Q2R; cbn; lra).
  unfold psi_term.
  set (x := Q2R curr_prop) in *. set (y := Q2R ref_prop) in *.
  rewrite ln_quotient by assumption.
  assert (Hln : (ln 3 <= ln y - ln x)%R).
  { rewrite <- ln_quotient by assumption. apply ln_monotone; [lra|].
    apply Rmult_le_reg_r with x; [exact Hc|].
    unfold Rdiv. rewrite Rmult_assoc, Rinv_l by lra. lra. }
  pose proof ln_3_ge_1. nra.
Qed.

Lemma psi_sum_lower (ref_props curr_props : list Q) :
  Forall (fun p => (0 < p)%Q) ref_props ->
  Forall (fun p => (0 < p)%Q) curr_props ->
  forallb (fun rc => Qle_bool (3 * snd rc) (fst rc))
          (combine ref_props curr_props) = true ->
  (Q2R (Qsum (map (fun rc => fst rc - snd rc)%Q (combine ref_props curr_props)))
   <= psi_sum ref_props curr_props)%R.
Proof.
  intros Hr. revert curr_props. unfold psi_sum.
  induction Hr as [|r ref_props Hr _ IH]; intros curr_props Hc Hall.
  - cbn. unfold Q2R. cbn. lra.
  - destruct Hc as [|c curr_props Hc Hcs]; [cbn; unfold Q2R; cbn; lra|].
    cbn [combine forallb fst snd] in Hall.
    apply andb_prop in Hall as [H3 Hall]. apply Qle_bool_iff in H3.
    cbn [combine map Qsum fold_right Rsum fst snd].
    specialize (IH _ Hcs Hall). unfold Qsum, Rsum in IH.
    pose proof (psi_term_lower r c Hr Hc H3) as Hterm.
    rewrite Q2R_plus, Q2R_minus. lra.
Qed.

(** The breakpoints of the reference ages: the eleven ages in order. *)
Lemma reference_age_breakpoints :
  breakpoints_of linear_percentile_at
    (NumSeries [25; 31; 38; 44; 52; 60; 33; 47; 29; 55; 41]%Q) default_bins
  = Ok [25000 # 1000; 29000 # 1000; 31000 # 1000; 33000 # 1000; 38000 # 1000;
        41000 # 1000; 44000 # 1000; 47000 # 1000; 52000 # 1000; 55000 # 1000;
        60000 # 1000]%Q.
Proof. vm_compute. reflexivity. Qed.

(** Every current age lies above the reference ages: the index of the
    column is 0.2 or more. *)
Lemma age_has_drifted :
  (Q2R default_threshold
   <= column_psi linear_percentile_at reference_frame current_frame "age")%R.
Proof.
  change (column_psi linear_percentile_at reference_frame current_frame "age")
    with (calculate_psi linear_percentile_at
            (NumSeries [25; 31; 38; 44; 52; 60; 33; 47; 29; 55; 41]%Q)
            (NumSeries [66; 71; 78; 84; 92; 61; 73; 87; 69; 95; 81]%Q)
            default_bins).
  destruct (calculate_psi_try_numeric
              (percentile_at := linear_percentile_at) _
              [66; 71; 78; 84; 92; 61; 73; 87; 69; 95; 81]%Q default_bins _
              reference_age_breakpoints ltac:(cbn; lia))
    as (rs & Hrs & Htry).
  inversion Hrs; subst rs; clear Hrs.
  unfold calculate_psi. rewrite Htry.
  match goal with
  | |- context [psi_sum ?r ?c] => set (ref_props := r); set (curr_props := c)
  end.
  eapply Rle_trans; [|apply psi_sum_lower].
  - apply Qle_Rle. unfold ref_props, curr_props. vm_compute. discriminate.
  - apply proportions_pos. reflexivity.
  - apply proportions_pos. reflexivity.
  - vm_compute. reflexivity.
Qed.

(** The stress levels are those of the reference: the index is 0.0. *)
Lemma stress_level_has_not_drifted :
  column_psi linear_percentile_at reference_frame current_frame "stress_level"
  = 0%R.
Proof.
  change (column_psi linear_percentile_at reference_frame current_frame
            "stress_level")
    with (calculate_psi linear_percentile_at
            (NumSeries [2; 5; 7; 3; 8; 6; 4; 9; 1; 5; 6]%Q)
            (NumSeries [2; 5; 7; 3; 8; 6; 4; 9; 1; 5; 6]%Q)
            default_bins).
  apply calculate_psi_self.
Qed.

Lemma sample_columns_reaching_the_threshold :
  filter (fun col =>
            Rgeb (column_psi linear_percentile_at reference_frame current_frame
                col)
                 (Q2R default_threshold))
         ["age"; "stress_level"]
  = ["age"].
Proof.
  cbn [filter].
  rewrite (proj2 (Rgeb_spec _ _) age_has_drifted).
  rewrite stress_level_has_not_drifted, Rgeb_zero by reflexivity.
  reflexivity.
Qed.

Lemma reference_is_numeric_for_current_frame (col : string) (rs : Series) :
  numeric_in current_frame col = true -> col <> target_col ->
  get reference_frame col = Some rs -> is_numeric_dtype rs = true.
Proof.
  intros Hnum _ Hget. unfold numeric_in, current_frame in Hnum.
  unfold reference_frame in Hget. cbn [get] in Hnum, Hget.
  destruct (String.eqb col "age"); [now inversion Hget|].
  destruct (String.eqb col "city"); [discriminate Hnum|].
  destruct (String.eqb col "notes"); [discriminate Hnum|].
  destruct (String.eqb col "stress_level"); [now inversion Hget|].
  destruct (String.eqb col "migraine_occurrence"); [now inversion Hget|].
  discriminate Hget.
Qed.

Lemma current_frame_columns_are_distinct : NoDup (columns current_frame).
Proof.
  unfold current_frame, columns, keys. cbn [map fst]. nodup_strings.
Qed.

Lemma detect_feature_drift_summary_witness :
  exists fd,
    detect_feature_drift linear_percentile_at read_csv_sample fresh_detector
      current_frame default_threshold
    = Ok (fd, loaded_detector reference_frame)
    /\ keys (feature_drift fd) = ["age"; "stress_level"]
    /\ get (feature_drift fd) "notes" = None
    /\ (exists v,
          get (feature_drift fd) "age" = Some v
          /\ psi v = calculate_psi linear_percentile_at
                       (NumSeries [25; 31; 38; 44; 52; 60; 33; 47; 29; 55;
                           41]%Q)
                       (NumSeries [66; 71; 78; 84; 92; 61; 73; 87; 69; 95;
                           81]%Q)
                       default_bins
          /\ (Q2R default_threshold <= psi v)%R
          /\ status v = "SIGNIFICANT_DRIFT")
    /\ total_features (summary fd) = 2%nat
    /\ drifted_feature_names (summary fd) = ["age"]
    /\ drifted_features (summary fd) = 1%nat
    /\ (drift_percentage (summary fd) == 50)%Q
    /\ overall_status (summary fd) = "DRIFT_DETECTED".
Proof.
  destruct (detect_feature_drift_summary
              (percentile_at := linear_percentile_at)
              read_csv_sample fresh_detector
              (loaded_detector reference_frame) reference_frame current_frame)
    as (_ & Hreport).
  - reflexivity.
  - exact current_frame_columns_are_distinct.
  - destruct Hreport
      as (fd & Hfd & Hkeys & Hskipped & Hverdicts & Htotal & Hnames & _
          & Hcount & _ & Hpct & Hstatus & _).
    + exact reference_is_numeric_for_current_frame.
    + change (analysed_columns reference_frame current_frame)
        with ["age"; "stress_level"] in *.
      rewrite sample_columns_reaching_the_threshold in Hnames.
      exists fd. split; [exact Hfd|]. split; [exact Hkeys|].
      split; [apply (Hskipped "notes" (ObjSeries ["aura"; "none"; "none";
          "aura";
                       "none"; "none"; "none"; "aura"; "none"; "none";
                           "none"]));
              reflexivity|].
      split.
      { destruct (feature_drift fd) as [|[c1 v1] [|[c2 v2] [|kv rest]]]
          eqn:Hres;
          try discriminate Hkeys.
        inversion Hkeys; subst c1 c2. exists v1. split; [reflexivity|].
        destruct (Hverdicts "age" v1 (or_introl eq_refl))
          as (rs & cs & Hrs & Hcs & Hpsi & Hcol & Hst & _).
        inversion Hrs; subst rs. inversion Hcs; subst cs.
        split; [exact Hpsi|].
        assert (Hge : (Q2R default_threshold <= psi v1)%R)
          by (rewrite Hcol; exact age_has_drifted).
        split; [exact Hge|]. rewrite Hst. unfold psi_status.
        now rewrite (proj2 (Rgeb_spec _ _) Hge). }
      split; [exact Htotal|]. split; [exact Hnames|].
      assert (Hone : drifted_features (summary fd) = 1%nat)
        by (rewrite Hcount, Hnames; reflexivity).
      split; [exact Hone|]. split.
      { rewrite Hpct by (rewrite Htotal; discriminate).
        rewrite Hone, Htotal. reflexivity. }
      apply Hstatus. exists "age". split; [now left|exact age_has_drifted].
Defined.

End FeatureDriftWitness.

(** ** A reference column that is not numeric *)

Module ReferenceDtype.

Import Np Drift DictFacts FeatureLoop FeatureDriftFacts PsiFailOpen Samples.
Open Scope string_scope.

Section Interpolation.

Context {percentile_at : list Q -> Q -> Q}.

Lemma calculate_psi_strings (values : list string) (current : Series) (bins : Z)
    :
  calculate_psi percentile_at (ObjSeries values) current bins = 0%R.
Proof.
  apply raises_calculate_psi, calculate_psi_try_breakpoints_raise,
    breakpoints_of_strings.
Qed.

Lemma psi_status_zero : psi_status 0%R default_threshold = "NO_DRIFT".
Proof.
  unfold psi_status, Rgeb, default_threshold.
  destruct (Rle_dec (Q2R (2 # 10)) 0) as [H|_].
  - exfalso. unfold Q2R in H. cbn in H. lra.
  - destruct (Rle_dec (Q2R (1 # 10)) 0) as [H|_]; [|reflexivity].
    exfalso. unfold Q2R in H. cbn in H. lra.
Qed.

Lemma raises_bind {A B : Type} (c : result A) (k : A -> result B) :
  raises c = true -> raises (bind c k) = true.
Proof. now destruct c. Qed.

(** C10 (amended): the dtype filter of both loops reads the current frame
    only.  A shared column other than the label that is numeric in the
    current frame and holds strings in the reference is not skipped: it is
    among the analysed columns, [calculate_psi] fails on the reference
    strings and falls open to 0.0, which is the tier NO_DRIFT, and the
    statistical loop hands the two columns to the KS test.  The column is
    all the same not reported: when the reference column is not empty its
    mean raises, and [detect_feature_drift] raises with it. *)
Theorem numeric_filter_reads_the_current_frame_only
    (read_csv : string -> result DataFrame)
    (ks_2samp : Series -> Series -> result (float * float))
    (self self' : DriftDetector) (reference current : DataFrame)
    (col : string) (strings : list string) (cs : Series)
    (alpha : float) (results : dict KsVerdict) :
  with_reference read_csv self = Ok (self', reference) ->
  get reference col = Some (ObjSeries strings) ->
  get current col = Some cs ->
  is_numeric_dtype cs = true ->
  col <> target_col ->
  In col (analysed_columns reference current)
  /\ calculate_psi percentile_at (ObjSeries strings) cs default_bins = 0%R
  /\ psi_status (calculate_psi percentile_at (ObjSeries strings) cs
      default_bins)
       default_threshold = "NO_DRIFT"
  /\ statistical_step ks_2samp reference current alpha results col
     = (sp <- ks_2samp (ObjSeries strings) cs ;;
        ret (set results col
                 {| statistic := fst sp; p_value := snd sp;
                    ks_drift_detected := (snd sp <? alpha)%float |}))%py
  /\ (strings <> [] ->
      raises (detect_feature_drift percentile_at read_csv self current
          default_threshold)
      = true).
Proof.
  intros Hwith Hrs Hcs Hcn Hne.
  assert (Hin : In col (common_cols reference current)).
  { apply common_cols_spec. split; [|split; [|exact Hne]].
    - apply get_some_in in Hcs. unfold columns, keys.
      change col with (fst (col, cs)). now apply in_map.
    - now apply (get_has_column reference col (ObjSeries strings)). }
  split; [|split; [|split; [|split]]].
  - apply analysed_columns_spec. split; [exact Hin|].
    unfold numeric_in. now rewrite Hcs.
  - apply calculate_psi_strings.
  - rewrite calculate_psi_strings. apply psi_status_zero.
  - unfold statistical_step, getitem. rewrite Hcs. cbn [bind].
    rewrite Hcn. cbn [negb]. now rewrite Hrs.
  - intro Hnonempty. destruct strings as [|x l]; [congruence|].
    unfold detect_feature_drift. rewrite Hwith. cbn [bind fst snd].
    apply raises_bind. unfold feature_drift_of. apply raises_bind.
    now apply (feature_loop_raises reference current default_threshold
                 (common_cols reference current) col cs x l).
Qed.

End Interpolation.

(** C10 (as stated, refuted): [age] is numeric in the current frame and
    text in the reference.  The run raises [TypeError] on the mean of the
    reference column, so no report lists [age], with NO_DRIFT or
    otherwise, and no [total_features] counts it. *)
Lemma text_reference_column_is_not_reported :
  numeric_in numeric_age_frame "age" = true
  /\ numeric_in text_reference_frame "age" = false
  /\ detect_feature_drift linear_percentile_at read_csv_sample
       (loaded_detector text_reference_frame) numeric_age_frame
       default_threshold = Raise TypeError
  /\ ~ (exists fd self' v,
           detect_feature_drift linear_percentile_at read_csv_sample
             (loaded_detector text_reference_frame)
             numeric_age_frame default_threshold = Ok (fd, self')
           /\ get (feature_drift fd) "age" = Some v
           /\ status v = "NO_DRIFT"
           /\ total_features (summary fd) = 1%nat).
Proof.
  assert (H : detect_feature_drift linear_percentile_at read_csv_sample
                (loaded_detector text_reference_frame)
                numeric_age_frame default_threshold = Raise TypeError)
    by reflexivity.
  repeat split; try reflexivity.
  intros (fd & self' & v & Hrun & _). rewrite H in Hrun. discriminate Hrun.
Qed.

Lemma numeric_filter_reads_the_current_frame_only_witness :
  In "age" (analysed_columns text_reference_frame numeric_age_frame)
  /\ calculate_psi linear_percentile_at (ObjSeries ["young"; "old"])
       (NumSeries [30; 40]%Q) default_bins = 0%R
  /\ raises (detect_feature_drift linear_percentile_at read_csv_sample
               (loaded_detector text_reference_frame) numeric_age_frame
               default_threshold) = true.
Proof.
  destruct (numeric_filter_reads_the_current_frame_only
              (percentile_at := linear_percentile_at)
              read_csv_sample ks_same
              (loaded_detector text_reference_frame)
              (loaded_detector text_reference_frame)
              text_reference_frame numeric_age_frame
              "age" ["young"; "old"] (NumSeries [30; 40]%Q)
              default_alpha [])
    as (Hin & Hpsi & _ & _ & Hraise).
  - reflexivity.
  - reflexivity.
  - reflexivity.
  - reflexivity.
  - discriminate.
  - split; [exact Hin|]. split; [exact Hpsi|]. apply Hraise. discriminate.
Defined.

End ReferenceDtype.

(** ** [detect_target_drift] *)

Module TargetDriftFacts.

Import Np Drift DictFacts FeatureDriftFacts Samples.
Open Scope string_scope.

Lemma label_eqb_refl (a : label) : label_eqb a a = true.
Proof.
  destruct a; cbn; [apply Qeq_bool_iff; reflexivity | apply String.eqb_refl].
Qed.

Lemma label_eqb_trans (a b c : label) :
  label_eqb a b = true -> label_eqb b c = true -> label_eqb a c = true.
Proof.
  destruct a, b, c; cbn; try discriminate.
  - rewrite !Qeq_bool_iff. intros H1 H2. now rewrite H1.
  - rewrite !String.eqb_eq. congruence.
Qed.

Lemma label_eqb_sym (a b : label) : label_eqb a b = label_eqb b a.
Proof.
  destruct a, b; cbn; try reflexivity.
  - destruct (Qeq_bool q q0) eqn:E1, (Qeq_bool q0 q) eqn:E2; try reflexivity.
    + apply Qeq_bool_iff in E1. symmetry in E1. apply Qeq_bool_iff in E1.
        congruence.
    + apply Qeq_bool_iff in E2. symmetry in E2. apply Qeq_bool_iff in E2.
        congruence.
  - apply String.eqb_sym.
Qed.

Lemma distinct_incl (ls : list label) (y : label) :
  In y (distinct ls) -> In y ls.
Proof.
  revert y. induction ls as [|a ls IH]; intros y; cbn; [tauto|].
  intros [-> | Hin]; [now left|]. apply filter_In in Hin as [Hin _].
  right. now apply IH.
Qed.

(** Every value of the column has its key in the distribution. *)
Lemma distinct_covers (ls : list label) (x : label) :
  In x ls -> exists y, In y (distinct ls) /\ label_eqb y x = true.
Proof.
  induction ls as [|a ls IH]; cbn; [tauto|].
  intros [-> | Hin].
  - exists x. split; [now left | apply label_eqb_refl].
  - destruct (IH Hin) as (y & Hy & Hyx).
    destruct (label_eqb a y) eqn:Hay.
    + exists a. split; [now left|]. now apply (label_eqb_trans a y x).
    + exists y. split; [|exact Hyx]. right. apply filter_In.
      split; [exact Hy|]. now rewrite Hay.
Qed.

Lemma dist_get_map (f : label -> float) (ds : list label) (key : label) :
  dist_get (map (fun v => (v, f v)) ds) key 0 =
  match find (label_eqb key) ds with
  | Some k => f k
  | None => 0%float
  end.
Proof.
  induction ds as [|d ds IH]; cbn; [reflexivity|].
  destruct (label_eqb key d); [reflexivity|exact IH].
Qed.

Lemma count_numeric_label (y : Q) (l : list Q) :
  Qeq_bool 1 y = true ->
  List.length (filter (label_eqb (NumLabel y)) (map NumLabel l))
  = List.length (filter (Qeq_bool 1) l).
Proof.
  intro Hy. induction l as [|x l IH]; [reflexivity|].
  cbn [map filter label_eqb].
  assert (E : Qeq_bool y x = Qeq_bool 1 x).
  { apply Qeq_bool_iff in Hy.
    destruct (Qeq_bool y x) eqn:E1, (Qeq_bool 1 x) eqn:E2; try reflexivity.
    - apply Qeq_bool_iff in E1. rewrite <- Hy in E1.
      apply Qeq_bool_iff in E1. congruence.
    - apply Qeq_bool_iff in E2. rewrite Hy in E2.
      apply Qeq_bool_iff in E2. congruence. }
  rewrite E. destruct (Qeq_bool 1 x); cbn [List.length]; now rewrite IH.
Qed.

(** [dist.get(1, 0)] is the share of the rows that hold 1: the quotient
    of the two counts when some row holds it, and the default otherwise. *)
Lemma positive_share_spec (s : Series) :
  dist_get (value_counts_normalized s) (NumLabel 1) 0 = positive_share s.
Proof.
  unfold value_counts_normalized. rewrite dist_get_map.
  destruct (find (label_eqb (NumLabel 1)) (distinct (labels_of s)))
    as [k|] eqn:Hfind.
  - apply find_some in Hfind as [Hin Hk]. apply distinct_incl in Hin.
    destruct s as [l|l]; cbn [labels_of] in *.
    + apply in_map_iff in Hin as (y & <- & Hy). cbn [label_eqb] in Hk.
      unfold positive_share, positives. cbn [series_len].
      rewrite (count_numeric_label y l Hk), length_map.
      destruct (List.length (filter (Qeq_bool 1) l)) eqn:Hcount; [|reflexivity].
      exfalso. apply length_zero_iff_nil in Hcount.
      assert (Hf : In y (filter (Qeq_bool 1) l)) by (apply filter_In; now
          split).
      rewrite Hcount in Hf. destruct Hf.
    + apply in_map_iff in Hin as (y & <- & _). discriminate Hk.
  - destruct s as [l|l]; unfold positive_share, positives;
      cbn [labels_of] in *; [|reflexivity].
    assert (Hnone : filter (Qeq_bool 1) l = []).
    { destruct (filter (Qeq_bool 1) l) as [|x rest] eqn:Hf; [reflexivity|].
      exfalso.
      assert (Hx : In x (filter (Qeq_bool 1) l)) by (rewrite Hf; now left).
      apply filter_In in Hx as [Hx H1].
      destruct (distinct_covers (map NumLabel l) (NumLabel x)) as (y & Hy &
          Hyx).
      { now apply in_map. }
      pose proof (find_none _ _ Hfind y Hy) as Hno.
      rewrite (label_eqb_trans (NumLabel 1) (NumLabel x) y) in Hno;
        [discriminate|exact H1|].
      now rewrite label_eqb_sym. }
    now rewrite Hnone.
Qed.

Lemma get_none_has_column (df : DataFrame) (col : string) :
  get df col = None -> has_column df col = false.
Proof.
  intro H. destruct (has_column df col) eqn:E; [|reflexivity].
  apply has_column_get in E as [s Hs]. congruence.
Qed.

(** The result of [detect_target_drift] on two frames that hold the
    label. *)
Lemma target_drift_of_labelled (reference current : DataFrame)
    (rc cc : Series) :
  get reference target_col = Some rc ->
  get current target_col = Some cc ->
  target_drift_of reference current
  = Some {| reference_distribution := value_counts_normalized rc;
            current_distribution := value_counts_normalized cc;
            drift_magnitude :=
              PrimFloat.abs (positive_share rc - positive_share cc)%float;
            target_status :=
              if (0.1 <? PrimFloat.abs (positive_share rc - positive_share
                  cc))%float
              then "SIGNIFICANT_DRIFT" else "NO_DRIFT" |}.
Proof.
  intros Hrc Hcc. unfold target_drift_of.
  rewrite (get_has_column _ _ _ Hrc), (get_has_column _ _ _ Hcc), Hrc, Hcc.
  cbn [negb orb]. now rewrite !positive_share_spec.
Qed.

(** The shares of the sample frames. *)
Lemma share_of_label_frame :
  get label_frame target_col
  = Some (NumSeries [1; 0; 0; 1; 0; 0; 1; 0; 0; 0]%Q)
  /\ positive_share (NumSeries [1; 0; 0; 1; 0; 0; 1; 0; 0; 0]%Q) = 0.30%float.
Proof. split; reflexivity. Qed.

Lemma share_of_label_frame_40 :
  get label_frame_40 target_col
  = Some (NumSeries [1; 0; 1; 1; 0; 0; 1; 0; 0; 0]%Q)
  /\ positive_share (NumSeries [1; 0; 1; 1; 0; 0; 1; 0; 0; 0]%Q) = 0.40%float.
Proof. split; reflexivity. Qed.

Lemma share_of_shifted_label_frame :
  get shifted_label_frame target_col = Some sample_labels
  /\ positive_share sample_labels = 0.45%float.
Proof. split; reflexivity. Qed.

(** C7 (as stated, refuted): the magnitude is the rounded difference of
    the shares.  Shares 0.30 and 0.45 (3 rows of 10, 9 rows of 20) give
    the magnitude 0.15000000000000002, which is not 0.15; and shares 0.30
    and 0.40 give 0.10000000000000003, which is above 0.1:
    SIGNIFICANT_DRIFT, for two shares that are 0.1 apart. *)
Lemma target_drift_magnitude_is_rounded :
  (exists t,
      detect_target_drift read_csv_sample (loaded_detector label_frame)
        shifted_label_frame
      = Ok (Some t, loaded_detector label_frame)
      /\ dist_get (reference_distribution t) (NumLabel 1) 0 = 0.30%float
      /\ dist_get (current_distribution t) (NumLabel 1) 0 = 0.45%float
      /\ drift_magnitude t = 0.15000000000000002%float
      /\ (drift_magnitude t =? 0.15)%float = false
      /\ drift_magnitude t <> 0.15%float
      /\ target_status t = "SIGNIFICANT_DRIFT")
  /\ (exists t,
         detect_target_drift read_csv_sample (loaded_detector label_frame)
           label_frame_40
         = Ok (Some t, loaded_detector label_frame)
         /\ dist_get (reference_distribution t) (NumLabel 1) 0 = 0.30%float
         /\ dist_get (current_distribution t) (NumLabel 1) 0 = 0.40%float
         /\ drift_magnitude t = 0.10000000000000003%float
         /\ target_status t = "SIGNIFICANT_DRIFT").
Proof.
  split.
  - eexists. split; [reflexivity|]. cbn [reference_distribution
      current_distribution drift_magnitude target_status].
    repeat split; try reflexivity.
    intro H. apply (f_equal (fun x => (x =? 0.15)%float)) in H.
    vm_compute in H. discriminate H.
  - eexists. split; [reflexivity|]. repeat split; reflexivity.
Qed.

(** C7 (amended): with the reference frame at hand, [detect_target_drift]
    on two frames that hold the label returns a magnitude equal to the
    absolute difference, computed in binary64, of the shares of the value
    1 in the two label columns, with status SIGNIFICANT_DRIFT exactly
    when that magnitude is strictly above 0.1 and NO_DRIFT otherwise
    (shares 0.30 and 0.45 give 0.15000000000000002 and
    SIGNIFICANT_DRIFT); when either frame lacks the label it returns the
    empty result and does not raise. *)
Theorem detect_target_drift_magnitude
    (read_csv : string -> result DataFrame) (self self' : DriftDetector)
    (reference current : DataFrame) :
  with_reference read_csv self = Ok (self', reference) ->
  (forall rc cc,
      get reference target_col = Some rc ->
      get current target_col = Some cc ->
      exists t,
        detect_target_drift read_csv self current = Ok (Some t, self')
        /\ dist_get (reference_distribution t) (NumLabel 1) 0 = positive_share
            rc
        /\ dist_get (current_distribution t) (NumLabel 1) 0 = positive_share cc
        /\ drift_magnitude t
           = PrimFloat.abs (positive_share rc - positive_share cc)%float
        /\ (target_status t = "SIGNIFICANT_DRIFT"
            <-> (0.1 <? drift_magnitude t)%float = true)
        /\ (target_status t = "NO_DRIFT"
            <-> (0.1 <? drift_magnitude t)%float = false)
        /\ (positive_share rc = 0.30%float ->
            positive_share cc = 0.45%float ->
            drift_magnitude t = 0.15000000000000002%float
            /\ target_status t = "SIGNIFICANT_DRIFT"))
  /\ (get reference target_col = None \/ get current target_col = None ->
      detect_target_drift read_csv self current = Ok (None, self')).
Proof.
  intro Hwith. unfold detect_target_drift. rewrite Hwith. cbn [bind fst snd].
  split.
  - intros rc cc Hrc Hcc.
    rewrite (target_drift_of_labelled reference current rc cc Hrc Hcc).
    eexists. split; [reflexivity|].
    cbn [drift_magnitude target_status reference_distribution
         current_distribution].
    split; [apply positive_share_spec|]. split; [apply positive_share_spec|].
    split; [reflexivity|].
    split; [|split].
    + destruct (0.1 <? _)%float;
        intuition (try discriminate; try congruence).
    + destruct (0.1 <? _)%float;
        intuition (try discriminate; try congruence).
    + intros -> ->. split; reflexivity.
  - intros [Hnone | Hnone]; apply get_none_has_column in Hnone;
      unfold target_drift_of; rewrite Hnone; cbn [negb orb];
      [now rewrite orb_true_r | reflexivity].
Qed.

Lemma detect_target_drift_magnitude_witness :
  (exists t,
      detect_target_drift read_csv_sample (loaded_detector label_frame)
        shifted_label_frame
      = Ok (Some t, loaded_detector label_frame)
      /\ drift_magnitude t = 0.15000000000000002%float
      /\ target_status t = "SIGNIFICANT_DRIFT")
  /\ detect_target_drift read_csv_sample fresh_detector unlabelled_frame
     = Ok (None, loaded_detector reference_frame).
Proof.
  split.
  - destruct (proj1 (detect_target_drift_magnitude read_csv_sample
                       (loaded_detector label_frame)
                       (loaded_detector label_frame) label_frame
                       shifted_label_frame eq_refl)
                _ _ (proj1 share_of_label_frame)
                (proj1 share_of_shifted_label_frame))
      as (t & Hrun & _ & _ & _ & _ & _ & Hexample).
    exists t. split; [exact Hrun|]. apply Hexample; reflexivity.
  - apply (proj2 (detect_target_drift_magnitude read_csv_sample fresh_detector
                    (loaded_detector reference_frame) reference_frame
                    unlabelled_frame eq_refl)).
    right. reflexivity.
Defined.

End TargetDriftFacts.

(** ** [comprehensive_drift_check] *)

Module ReportFacts.

Import Np Drift DictFacts FeatureDriftFacts Samples.
Open Scope string_scope.

Section Run.

Variable percentile_at : list Q -> Q -> Q.
Variable read_csv : string -> result DataFrame.
Variable ks_2samp : Series -> Series -> result (float * float).
Variable accuracy_score : Series -> Series -> result score.
Variable f1_score : Series -> Series -> result score.
Variable make_dirs : string -> result unit.
Variable open_w : string -> result unit.
Variable write_json : string -> DriftReport -> result unit.
Variable timestamped_file : string.


(** A report that cannot be encoded is not saved: when the directory
    and the file can be made, the exception is the [TypeError] of
    [json.dump]. *)
Lemma save_drift_report_type_error (report : DriftReport) :
  json_serializable report = false ->
  raises (save_drift_report make_dirs open_w write_json timestamped_file report)
  = true
  /\ (make_dirs reports_dir = Ok tt -> open_w timestamped_file = Ok tt ->
      save_drift_report make_dirs open_w write_json timestamped_file report
      = Raise TypeError).
Proof.
  intro H. unfold save_drift_report, json_dump. rewrite H. split.
  - destruct (make_dirs reports_dir) as [[]|e]; [|reflexivity]. cbn [bind].
    destruct (open_w timestamped_file) as [[]|e]; reflexivity.
  - intros -> ->. reflexivity.
Qed.





End Run.








End ReportFacts.

(** * Further properties of the fit diagnosis *)

Module EvaluateMore.

Import Evaluate EvaluateFacts.
Open Scope string_scope.

Lemma getitem_ok {V : Type} (d : dict V) (k : string) (v : V) :
  getitem d k = Ok v <-> get d k = Some v.
Proof.
  unfold getitem. destruct (get d k); split; intro H; inversion H; reflexivity.
Qed.

Lemma getitem_raise {V : Type} (d : dict V) (k : string) :
  get d k = None -> getitem d k = Raise (KeyError k).
Proof. unfold getitem. now intros ->. Qed.

(** X1: [detect_overfitting] raises exactly when one of the four entries
    it reads (accuracy and f1, in the train and the test dictionary) is
    missing, and the exception is then the [KeyError] of that key. *)
Theorem detect_overfitting_raises_on_missing_metric
    (train test : dict float) (threshold : float) :
  (raises (detect_overfitting train test threshold) = true
   <-> get train "accuracy" = None \/ get test "accuracy" = None
       \/ get train "f1" = None \/ get test "f1" = None)
  /\ (forall e,
         detect_overfitting train test threshold = Raise e ->
         e = KeyError "accuracy" \/ e = KeyError "f1").
Proof.
  unfold detect_overfitting, getitem.
  destruct (get train "accuracy") as [ta|]; cbn [bind raises];
    [|split; [split; [tauto|reflexivity] | intros e H; inversion H; tauto]].
  destruct (get test "accuracy") as [te|]; cbn [bind raises];
    [|split; [split; [tauto|reflexivity] | intros e H; inversion H; tauto]].
  destruct (get train "f1") as [fa|]; cbn [bind raises];
    [|split; [split; [tauto|reflexivity] | intros e H; inversion H; tauto]].
  destruct (get test "f1") as [fe|]; cbn [bind raises];
    [|split; [split; [tauto|reflexivity] | intros e H; inversion H; tauto]].
  destruct ((threshold <? ta - te)%float || (threshold <? fa - fe)%float);
    cbn [bind raises].
  - split; [split; [discriminate|]|discriminate].
    intros [H|[H|[H|H]]]; discriminate.
  - destruct ((te <? 0.60)%float); cbn [bind raises];
      (split; [split; [discriminate|]|discriminate]);
      intros [H|[H|[H|H]]]; discriminate.
Qed.

(** X2: the verdict of [detect_overfitting] reads nothing but the accuracy
    and f1 entries: dictionaries that agree on these two keys (whatever
    precision, recall or roc_auc they hold) get the same outcome. *)
Theorem detect_overfitting_reads_accuracy_and_f1_only
    (train train' test test' : dict float) (threshold : float) :
  get train "accuracy" = get train' "accuracy" ->
  get train "f1" = get train' "f1" ->
  get test "accuracy" = get test' "accuracy" ->
  get test "f1" = get test' "f1" ->
  detect_overfitting train test threshold
  = detect_overfitting train' test' threshold.
Proof.
  intros Ha Hf Ha' Hf'. unfold detect_overfitting, getitem.
  now rewrite Ha, Hf, Ha', Hf'.
Qed.

Lemma detect_overfitting_reads_accuracy_and_f1_only_witness :
  detect_overfitting
    (classification_metrics 0.90 0.10 0.20 0.88)
    (classification_metrics 0.85 0.30 0.40 0.86)
    default_threshold
  = detect_overfitting
      [("f1", 0.88%float); ("roc_auc", 0.99%float); ("accuracy", 0.90%float)]
      [("accuracy", 0.85%float); ("f1", 0.86%float)]
      default_threshold.
Proof.
  apply detect_overfitting_reads_accuracy_and_f1_only; reflexivity.
Defined.

(** The same verdict, read off a successful call. *)
Lemma detect_overfitting_ok_inv (train test : dict float) (threshold : float)
    (v : FitVerdict) :
  detect_overfitting train test threshold = Ok v ->
  exists ta te fa fe,
    getitem train "accuracy" = Ok ta /\ getitem test "accuracy" = Ok te
    /\ getitem train "f1" = Ok fa /\ getitem test "f1" = Ok fe.
Proof.
  unfold detect_overfitting.
  destruct (getitem train "accuracy") as [ta|]; [|discriminate].
  destruct (getitem test "accuracy") as [te|]; [|discriminate].
  cbn [bind].
  destruct (getitem train "f1") as [fa|]; [|discriminate].
  destruct (getitem test "f1") as [fe|]; [|discriminate].
  intros _. now exists ta, te, fa, fe.
Qed.

(** X3: every verdict [detect_overfitting] returns is one of
    OVERFITTING, UNDERFITTING and GOOD_FIT; its severity is NONE exactly
    for GOOD_FIT and HIGH or MEDIUM otherwise; and its recommendation is
    the entry of the lookup table for its status, never the fallback
    "No specific recommendation". *)
Theorem fit_verdict_is_well_formed
    (train test : dict float) (threshold : float) (v : FitVerdict) :
  detect_overfitting train test threshold = Ok v ->
  (status v = "OVERFITTING" \/ status v = "UNDERFITTING"
   \/ status v = "GOOD_FIT")
  /\ (severity v = "NONE" <-> status v = "GOOD_FIT")
  /\ (status v <> "GOOD_FIT" -> severity v = "HIGH" \/ severity v = "MEDIUM")
  /\ get recommendations (status v) = Some (recommendation v)
  /\ recommendation v <> "No specific recommendation".
Proof.
  intro Hv.
  destruct (detect_overfitting_ok_inv _ _ _ _ Hv)
    as (ta & te & fa & fe & Hta & Hte & Hfa & Hfe).
  rewrite (detect_overfitting_found train test threshold ta te fa fe
             Hta Hte Hfa Hfe) in Hv.
  inversion Hv; subst v; clear Hv. cbn zeta.
  cbn [status severity recommendation].
  destruct ((threshold <? ta - te)%float || (threshold <? fa - fe)%float).
  - destruct ((0.15 <? ta - te)%float); cbn;
      intuition (try discriminate; try congruence).
  - destruct ((te <? 0.60)%float).
    + destruct ((te <? 0.50)%float); cbn;
        intuition (try discriminate; try congruence).
    + cbn; intuition (try discriminate; try congruence).
Qed.

Lemma fit_verdict_is_well_formed_witness :
  exists v,
    detect_overfitting
      (classification_metrics 0.58 0.50 0.50 0.55)
      (classification_metrics 0.55 0.50 0.50 0.52)
      default_threshold = Ok v
    /\ get recommendations (status v) = Some (recommendation v).
Proof.
  eexists. split; [reflexivity|].
  eapply (fit_verdict_is_well_formed
            (classification_metrics 0.58 0.50 0.50 0.55)
            (classification_metrics 0.55 0.50 0.50 0.52)
            default_threshold).
  reflexivity.
Defined.

(** X4: raising the threshold never creates an OVERFITTING verdict: a
    pair of dictionaries that is OVERFITTING at a threshold is
    OVERFITTING, with the same severity, at every lower one. *)
Theorem overfitting_survives_a_lower_threshold
    (train test : dict float) (low high : float) (v : FitVerdict) :
  (low <=? high)%float = true ->
  detect_overfitting train test high = Ok v ->
  status v = "OVERFITTING" ->
  exists v',
    detect_overfitting train test low = Ok v'
    /\ status v' = "OVERFITTING"
    /\ severity v' = severity v.
Proof.
  intros Hle Hv Hst.
  destruct (detect_overfitting_ok_inv _ _ _ _ Hv)
    as (ta & te & fa & fe & Hta & Hte & Hfa & Hfe).
  rewrite (detect_overfitting_found train test high ta te fa fe
             Hta Hte Hfa Hfe) in Hv.
  rewrite (detect_overfitting_found train test low ta te fa fe
             Hta Hte Hfa Hfe).
  inversion Hv; subst v; clear Hv. cbn zeta in *.
  cbn [status severity] in *. eexists. split; [reflexivity|].
  cbn [status severity].
  assert (Hover : (low <? ta - te)%float || (low <? fa - fe)%float = true).
  { destruct (high <? ta - te)%float eqn:Ea.
    - now rewrite (Binary64Facts.leb_ltb_trans low high _ Hle Ea).
    - destruct (high <? fa - fe)%float eqn:Ef.
      + rewrite (Binary64Facts.leb_ltb_trans low high _ Hle Ef).
        apply orb_true_r.
      + cbn [orb] in Hst. destruct (te <? 0.60)%float; discriminate. }
  rewrite Hover.
  destruct ((high <? ta - te)%float || (high <? fa - fe)%float).
  - split; reflexivity.
  - destruct (te <? 0.60)%float; discriminate.
Qed.

Lemma overfitting_survives_a_lower_threshold_witness :
  exists v',
    detect_overfitting
      (classification_metrics 0.95 0.90 0.90 0.90)
      (classification_metrics 0.70 0.70 0.70 0.70)
      0.05 = Ok v'
    /\ status v' = "OVERFITTING".
Proof.
  destruct (overfitting_survives_a_lower_threshold
              (classification_metrics 0.95 0.90 0.90 0.90)
              (classification_metrics 0.70 0.70 0.70 0.70)
              0.05 0.20
              {| status := "OVERFITTING"; severity := "HIGH";
                 accuracy_gap := 0.95 - 0.70;
                 f1_gap := 0.90 - 0.70;
                 recommendation := get_recommendation "OVERFITTING" |})
    as (v' & Hv' & Hst & _).
  - reflexivity.
  - reflexivity.
  - reflexivity.
  - exists v'. split; assumption.
Defined.

End EvaluateMore.

Module RegressionFit.

Import Evaluate EvaluateFacts EvaluateMore.
Open Scope string_scope.

(** The gap is the rounded difference: R2 0.65 in training and 0.5 in
    test give the gap 0.15000000000000002, above 0.15, and the severity
    HIGH. *)
Lemma regression_gap_is_rounded :
  exists v,
    detect_overfitting_regression [("r2", 0.65%float)] [("r2", 0.5%float)]
      default_threshold = Ok v
    /\ r2_gap v = 0.15000000000000002%float
    /\ r_status v = "OVERFITTING"
    /\ r_severity v = "HIGH".
Proof. eexists. split; [reflexivity|]. repeat split; reflexivity. Qed.

(** X5: with [r2] present on both sides, [detect_overfitting_regression]
    answers OVERFITTING exactly when the R2 gap, the binary64 difference
    of the two values, exceeds 0.10, with severity HIGH exactly when the
    gap exceeds 0.15; UNDERFITTING exactly when the gap does not exceed
    0.10 and the test R2 is below 0.50, with severity HIGH exactly when it
    is below 0.30; GOOD_FIT with severity NONE in every other case; the
    recommendation is the table's entry for the status. *)
Theorem detect_overfitting_regression_verdict
    (train test : dict float) (tr te : float) :
  getitem train "r2" = Ok tr ->
  getitem test "r2" = Ok te ->
  exists v,
    detect_overfitting_regression train test default_threshold = Ok v
    /\ r2_gap v = (tr - te)%float
    /\ (r_status v = "OVERFITTING" <-> (0.10 <? tr - te)%float = true)
    /\ (r_status v = "OVERFITTING" ->
        (r_severity v = "HIGH" <-> (0.15 <? tr - te)%float = true)
        /\ (r_severity v = "MEDIUM" <-> (0.15 <? tr - te)%float = false))
    /\ (r_status v = "UNDERFITTING"
        <-> (0.10 <? tr - te)%float = false /\ (te <? 0.50)%float = true)
    /\ (r_status v = "UNDERFITTING" ->
        (r_severity v = "HIGH" <-> (te <? 0.30)%float = true)
        /\ (r_severity v = "MEDIUM" <-> (te <? 0.30)%float = false))
    /\ (r_status v = "GOOD_FIT"
        <-> (0.10 <? tr - te)%float = false /\ (te <? 0.50)%float = false)
    /\ (r_severity v = "NONE" <-> r_status v = "GOOD_FIT")
    /\ get recommendations (r_status v) = Some (r_recommendation v).
Proof.
  intros Htr Hte. unfold detect_overfitting_regression.
  rewrite Htr, Hte. cbn [bind]. unfold default_threshold.
  destruct (0.10 <? tr - te)%float eqn:Eg.
  - destruct (0.15 <? tr - te)%float eqn:Eh;
      eexists; (split; [reflexivity|]); cbn;
      intuition (try discriminate; try congruence).
  - destruct (te <? 0.50)%float eqn:Eu.
    + destruct (te <? 0.30)%float eqn:El;
        eexists; (split; [reflexivity|]); cbn;
        intuition (try discriminate; try congruence).
    + eexists; (split; [reflexivity|]); cbn;
        intuition (try discriminate; try congruence).
Qed.

Lemma detect_overfitting_regression_verdict_witness :
  exists v,
    detect_overfitting_regression
      [("mse", 4.0); ("rmse", 2.0); ("mae", 1.5); ("r2", 0.45)]%float
      [("mse", 5.0); ("rmse", 2.25); ("mae", 2.0); ("r2", 0.40)]%float
      default_threshold = Ok v
    /\ r_status v = "UNDERFITTING" /\ r_severity v = "MEDIUM".
Proof.
  destruct (detect_overfitting_regression_verdict
              [("mse", 4.0); ("rmse", 2.0); ("mae", 1.5); ("r2", 0.45)]%float
              [("mse", 5.0); ("rmse", 2.25); ("mae", 2.0); ("r2", 0.40)]%float
              0.45 0.40 eq_refl eq_refl)
    as (v & Hv & _ & _ & _ & Hunder & Hsev & _).
  exists v. split; [exact Hv|].
  assert (Hst : r_status v = "UNDERFITTING").
  { apply Hunder. split; reflexivity. }
  split; [exact Hst|]. apply (Hsev Hst). reflexivity.
Defined.

End RegressionFit.

(** * The evaluation script *)

Module EvaluationScriptFacts.

Import Evaluate EvaluateFacts EvaluateMore EvaluationScript.
Open Scope string_scope.

Lemma fit_status_cases (train test : dict float) (threshold : float) (v :
    FitVerdict) :
  detect_overfitting train test threshold = Ok v ->
  status v = "OVERFITTING" \/ status v = "UNDERFITTING"
  \/ status v = "GOOD_FIT".
Proof.
  intro Hv.
  destruct (detect_overfitting_ok_inv _ _ _ _ Hv)
    as (ta & te & fa & fe & Hta & Hte & Hfa & Hfe).
  rewrite (detect_overfitting_found train test threshold ta te fa fe
             Hta Hte Hfa Hfe) in Hv.
  inversion Hv; subst v; clear Hv. cbn zeta. cbn [status].
  destruct ((threshold <? ta - te)%float || (threshold <? fa - fe)%float);
      [tauto|].
  destruct ((te <? 0.60)%float); tauto.
Qed.

(** X6: in the HTML report the section of a verdict carries the class
    [status.lower().replace('_', '')].  For every verdict of
    [detect_overfitting] this class is one the style sheet defines
    exactly when the status is not GOOD_FIT: the class of a GOOD_FIT
    section is [goodfit], and the style sheet only knows [good-fit]. *)
Theorem good_fit_section_is_not_styled
    (train test : dict float) (threshold : float) (v : FitVerdict) :
  detect_overfitting train test threshold = Ok v ->
  (In (status_class (status v)) stylesheet_classes
   <-> status v <> "GOOD_FIT")
  /\ (status v = "GOOD_FIT" -> status_class (status v) = "goodfit").
Proof.
  intro Hv.
  destruct (fit_status_cases _ _ _ _ Hv) as [H | [H | H]]; rewrite H.
  - split; [|discriminate]. split; [discriminate|]. intros _.
    vm_compute. tauto.
  - split; [|discriminate]. split; [discriminate|]. intros _.
    vm_compute. tauto.
  - split; [|reflexivity]. split; [|congruence].
    vm_compute. intuition discriminate.
Qed.

Lemma good_fit_section_is_not_styled_witness :
  exists v,
    detect_overfitting
      (classification_metrics 0.90 0.90 0.90 0.90)
      (classification_metrics 0.88 0.90 0.90 0.89)
      default_threshold = Ok v
    /\ status_class (status v) = "goodfit"
    /\ ~ In (status_class (status v)) stylesheet_classes.
Proof.
  eexists. split; [reflexivity|].
  destruct (good_fit_section_is_not_styled
              (classification_metrics 0.90 0.90 0.90 0.90)
              (classification_metrics 0.88 0.90 0.90 0.89)
              default_threshold _ eq_refl) as [Hstyled Hclass].
  split; [apply Hclass; reflexivity|].
  intro Hin. apply Hstyled in Hin. apply Hin. reflexivity.
Defined.

Section Loop.

Variable Model : Type.
Variable Results : Type.
Variable path_exists : string -> bool.
Variable pickle_load : string -> result Model.
Variable evaluate_classification : Model -> string -> result Results.

(** X7: the loop of the script calls [evaluate_classification] for the
    classification models only and stores, under the name of a regression
    model, whatever [results] still holds.  When the loop finishes, each
    regression model that was loaded is recorded with the results of the
    last classification model loaded (the second if its file exists, the
    first otherwise); and when regression models are the only ones on
    disk the loop stops on the unbound name [results]. *)
Theorem regression_models_get_classification_results
    (models : dict Model) :
  load_models Model path_exists pickle_load = Ok models ->
  (forall last ev,
      evaluate_all Model Results evaluate_classification models (None, [])
      = Finished (last, ev) ->
      forall name,
        name = "regression_top1" \/ name = "regression_top2" ->
        In name (keys models) ->
        get ev name <> None
        /\ get ev name
           = (if path_exists "classification_model_top2.pkl"
              then get ev "classification_top2"
              else get ev "classification_top1"))
  /\ (path_exists "classification_model_top1.pkl" = false ->
      path_exists "classification_model_top2.pkl" = false ->
      path_exists "regression_model_top1.pkl" = true
      \/ path_exists "regression_model_top2.pkl" = true ->
      evaluate_all Model Results evaluate_classification models (None, [])
      = Aborted (NameError "results")).
Proof.
  unfold load_models, load_one.
  destruct (path_exists "classification_model_top1.pkl") eqn:E1;
    [destruct (pickle_load "classification_model_top1.pkl") as [m1|];
     [|discriminate]|];
    cbn [bind];
    (destruct (path_exists "classification_model_top2.pkl") eqn:E2;
     [destruct (pickle_load "classification_model_top2.pkl") as [m2|];
      [|discriminate]|]);
    cbn [bind];
    (destruct (path_exists "regression_model_top1.pkl") eqn:E3;
     [destruct (pickle_load "regression_model_top1.pkl") as [m3|];
      [|discriminate]|]);
    cbn [bind];
    (destruct (path_exists "regression_model_top2.pkl") eqn:E4;
     [destruct (pickle_load "regression_model_top2.pkl") as [m4|];
      [|discriminate]|]);
    cbn [bind];
    intro H; inversion H; subst models; clear H;
    cbn [set String.eqb Ascii.eqb Bool.eqb].
  all: split.
  all: try (intros H1 H2 H3; try discriminate H1; try discriminate H2;
            try (destruct H3; discriminate); reflexivity).
  all: intros last ev Hrun name Hname Hin.
  all: cbn in Hrun.
  all: repeat match type of Hrun with
              | context [evaluate_classification ?m ?n] =>
                  destruct (evaluate_classification m n); cbn in Hrun
              end.
  all: try discriminate Hrun.
  all: inversion Hrun; subst; clear Hrun.
  all: destruct Hname as [-> | ->]; cbn in Hin |- *.
  all: first [ split; [discriminate | reflexivity]
             | exfalso; intuition discriminate ].
Qed.

End Loop.

Lemma regression_models_get_classification_results_witness :
  exists ev,
    evaluate_all nat string (fun m name => Ok ("results of " ++ name))
      [("classification_top1", 29%nat); ("regression_top1", 25%nat)]
      (None, [])
    = Finished (Some "results of classification_top1", ev)
    /\ get ev "regression_top1" = Some "results of classification_top1".
Proof.
  eexists. split; [reflexivity|].
  destruct (regression_models_get_classification_results nat string
              (fun f => orb (String.eqb f "classification_model_top1.pkl")
                            (String.eqb f "regression_model_top1.pkl"))
              (fun f => Ok (String.length f))
              (fun m name => Ok ("results of " ++ name))
              [("classification_top1", 29%nat); ("regression_top1", 25%nat)]
              eq_refl) as [Hstale _].
  destruct (Hstale _ _ eq_refl "regression_top1") as [_ Heq].
  - now left.
  - cbn. tauto.
  - exact Heq.
Defined.

End EvaluationScriptFacts.

(** * Further properties of the population stability index *)

Module PsiMore.

Import Np Drift NpFacts PsiFacts Samples.

Section Interpolation.

Context {percentile_at : list Q -> Q -> Q}.

(** The test a value passes to be counted in the bin [[lo, hi)], closed
    on the right when it is the last one. *)
Lemma bin_counts_cons (xs : list Q) (lo hi : Q) (rest : list Q) :
  bin_counts xs (lo :: hi :: rest)
  = List.length
      (filter (fun x => Qle_bool lo x
                        && match rest with
                           | [] => Qle_bool x hi
                           | _ => Qltb x hi
                           end) xs)
    :: bin_counts xs (hi :: rest).
Proof. reflexivity. Qed.

Lemma filter_length_perm {A : Type} (f : A -> bool) (xs ys : list A) :
  Permutation xs ys ->
  List.length (filter f xs) = List.length (filter f ys).
Proof.
  intro H. induction H as [|x xs ys _ IH|x y xs|xs ys zs _ IH1 _ IH2].
  - reflexivity.
  - cbn [filter]. destruct (f x); cbn [List.length]; now rewrite IH.
  - cbn [filter]. destruct (f x), (f y); reflexivity.
  - now rewrite IH1.
Qed.

Lemma bin_counts_perm (xs ys edges : list Q) :
  Permutation xs ys -> bin_counts xs edges = bin_counts ys edges.
Proof.
  intro H. induction edges as [|lo edges IH]; [reflexivity|].
  destruct edges as [|hi rest]; [reflexivity|].
  rewrite !bin_counts_cons, IH. f_equal. now apply filter_length_perm.
Qed.

(** X8: the order of the rows of the current sample does not matter:
    [calculate_psi] gives the same value for a current sample and for any
    rearrangement of it. *)
Theorem psi_ignores_the_order_of_the_current_sample
    (reference : Series) (xs ys : list Q) (bins : Z) :
  Permutation xs ys ->
  calculate_psi percentile_at reference (NumSeries xs) bins
  = calculate_psi percentile_at reference (NumSeries ys) bins.
Proof.
  intro H. unfold calculate_psi, calculate_psi_try.
  destruct (breakpoints_of percentile_at reference bins) as [bps|e];
      [|reflexivity].
  cbn [bind]. destruct (List.length bps <? 3)%nat; [reflexivity|].
  destruct (histogram reference bps) as [ref_counts|e]; [|reflexivity].
  cbn [bind]. unfold histogram.
  destruct (List.length bps <? 2)%nat; [reflexivity|].
  destruct (negb (increasing bps)); [reflexivity|]. cbn [bind series_len].
  now rewrite (bin_counts_perm xs ys bps H), (Permutation_length H).
Qed.

Lemma last_cons (rest : list Q) (a d : Q) :
  last (a :: rest) d = last rest a.
Proof.
  revert a d. induction rest as [|r rest IH]; intros a d; [reflexivity|].
  change (last (a :: r :: rest) d) with (last (r :: rest) d).
  now rewrite (IH r d), (IH r a).
Qed.

(** In an increasing list every element lies between the first and the
    last. *)
Lemma increasing_bounds (lo : Q) (edges : list Q) (b : Q) :
  increasing (lo :: edges) = true ->
  In b (lo :: edges) ->
  (lo <= b)%Q /\ (b <= last edges lo)%Q.
Proof.
  revert lo b. induction edges as [|hi rest IH]; intros lo b Hinc Hin.
  - destruct Hin as [<- | []]. cbn. split; apply Qle_refl.
  - rewrite increasing_cons in Hinc. apply andb_prop in Hinc as [Hle Hinc].
    apply Qle_bool_iff in Hle.
    rewrite (last_cons rest hi lo). destruct Hin as [<- | Hin].
    + split; [apply Qle_refl|].
      apply Qle_trans with hi; [exact Hle|].
      apply (IH hi hi Hinc). now left.
    + destruct (IH hi b Hinc Hin) as [H1 H2]. split; [|exact H2].
      now apply Qle_trans with hi.
Qed.

(** No value outside the edges is counted. *)
Lemma bin_counts_outside (xs : list Q) (lo : Q) (edges : list Q) :
  increasing (lo :: edges) = true ->
  Forall (fun x => (x < lo)%Q \/ (last edges lo < x)%Q) xs ->
  bin_counts xs (lo :: edges) = bin_counts [] (lo :: edges).
Proof.
  intros Hinc Hout.
  assert (Hall : forall a b, In a (lo :: edges) -> In b (lo :: edges) ->
                 forall x, In x xs -> ~ ((a <= x)%Q /\ (x <= b)%Q)).
  { intros a b Ha Hb x Hx [H1 H2].
    destruct (increasing_bounds lo edges a Hinc Ha) as [Hlo _].
    destruct (increasing_bounds lo edges b Hinc Hb) as [_ Hhi].
    rewrite Forall_forall in Hout. destruct (Hout x Hx) as [H | H].
    - apply (Qlt_not_le _ _ H). now apply Qle_trans with a.
    - apply (Qlt_not_le _ _ H). now apply Qle_trans with b. }
  clear Hinc Hout. remember (lo :: edges) as es eqn:Hes. clear Hes lo edges.
  induction es as [|a es IH]; [reflexivity|].
  destruct es as [|b rest]; [reflexivity|].
  rewrite !bin_counts_cons. f_equal.
  - cbn [filter List.length].
    assert (Hnone : forall x, In x xs ->
              Qle_bool a x && match rest with
                              | [] => Qle_bool x b
                              | _ => Qltb x b
                              end = false).
    { intros x Hx. destruct (Qle_bool a x) eqn:E1; [|reflexivity].
      cbn [andb]. apply Qle_bool_iff in E1.
      assert (Hb : ~ (x <= b)%Q).
      { intro H2. apply (Hall a b (or_introl eq_refl)
                           (or_intror (or_introl eq_refl)) x Hx). tauto. }
      destruct rest.
      - destruct (Qle_bool x b) eqn:E2; [|reflexivity].
        apply Qle_bool_iff in E2. contradiction.
      - destruct (Qltb x b) eqn:E2; [|reflexivity].
        apply Qltb_lt in E2. exfalso. apply Hb. now apply Qlt_le_weak. }
    clear IH Hall. induction xs as [|x xs IHx]; [reflexivity|].
    cbn [filter]. rewrite (Hnone x (or_introl eq_refl)).
    apply IHx. intros y Hy. apply Hnone. now right.
  - apply IH. intros a' b' Ha' Hb'. apply Hall; now right.
Qed.

(** X9: values of the current sample outside the range of the reference
    breakpoints fall in no bin.  A current sample that lies entirely
    outside this range is scored by its size alone: two such samples of
    the same size get the same index, whatever their values. *)
Theorem psi_does_not_see_values_outside_the_reference_range
    (reference : Series) (bins : Z) (lo : Q) (edges xs ys : list Q) :
  breakpoints_of percentile_at reference bins = Ok (lo :: edges) ->
  Forall (fun x => (x < lo)%Q \/ (last edges lo < x)%Q) xs ->
  Forall (fun y => (y < lo)%Q \/ (last edges lo < y)%Q) ys ->
  List.length xs = List.length ys ->
  calculate_psi percentile_at reference (NumSeries xs) bins
  = calculate_psi percentile_at reference (NumSeries ys) bins.
Proof.
  intros Hbp Hxs Hys Hlen. unfold calculate_psi, calculate_psi_try.
  rewrite Hbp. cbn [bind].
  destruct (List.length (lo :: edges) <? 3)%nat; [reflexivity|].
  destruct (histogram reference (lo :: edges)) as [ref_counts|e];
    [|reflexivity].
  cbn [bind]. unfold histogram.
  destruct (List.length (lo :: edges) <? 2)%nat; [reflexivity|].
  destruct (increasing (lo :: edges)) eqn:Hinc; [|reflexivity].
  cbn [negb bind series_len].
  now rewrite (bin_counts_outside xs lo edges Hinc Hxs),
    (bin_counts_outside ys lo edges Hinc Hys), Hlen.
Qed.

Lemma proportions_eq (counts counts' : list nat) (n : nat) (bins : Z) :
  (0 < bins)%Z ->
  List.length counts = List.length counts' ->
  (Forall2 Qeq (proportions counts n bins) (proportions counts' n bins)
   <-> counts = counts').
Proof.
  intros Hbins. revert counts'.
  assert (Hden : ~ (/ (inject_Z (Z.of_nat n) + epsilon * inject_Z bins) ==
      0)%Q).
  { pose proof (proportions_pos [O] n bins Hbins) as H.
    inversion H as [|? ? Hpos _]; subst. intro Hz.
    unfold Qdiv in Hpos. rewrite Hz, Qmult_0_r in Hpos.
    now apply Qlt_irrefl in Hpos. }
  induction counts as [|c counts IH]; intros counts' Hlen.
  - destruct counts'; [|discriminate]. split; [reflexivity|constructor].
  - destruct counts' as [|c' counts']; [discriminate|].
    injection Hlen as Hlen. cbn [proportions map]. split.
    + intro H. inversion H as [|? ? ? ? Heq Hall]; subst.
      apply (IH counts' Hlen) in Hall. subst counts'. f_equal.
      unfold Qdiv in Heq. apply Qmult_inj_r in Heq; [|exact Hden].
      apply Qplus_inj_r in Heq.
      apply (proj1 (inject_Z_injective _ _)) in Heq. lia.
    + intro H. inversion H; subst. constructor; [reflexivity|].
      now apply IH.
Qed.

Lemma bin_counts_length (xs edges : list Q) :
  List.length (bin_counts xs edges) = (List.length edges - 1)%nat.
Proof.
  induction edges as [|lo edges IH]; [reflexivity|].
  destruct edges as [|hi rest]; [reflexivity|].
  rewrite bin_counts_cons. cbn [List.length] in *. rewrite IH. lia.
Qed.

(** X10: past the degenerate case, and for a current sample as large as
    the reference, the index is 0.0 exactly when the two histograms over
    the reference breakpoints are equal, and strictly positive as soon as
    they differ in one bin. *)
Theorem psi_is_zero_exactly_for_equal_histograms
    (rs xs : list Q) (bins : Z) (bps : list Q) :
  breakpoints_of percentile_at (NumSeries rs) bins = Ok bps ->
  (3 <= List.length bps)%nat ->
  List.length xs = List.length rs ->
  (calculate_psi percentile_at (NumSeries rs) (NumSeries xs) bins = 0%R
   <-> bin_counts xs bps = bin_counts rs bps)
  /\ (bin_counts xs bps <> bin_counts rs bps ->
      (0 < calculate_psi percentile_at (NumSeries rs) (NumSeries xs) bins)%R).
Proof.
  intros Hbp Hlen Hsize.
  destruct (calculate_psi_try_numeric (NumSeries rs) xs bins bps Hbp Hlen)
    as (rs' & Hrs & Htry).
  inversion Hrs; subst rs'. clear Hrs.
  assert (Hbins : (0 < bins)%Z)
    by (pose proof (breakpoints_of_bins _ _ _ Hbp Hlen); lia).
  assert (Hzero : calculate_psi percentile_at (NumSeries rs) (NumSeries xs) bins
      = 0%R
                  <-> bin_counts xs bps = bin_counts rs bps).
  { unfold calculate_psi. rewrite Htry, Hsize.
    rewrite psi_sum_zero.
    - rewrite proportions_eq; [split; congruence|exact Hbins|].
      now rewrite !bin_counts_length.
    - now apply proportions_pos.
    - now apply proportions_pos.
    - unfold proportions. now rewrite !length_map, !bin_counts_length. }
  split; [exact Hzero|]. intro Hdiff.
  assert (Hge : (0 <= calculate_psi percentile_at (NumSeries rs) (NumSeries xs)
      bins)%R).
  { unfold calculate_psi. rewrite Htry.
    apply psi_sum_nonneg; now apply proportions_pos. }
  destruct (Req_dec (calculate_psi percentile_at (NumSeries rs) (NumSeries xs)
      bins) 0)
    as [H0 | H0]; [apply Hzero in H0; contradiction|]. lra.
Qed.

End Interpolation.

Lemma psi_ignores_the_order_of_the_current_sample_witness :
  calculate_psi linear_percentile_at
    (NumSeries [3; 1; 2; 2; 7]%Q) (NumSeries [5; 1; 2]%Q) 4
  = calculate_psi linear_percentile_at
      (NumSeries [3; 1; 2; 2; 7]%Q) (NumSeries [2; 5; 1]%Q) 4.
Proof.
  apply (@psi_ignores_the_order_of_the_current_sample linear_percentile_at).
  apply Permutation_sym, (Permutation_cons_app [5; 1]%Q []).
  rewrite app_nil_r. apply Permutation_refl.
Defined.

Lemma psi_does_not_see_values_outside_the_reference_range_witness :
  calculate_psi linear_percentile_at
    (NumSeries [3; 1; 2; 2; 7]%Q) (NumSeries [8; 9; 100]%Q) 4
  = calculate_psi linear_percentile_at
      (NumSeries [3; 1; 2; 2; 7]%Q) (NumSeries [0; -5; 12]%Q) 4.
Proof.
  apply (psi_does_not_see_values_outside_the_reference_range
           (percentile_at := linear_percentile_at)
           (NumSeries [3; 1; 2; 2; 7]%Q) 4 (400 # 400)%Q
           [800 # 400; 1200 # 400; 2800 # 400]%Q).
  - vm_compute. reflexivity.
  - repeat constructor; cbn; (right; reflexivity) || (left; reflexivity).
  - repeat constructor; cbn; (right; reflexivity) || (left; reflexivity).
  - reflexivity.
Defined.

Lemma psi_is_zero_exactly_for_equal_histograms_witness :
  calculate_psi linear_percentile_at (NumSeries [3; 1; 2; 2; 7]%Q)
                (NumSeries [1; 5 # 2; 2; 5; 3]%Q) 4 = 0%R.
Proof.
  apply (psi_is_zero_exactly_for_equal_histograms
           (percentile_at := linear_percentile_at)
           [3; 1; 2; 2; 7]%Q [1; 5 # 2; 2; 5; 3]%Q 4
           [400 # 400; 800 # 400; 1200 # 400; 2800 # 400]%Q).
  - vm_compute. reflexivity.
  - cbn. lia.
  - reflexivity.
  - vm_compute. reflexivity.
Defined.

End PsiMore.

(** * Further properties of the drift detector *)

Module FeatureDriftMore.

Import Np Drift DictFacts FeatureLoop FeatureDriftFacts PsiFacts Samples.
Import FeatureDriftWitness.
Open Scope string_scope.

Section Interpolation.

Context {percentile_at : list Q -> Q -> Q}.

(** What the loop added when it ran to its end, whatever the reference
    holds. *)
Lemma feature_loop_inv (reference current : DataFrame) (threshold : Q)
    (cols : list string) :
  forall (results : dict Verdict) (drifted : list string)
         (results' : dict Verdict) (drifted' : list string),
    NoDup cols ->
    (forall col, In col cols -> get results col = None) ->
    foldM (feature_step percentile_at reference current threshold) cols
        (results, drifted)
    = Ok (results', drifted') ->
    exists new,
      results' = (results ++ new)%list
      /\ drifted' = (drifted ++ map fst (filter (significant threshold)
          new))%list
      /\ keys new = filter (numeric_in current) cols
      /\ Forall (fun kv =>
                   exists rs cs,
                     get reference (fst kv) = Some rs
                     /\ get current (fst kv) = Some cs
                     /\ psi (snd kv) = calculate_psi percentile_at rs cs
                         default_bins
                     /\ status (snd kv) = psi_status (psi (snd kv)) threshold)
                new.
Proof.
  induction cols as [|col cols IH];
    intros results drifted results' drifted' Hnd Hfresh Hrun.
  - cbn in Hrun. inversion Hrun; subst. exists [].
    rewrite !app_nil_r. repeat split. constructor.
  - inversion Hnd as [|? ? Hnotin Hnd']; subst. cbn [foldM] in Hrun.
    destruct (feature_step percentile_at reference current threshold (results,
        drifted) col)
      as [[results1 drifted1]|e] eqn:Hstep; [|discriminate Hrun].
    cbn [bind] in Hrun. unfold feature_step, getitem in Hstep.
    cbn [filter]. unfold numeric_in at 1.
    destruct (get current col) as [cs|] eqn:Hcs; [|discriminate Hstep].
    cbn [bind] in Hstep.
    destruct (is_numeric_dtype cs) eqn:Hcn; cbn [negb] in Hstep.
    + destruct (get reference col) as [rs|] eqn:Hrs; [|discriminate Hstep].
      cbn [bind] in Hstep.
      destruct (series_mean rs) as [rm|]; [|discriminate Hstep].
      destruct (series_mean cs) as [cm|]; [|discriminate Hstep].
      destruct (series_std rs) as [rsd|]; [|discriminate Hstep].
      destruct (series_std cs) as [csd|]; [|discriminate Hstep].
      cbn [bind fst snd] in Hstep. inversion Hstep; subst results1 drifted1.
      clear Hstep.
      rewrite (set_fresh _ _ _ (Hfresh col (or_introl eq_refl))) in Hrun.
      apply IH in Hrun; [|exact Hnd'|].
      * destruct Hrun as (new & -> & -> & Hkeys & Hall).
        eexists ((col, _) :: new). split; [now rewrite <- app_assoc|].
        split; [|split].
        -- cbn [filter]. unfold significant at 2. cbn [snd psi].
           destruct (Rgeb (calculate_psi percentile_at rs cs default_bins) (Q2R
               threshold));
             cbn [map fst]; [now rewrite <- app_assoc | reflexivity].
        -- unfold keys in *. cbn [map fst]. now rewrite Hkeys.
        -- constructor; [|exact Hall]. cbn [fst snd]. now exists rs, cs.
      * intros c Hc. apply not_in_get_none. rewrite keys_app. cbn.
        intros Hin. apply in_app_or in Hin as [Hin | [Heq | []]].
        -- apply (get_none_not_in results c); [apply Hfresh; now right|exact
            Hin].
        -- subst. contradiction.
    + inversion Hstep; subst results1 drifted1. clear Hstep.
      apply IH in Hrun; [exact Hrun|exact Hnd'|].
      intros c Hc. apply Hfresh. now right.
Qed.

Lemma feature_drift_of_inv (reference current : DataFrame) (threshold : Q)
    (fd : FeatureDrift) :
  NoDup (columns current) ->
  feature_drift_of percentile_at reference current threshold = Ok fd ->
  summary fd
  = summarize (feature_drift fd)
      (map fst (filter (significant threshold) (feature_drift fd)))
  /\ keys (feature_drift fd) = analysed_columns reference current
  /\ Forall (fun kv =>
               exists rs cs,
                 get reference (fst kv) = Some rs
                 /\ get current (fst kv) = Some cs
                 /\ psi (snd kv) = calculate_psi percentile_at rs cs
                     default_bins
                 /\ status (snd kv) = psi_status (psi (snd kv)) threshold)
            (feature_drift fd).
Proof.
  intros Hnd Hfd. unfold feature_drift_of in Hfd.
  destruct (foldM (feature_step percentile_at reference current threshold)
              (common_cols reference current) ([], []))
    as [[results drifted]|e] eqn:Hrun; [|discriminate Hfd].
  cbn [bind fst snd] in Hfd. inversion Hfd; subst fd; clear Hfd.
  apply feature_loop_inv in Hrun.
  - destruct Hrun as (new & -> & -> & Hkeys & Hall).
    cbn [app feature_drift summary]. repeat split; assumption.
  - unfold common_cols. now apply NoDup_filter.
  - reflexivity.
Qed.

Lemma detect_feature_drift_inv (read_csv : string -> result DataFrame)
    (self self' : DriftDetector) (current : DataFrame) (threshold : Q)
    (fd : FeatureDrift) :
  detect_feature_drift percentile_at read_csv self current threshold = Ok (fd,
      self') ->
  exists reference,
    with_reference read_csv self = Ok (self', reference)
    /\ feature_drift_of percentile_at reference current threshold = Ok fd.
Proof.
  unfold detect_feature_drift.
  destruct (with_reference read_csv self) as [[s reference]|e];
    [|discriminate].
  cbn [bind fst snd].
  destruct (feature_drift_of percentile_at reference current threshold) as
      [fd'|e] eqn:Hfd;
    [|discriminate].
  cbn [bind]. intro H. inversion H; subst. now exists reference.
Qed.

Lemma status_is_significant (value : R) (threshold : Q) :
  String.eqb (psi_status value threshold) "SIGNIFICANT_DRIFT"
  = Rgeb value (Q2R threshold).
Proof.
  unfold psi_status. destruct (Rgeb value (Q2R threshold)); [reflexivity|].
  now destruct (Rgeb value (Q2R (1 # 10))).
Qed.

Lemma filter_significant_status (threshold : Q) (results : dict Verdict) :
  Forall (fun kv => status (snd kv) = psi_status (psi (snd kv)) threshold)
         results ->
  filter (significant threshold) results
  = filter (fun kv => String.eqb (status (snd kv)) "SIGNIFICANT_DRIFT")
           results.
Proof.
  intro H. apply filter_ext_in. intros kv Hin.
  rewrite Forall_forall in H. rewrite (H kv Hin), status_is_significant.
  reflexivity.
Qed.

Lemma filter_length_le {A : Type} (f : A -> bool) (l : list A) :
  (List.length (filter f l) <= List.length l)%nat.
Proof.
  induction l as [|a l IH]; [apply Nat.le_refl|]. cbn [filter].
  destruct (f a); cbn [List.length]; lia.
Qed.

Lemma percentage_bounds (d t : nat) :
  (d <= t)%nat -> t <> O ->
  (0 <= inject_Z (Z.of_nat d) / inject_Z (Z.of_nat t) * 100)%Q
  /\ (inject_Z (Z.of_nat d) / inject_Z (Z.of_nat t) * 100 <= 100)%Q.
Proof.
  intros Hle Hne.
  assert (Ht : (0 < inject_Z (Z.of_nat t))%Q).
  { change 0%Q with (inject_Z 0). rewrite <- Zlt_Qlt. lia. }
  assert (Hd : (0 <= inject_Z (Z.of_nat d))%Q).
  { change 0%Q with (inject_Z 0). rewrite <- Zle_Qle. lia. }
  assert (Hdt : (inject_Z (Z.of_nat d) <= inject_Z (Z.of_nat t))%Q).
  { rewrite <- Zle_Qle. lia. }
  assert (H0 : (0 <= inject_Z (Z.of_nat d) / inject_Z (Z.of_nat t))%Q).
  { apply Qle_shift_div_l; [exact Ht|]. now rewrite Qmult_0_l. }
  assert (H1 : (inject_Z (Z.of_nat d) / inject_Z (Z.of_nat t) <= 1)%Q).
  { apply Qle_shift_div_r; [exact Ht|]. now rewrite Qmult_1_l. }
  split.
  - apply Qmult_le_0_compat; [exact H0|discriminate].
  - rewrite <- (Qmult_1_l 100) at 2. apply Qmult_le_compat_r;
      [exact H1|discriminate].
Qed.

(** X11: in every report [detect_feature_drift] returns, whatever the
    threshold, [drifted_features] is at most [total_features],
    [drift_percentage] lies between 0 and 100, the drifted feature names
    are the names of the verdicts with status SIGNIFICANT_DRIFT, in the
    order of the report, and [overall_status] is DRIFT_DETECTED exactly
    when some verdict has that status. *)
Theorem feature_summary_is_consistent
    (read_csv : string -> result DataFrame) (self self' : DriftDetector)
    (current : DataFrame) (threshold : Q) (fd : FeatureDrift) :
  NoDup (columns current) ->
  detect_feature_drift percentile_at read_csv self current threshold = Ok (fd,
      self') ->
  (drifted_features (summary fd) <= total_features (summary fd))%nat
  /\ (0 <= drift_percentage (summary fd))%Q
  /\ (drift_percentage (summary fd) <= 100)%Q
  /\ total_features (summary fd) = List.length (feature_drift fd)
  /\ drifted_features (summary fd)
     = List.length (drifted_feature_names (summary fd))
  /\ drifted_feature_names (summary fd)
     = map fst (filter (fun kv => String.eqb (status (snd kv))
                                             "SIGNIFICANT_DRIFT")
                       (feature_drift fd))
  /\ (overall_status (summary fd) = "DRIFT_DETECTED"
      <-> exists col v,
           In (col, v) (feature_drift fd)
           /\ status v = "SIGNIFICANT_DRIFT")
  /\ (overall_status (summary fd) = "DRIFT_DETECTED"
      \/ overall_status (summary fd) = "NO_DRIFT").
Proof.
  intros Hnd Hrun.
  destruct (detect_feature_drift_inv _ _ _ _ _ _ Hrun) as (reference & _ & Hfd).
  destruct (feature_drift_of_inv _ _ _ _ Hnd Hfd) as (Hsum & _ & Hall).
  assert (Hst : Forall (fun kv => status (snd kv)
                                  = psi_status (psi (snd kv)) threshold)
                       (feature_drift fd)).
  { eapply Forall_impl; [|exact Hall]. intros kv (rs & cs & _ & _ & _ & H).
    exact H. }
  rewrite (filter_significant_status threshold _ Hst) in Hsum.
  rewrite Hsum. set (results := feature_drift fd) in *.
  set (sig := filter (fun kv => String.eqb (status (snd kv))
      "SIGNIFICANT_DRIFT")
                     results).
  cbn [summarize total_features drifted_features drifted_feature_names
         drift_percentage overall_status].
  assert (Hle : (List.length (map fst sig) <= len results)%nat).
  { rewrite length_map. apply filter_length_le. }
  split; [exact Hle|]. split; [|split; [|split; [reflexivity|split;
    [reflexivity|split; [reflexivity|split]]]]].
  - destruct results as [|kv results']; [apply Qle_refl|].
    apply percentage_bounds; [exact Hle|discriminate].
  - destruct results as [|kv results']; [discriminate|].
    apply percentage_bounds; [exact Hle|discriminate].
  - split.
    + destruct sig as [|[col v] rest] eqn:Hsig; [discriminate|]. intros _.
      assert (Hin : In (col, v) sig) by (rewrite Hsig; now left).
      apply filter_In in Hin as [Hin Hs]. exists col, v.
      split; [exact Hin|]. now apply String.eqb_eq in Hs.
    + intros (col & v & Hin & Hs).
      assert (Hin' : In (col, v) sig).
      { apply filter_In. split; [exact Hin|]. cbn [snd]. rewrite Hs.
        reflexivity. }
      destruct sig; [destruct Hin'|reflexivity].
  - destruct (map fst sig); [now right|now left].
Qed.

End Interpolation.

Lemma feature_summary_is_consistent_witness :
  exists fd,
    detect_feature_drift linear_percentile_at read_csv_sample fresh_detector
      current_frame (5 # 100) = Ok (fd, loaded_detector reference_frame)
    /\ (drifted_features (summary fd) <= total_features (summary fd))%nat
    /\ (drift_percentage (summary fd) <= 100)%Q.
Proof.
  destruct (feature_drift_of_ok (percentile_at := linear_percentile_at)
              reference_frame current_frame (5 # 100)
              current_frame_columns_are_distinct
              reference_is_numeric_for_current_frame)
    as (results & Hfd & _).
  assert (Hrun : detect_feature_drift linear_percentile_at read_csv_sample
                   fresh_detector current_frame (5 # 100)
                 = Ok ({| feature_drift := results;
                          summary := summarize results
                            (map fst (filter (significant (5 # 100)) results))
                                |},
                       loaded_detector reference_frame)).
  { unfold detect_feature_drift. cbn [with_reference fresh_detector
      reference_data load_reference_data read_csv_sample bind fst snd
      reference_data_path]. now rewrite Hfd. }
  eexists. split; [exact Hrun|].
  destruct (feature_summary_is_consistent _ _ _ current_frame _ _
              current_frame_columns_are_distinct Hrun)
    as (H1 & _ & H3 & _).
  split; assumption.
Defined.

End FeatureDriftMore.

Module DetectorState.

Import Np Drift DictFacts FeatureLoop FeatureDriftFacts PsiFacts Samples.
Import FeatureDriftWitness FeatureDriftMore.
Open Scope string_scope.

Section Interpolation.

Context {percentile_at : list Q -> Q -> Q}.

Lemma calculate_psi_nonneg (reference current : Series) (bins : Z) :
  (0 <= calculate_psi percentile_at reference current bins)%R.
Proof.
  unfold calculate_psi.
  destruct (calculate_psi_try percentile_at reference current bins) as [value|e]
      eqn:Htry;
    [|apply Rle_refl].
  unfold calculate_psi_try in Htry.
  destruct (breakpoints_of percentile_at reference bins) as [bps|e] eqn:Hbp;
      [|discriminate].
  cbn [bind] in Htry.
  destruct (List.length bps <? 3)%nat eqn:Hlen.
  { inversion Htry. apply Rle_refl. }
  apply Nat.ltb_ge in Hlen.
  pose proof (breakpoints_of_bins _ _ _ Hbp Hlen) as Hbins.
  destruct (histogram reference bps) as [ref_counts|e]; [|discriminate].
  cbn [bind] in Htry.
  destruct (histogram current bps) as [curr_counts|e]; [|discriminate].
  cbn [bind] in Htry. inversion Htry.
  apply psi_sum_nonneg; apply proportions_pos; lia.
Qed.

Lemma Rgeb_false (x y : R) : Rgeb x y = false <-> (x < y)%R.
Proof.
  unfold Rgeb. destruct (Rle_dec y x); split; intro H;
    try reflexivity; try discriminate; lra.
Qed.

(** X12: every verdict of a returned report has a non-negative index and
    the tier of that index: SIGNIFICANT_DRIFT from the threshold on,
    MODERATE_DRIFT from 0.1 up to the threshold, NO_DRIFT below both.  A
    threshold of 0.1 or less leaves no room for MODERATE_DRIFT, and a
    threshold of 0 or less makes every analysed column
    SIGNIFICANT_DRIFT. *)
Theorem verdict_tier_follows_the_index
    (read_csv : string -> result DataFrame) (self self' : DriftDetector)
    (current : DataFrame) (threshold : Q) (fd : FeatureDrift)
    (col : string) (v : Verdict) :
  NoDup (columns current) ->
  detect_feature_drift percentile_at read_csv self current threshold = Ok (fd,
      self') ->
  In (col, v) (feature_drift fd) ->
  (0 <= psi v)%R
  /\ (status v = "SIGNIFICANT_DRIFT" <-> (Q2R threshold <= psi v)%R)
  /\ (status v = "MODERATE_DRIFT"
      <-> (psi v < Q2R threshold)%R /\ (Q2R (1 # 10) <= psi v)%R)
  /\ (status v = "NO_DRIFT"
      <-> (psi v < Q2R threshold)%R /\ (psi v < Q2R (1 # 10))%R)
  /\ ((threshold <= 1 # 10)%Q -> status v <> "MODERATE_DRIFT")
  /\ ((threshold <= 0)%Q -> status v = "SIGNIFICANT_DRIFT").
Proof.
  intros Hnd Hrun Hin.
  destruct (detect_feature_drift_inv _ _ _ _ _ _ Hrun) as (reference & _ & Hfd).
  destruct (feature_drift_of_inv _ _ _ _ Hnd Hfd) as (_ & _ & Hall).
  rewrite Forall_forall in Hall.
  destruct (Hall _ Hin) as (rs & cs & _ & _ & Hpsi & Hst). cbn [snd] in *.
  assert (Hpos : (0 <= psi v)%R) by (rewrite Hpsi; apply calculate_psi_nonneg).
  rewrite Hst. unfold psi_status.
  destruct (Rgeb (psi v) (Q2R threshold)) eqn:Es;
    [apply Rgeb_spec in Es | apply Rgeb_false in Es].
  - split; [exact Hpos|]. repeat split; try discriminate; try tauto;
      try (intros [H _]; lra); try (intros; lra).
  - destruct (Rgeb (psi v) (Q2R (1 # 10))) eqn:Em;
      [apply Rgeb_spec in Em | apply Rgeb_false in Em].
    + split; [exact Hpos|]. repeat split; try discriminate; try tauto;
        try (intros; lra); try (intros [_ H]; lra).
      * intros Hle _. apply Qle_Rle in Hle. lra.
      * intros Hle. apply Qle_Rle in Hle.
        rewrite RMicromega.Q2R_0 in Hle. lra.
    + split; [exact Hpos|]. repeat split; try discriminate; try tauto;
        try (intros; lra); try (intros [_ H]; lra).
      intros Hle. apply Qle_Rle in Hle.
      rewrite RMicromega.Q2R_0 in Hle. lra.
Qed.

Lemma with_reference_some (read_csv : string -> result DataFrame)
    (self self' : DriftDetector) (reference : DataFrame) :
  with_reference read_csv self = Ok (self', reference) ->
  reference_data self' = Some reference
  /\ reference_data_path self' = reference_data_path self
  /\ (reference_data self <> None -> self' = self).
Proof.
  unfold with_reference, load_reference_data.
  destruct (reference_data self) as [df|] eqn:Hself.
  - intro H. inversion H; subst. split; [exact Hself|]. split; reflexivity.
  - destruct (read_csv (reference_data_path self)) as [df|e]; [|discriminate].
    cbn. intro H. inversion H; subst. split; [reflexivity|].
    split; [reflexivity|]. intro Hne. now elim Hne.
Qed.

Lemma with_reference_any_reader (read_csv read_csv' : string -> result
    DataFrame)
    (self : DriftDetector) :
  reference_data self <> None ->
  with_reference read_csv self = with_reference read_csv' self.
Proof.
  unfold with_reference. destruct (reference_data self); [reflexivity|].
  intro H. now elim H.
Qed.

(** X13: a report of [detect_feature_drift] never holds a verdict for the
    label, for a column the reference lacks, or for a column that is not
    numeric in the current frame, and holds each analysed column once. *)
Theorem verdicts_are_for_shared_numeric_features
    (read_csv : string -> result DataFrame) (self self' : DriftDetector)
    (current : DataFrame) (threshold : Q) (fd : FeatureDrift) :
  NoDup (columns current) ->
  detect_feature_drift percentile_at read_csv self current threshold = Ok (fd,
      self') ->
  get (feature_drift fd) target_col = None
  /\ NoDup (keys (feature_drift fd))
  /\ exists reference,
       reference_data self' = Some reference
       /\ forall col,
            In col (keys (feature_drift fd)) ->
            col <> target_col
            /\ has_column reference col = true
            /\ has_column current col = true
            /\ numeric_in current col = true.
Proof.
  intros Hnd Hrun.
  destruct (detect_feature_drift_inv _ _ _ _ _ _ Hrun)
    as (reference & Hwith & Hfd).
  destruct (feature_drift_of_inv _ _ _ _ Hnd Hfd) as (_ & Hkeys & _).
  assert (Hcols : forall col,
             In col (keys (feature_drift fd)) ->
             col <> target_col /\ has_column reference col = true
             /\ has_column current col = true
             /\ numeric_in current col = true).
  { intros col Hin. rewrite Hkeys in Hin.
    apply analysed_columns_spec in Hin as [Hin Hnum].
    apply common_cols_spec in Hin as (Hin & Href & Hne).
    repeat split; try assumption. now apply in_columns_has_column. }
  split; [|split].
  - apply not_in_get_none. intro Hin. apply Hcols in Hin as [Hne _].
    now apply Hne.
  - rewrite Hkeys. unfold analysed_columns, common_cols.
    now repeat apply NoDup_filter.
  - exists reference. split; [|exact Hcols].
    now apply (with_reference_some _ _ _ _ Hwith).
Qed.

(** X14: the reference file is read at most once.  The detector that a
    successful call returns holds the reference frame (it is the detector
    itself when the frame was already loaded), and on that detector the
    three detection methods answer the same whatever the file reader
    would return. *)
Theorem reference_is_read_at_most_once
    (read_csv : string -> result DataFrame) (self self' : DriftDetector)
    (current : DataFrame) (threshold : Q) (fd : FeatureDrift) :
  detect_feature_drift percentile_at read_csv self current threshold = Ok (fd,
      self') ->
  reference_data self' <> None
  /\ reference_data_path self' = reference_data_path self
  /\ (reference_data self <> None -> self' = self)
  /\ forall (read_csv' read_csv'' : string -> result DataFrame)
            (ks_2samp : Series -> Series -> result (float * float))
            (current' : DataFrame) (threshold' : Q) (alpha : float),
       detect_feature_drift percentile_at read_csv' self' current' threshold'
       = detect_feature_drift percentile_at read_csv'' self' current' threshold'
       /\ detect_statistical_drift read_csv' ks_2samp self' current' alpha
          = detect_statistical_drift read_csv'' ks_2samp self' current' alpha
       /\ detect_target_drift read_csv' self' current'
          = detect_target_drift read_csv'' self' current'.
Proof.
  intro Hrun.
  destruct (detect_feature_drift_inv _ _ _ _ _ _ Hrun)
    as (reference & Hwith & _).
  destruct (with_reference_some _ _ _ _ Hwith) as (Hsome & Hpath & Hsame).
  assert (Hloaded : reference_data self' <> None) by congruence.
  repeat split; try assumption.
  - unfold detect_feature_drift.
    now rewrite (with_reference_any_reader read_csv' read_csv'' self' Hloaded).
  - unfold detect_statistical_drift.
    now rewrite (with_reference_any_reader read_csv' read_csv'' self' Hloaded).
  - unfold detect_target_drift.
    now rewrite (with_reference_any_reader read_csv' read_csv'' self' Hloaded).
Qed.

(** X15: a reference file that cannot be read is fatal.  On a detector
    that has not loaded its reference, the exception of the reader comes
    out of each detection method and of [comprehensive_drift_check]
    unchanged, whatever the other collaborators would answer. *)
Theorem unreadable_reference_is_fatal
    (read_csv : string -> result DataFrame)
    (ks_2samp : Series -> Series -> result (float * float))
    (accuracy_score f1_score : Series -> Series -> result score)
    (make_dirs open_w : string -> result unit)
    (write_json : string -> DriftReport -> result unit)
    (timestamped_file : string)
    (self : DriftDetector) (current : DataFrame)
    (current_labels : option Series)
    (model : option (DataFrame -> result Series)) (baseline : option float)
    (threshold : Q) (alpha : float) (e : exn) :
  reference_data self = None ->
  read_csv (reference_data_path self) = Raise e ->
  detect_feature_drift percentile_at read_csv self current threshold = Raise e
  /\ detect_statistical_drift read_csv ks_2samp self current alpha = Raise e
  /\ detect_target_drift read_csv self current = Raise e
  /\ comprehensive_drift_check percentile_at read_csv ks_2samp accuracy_score
       f1_score make_dirs open_w write_json timestamped_file self current
       current_labels model baseline
     = Raise e.
Proof.
  intros Hnone Hread.
  assert (Hwith : with_reference read_csv self = Raise e).
  { unfold with_reference, load_reference_data. now rewrite Hnone, Hread. }
  unfold comprehensive_drift_check, detect_feature_drift,
    detect_statistical_drift, detect_target_drift.
  rewrite Hwith. repeat split.
Qed.

End Interpolation.

(** A run on the sample frames, at any threshold. *)
Lemma sample_run (threshold : Q) :
  exists fd,
    detect_feature_drift linear_percentile_at read_csv_sample fresh_detector
        current_frame threshold
    = Ok (fd, loaded_detector reference_frame)
    /\ keys (feature_drift fd) = ["age"; "stress_level"].
Proof.
  destruct (feature_drift_of_ok (percentile_at := linear_percentile_at)
              reference_frame current_frame threshold
              current_frame_columns_are_distinct
              reference_is_numeric_for_current_frame)
    as (results & Hfd & Hkeys & _).
  eexists. split.
  - unfold detect_feature_drift.
    cbn [with_reference fresh_detector reference_data load_reference_data
           read_csv_sample bind fst snd reference_data_path].
    rewrite Hfd. reflexivity.
  - exact Hkeys.
Qed.

Lemma verdict_tier_follows_the_index_witness :
  exists fd v,
    detect_feature_drift linear_percentile_at read_csv_sample fresh_detector
        current_frame 0
    = Ok (fd, loaded_detector reference_frame)
    /\ get (feature_drift fd) "age" = Some v
    /\ status v = "SIGNIFICANT_DRIFT".
Proof.
  destruct (sample_run 0) as (fd & Hrun & Hkeys).
  destruct (get_in_keys (feature_drift fd) "age") as [v Hv].
  { rewrite Hkeys. now left. }
  exists fd, v. split; [exact Hrun|]. split; [exact Hv|].
  apply (verdict_tier_follows_the_index _ _ _ _ _ _ "age" v
           current_frame_columns_are_distinct Hrun (get_some_in _ _ _ Hv)).
  discriminate.
Defined.

Lemma verdicts_are_for_shared_numeric_features_witness :
  exists fd,
    detect_feature_drift linear_percentile_at read_csv_sample fresh_detector
        current_frame
      default_threshold = Ok (fd, loaded_detector reference_frame)
    /\ get (feature_drift fd) target_col = None.
Proof.
  destruct (sample_run default_threshold) as (fd & Hrun & _).
  exists fd. split; [exact Hrun|].
  apply (verdicts_are_for_shared_numeric_features _ _ _ _ _ _
           current_frame_columns_are_distinct Hrun).
Defined.

Lemma reference_is_read_at_most_once_witness :
  detect_target_drift (fun _ => Raise IOError)
    (loaded_detector reference_frame) shifted_label_frame
  = detect_target_drift read_csv_sample
      (loaded_detector reference_frame) shifted_label_frame.
Proof.
  destruct (sample_run default_threshold) as (fd & Hrun & _).
  destruct (reference_is_read_at_most_once _ _ _ _ _ _ Hrun)
    as (_ & _ & _ & Hreader).
  apply (Hreader (fun _ => Raise IOError) read_csv_sample ks_same
           shifted_label_frame default_threshold default_alpha).
Defined.

Lemma unreadable_reference_is_fatal_witness :
  comprehensive_drift_check linear_percentile_at (fun _ => Raise IOError)
    ks_same (score_of 1) (score_of 1) make_dirs_ok open_ok write_json_ok
    "reports/drift/drift_report_20240101_000000.json"
    fresh_detector current_frame None None None
  = Raise IOError.
Proof.
  apply (unreadable_reference_is_fatal
           (percentile_at := linear_percentile_at)
           (fun _ => Raise IOError) ks_same
           (score_of 1) (score_of 1) make_dirs_ok open_ok write_json_ok
           "reports/drift/drift_report_20240101_000000.json"
           fresh_detector current_frame None None None
           default_threshold default_alpha IOError);
    reflexivity.
Defined.

End DetectorState.

Module StatisticalDriftFacts.

Import Np Drift DictFacts FeatureLoop FeatureDriftFacts Samples.
Import FeatureDriftWitness FeatureDriftMore DetectorState.
Open Scope string_scope.

Section Statistical.

Variable percentile_at : list Q -> Q -> Q.
Variable read_csv : string -> result DataFrame.
Variable ks_2samp : Series -> Series -> result (float * float).

(** What the statistical loop added when it ran to its end. *)
Lemma statistical_loop_inv (reference current : DataFrame) (alpha : float)
    (cols : list string) :
  forall (results results' : dict KsVerdict),
    NoDup cols ->
    (forall col, In col cols -> get results col = None) ->
    foldM (statistical_step ks_2samp reference current alpha) cols results
    = Ok results' ->
    exists new,
      results' = (results ++ new)%list
      /\ keys new = filter (numeric_in current) cols
      /\ Forall (fun kv =>
                   ks_drift_detected (snd kv)
                   = (p_value (snd kv) <? alpha)%float)
                new.
Proof.
  induction cols as [|col cols IH]; intros results results' Hnd Hfresh Hrun.
  - cbn in Hrun. inversion Hrun; subst. exists [].
    rewrite app_nil_r. repeat split. constructor.
  - inversion Hnd as [|? ? Hnotin Hnd']; subst. cbn [foldM] in Hrun.
    destruct (statistical_step ks_2samp reference current alpha results col)
      as [results1|e] eqn:Hstep; [|discriminate Hrun].
    cbn [bind] in Hrun. unfold statistical_step, getitem in Hstep.
    cbn [filter]. unfold numeric_in at 1.
    destruct (get current col) as [cs|] eqn:Hcs; [|discriminate Hstep].
    cbn [bind] in Hstep.
    destruct (is_numeric_dtype cs) eqn:Hcn; cbn [negb] in Hstep.
    + destruct (get reference col) as [rs|] eqn:Hrs; [|discriminate Hstep].
      cbn [bind] in Hstep.
      destruct (ks_2samp rs cs) as [sp|]; [|discriminate Hstep].
      cbn [bind] in Hstep. inversion Hstep; subst results1. clear Hstep.
      rewrite (set_fresh _ _ _ (Hfresh col (or_introl eq_refl))) in Hrun.
      apply IH in Hrun; [|exact Hnd'|].
      * destruct Hrun as (new & -> & Hkeys & Hall).
        eexists ((col, _) :: new). split; [now rewrite <- app_assoc|].
        split.
        -- unfold keys in *. cbn [map fst]. now rewrite Hkeys.
        -- constructor; [reflexivity|exact Hall].
      * intros c Hc. apply not_in_get_none. rewrite keys_app. cbn.
        intros Hin. apply in_app_or in Hin as [Hin | [Heq | []]].
        -- apply (get_none_not_in results c); [apply Hfresh; now right|exact
            Hin].
        -- subst. contradiction.
    + inversion Hstep; subst results1. clear Hstep.
      apply IH in Hrun; [exact Hrun|exact Hnd'|].
      intros c Hc. apply Hfresh. now right.
Qed.

Lemma detect_statistical_drift_inv (self self' : DriftDetector)
    (current : DataFrame) (alpha : float) (sd : StatisticalDrift) :
  detect_statistical_drift read_csv ks_2samp self current alpha = Ok (sd, self')
      ->
  exists reference,
    with_reference read_csv self = Ok (self', reference)
    /\ foldM (statistical_step ks_2samp reference current alpha)
             (common_cols reference current) []
       = Ok (statistical_drift sd)
    /\ ks_summary sd
       = {| ks_total_features := len (statistical_drift sd);
            ks_drifted_features :=
              List.length (filter (fun kv => ks_drift_detected (snd kv))
                                  (statistical_drift sd));
            significance_level := alpha |}.
Proof.
  unfold detect_statistical_drift.
  destruct (with_reference read_csv self) as [[s reference]|e];
    [|discriminate].
  cbn [bind fst snd].
  match goal with
  | |- context [foldM ?f ?l ?i] =>
      destruct (foldM f l i) as [results|e] eqn:Hloop; [|discriminate]
  end.
  cbn [bind]. intro H. inversion H; subst. exists reference.
  cbn [statistical_drift ks_summary]. unfold dict in *. now rewrite Hloop.
Qed.

(** X16: the two detectors analyse the same columns.  When
    [detect_feature_drift] and [detect_statistical_drift] both return on
    a current frame, their results have the same keys in the same order
    and the same [total_features]; the statistical [drifted_features]
    counts the verdicts whose p-value is below alpha and never exceeds the
    total. *)
Theorem statistical_and_feature_drift_cover_the_same_columns
    (self s1 s2 : DriftDetector) (current : DataFrame) (threshold : Q) (alpha :
        float)
    (fd : FeatureDrift) (sd : StatisticalDrift) :
  NoDup (columns current) ->
  detect_feature_drift percentile_at read_csv self current threshold = Ok (fd,
      s1) ->
  detect_statistical_drift read_csv ks_2samp self current alpha = Ok (sd, s2) ->
  keys (statistical_drift sd) = keys (feature_drift fd)
  /\ ks_total_features (ks_summary sd) = total_features (summary fd)
  /\ (ks_drifted_features (ks_summary sd)
      <= ks_total_features (ks_summary sd))%nat
  /\ ks_drifted_features (ks_summary sd)
     = List.length (filter (fun kv => (p_value (snd kv) <? alpha)%float)
                           (statistical_drift sd))
  /\ significance_level (ks_summary sd) = alpha
  /\ s1 = s2.
Proof.
  intros Hnd Hf Hs.
  destruct (detect_feature_drift_inv _ _ _ _ _ _ Hf) as (reference & Hwith &
      Hfd).
  destruct (detect_statistical_drift_inv _ _ _ _ _ Hs)
    as (reference' & Hwith' & Hloop & Hsum).
  rewrite Hwith in Hwith'. inversion Hwith'; subst s2 reference'.
  destruct (feature_drift_of_inv _ _ _ _ Hnd Hfd) as (Hfsum & Hkeys & _).
  apply statistical_loop_inv in Hloop;
    [|unfold common_cols; now apply NoDup_filter|reflexivity].
  destruct Hloop as (new & Hnew & Hskeys & Hflags). cbn [app] in Hnew.
  assert (Hsame : keys (statistical_drift sd) = keys (feature_drift fd)).
  { rewrite Hnew, Hskeys, Hkeys. reflexivity. }
  assert (Hfilter :
            filter (fun kv => ks_drift_detected (snd kv)) (statistical_drift sd)
            = filter (fun kv => (p_value (snd kv) <? alpha)%float)
                     (statistical_drift sd)).
  { apply filter_ext_in. intros kv Hin. rewrite Hnew in Hin.
    rewrite Forall_forall in Hflags. now apply Hflags. }
  rewrite Hsum, Hfsum. cbn. split; [exact Hsame|]. split; [|split; [|split]].
  - unfold len. rewrite <- (length_map fst (statistical_drift sd)).
    rewrite <- (length_map fst (feature_drift fd)).
    unfold keys in Hsame. now rewrite Hsame.
  - apply filter_length_le.
  - now rewrite Hfilter.
  - split; reflexivity.
Qed.

(** One failing test is enough for the statistical loop to raise. *)
Lemma statistical_loop_raises (reference current : DataFrame) (alpha : float)
    (cols : list string) (col : string) (rs cs : Series) (e : exn) :
  In col cols ->
  get current col = Some cs ->
  is_numeric_dtype cs = true ->
  get reference col = Some rs ->
  ks_2samp rs cs = Raise e ->
  forall results,
    raises (foldM (statistical_step ks_2samp reference current alpha)
                  cols results) = true.
Proof.
  intros Hin Hcs Hcn Hrs Hks. induction cols as [|c cols IH]; [destruct Hin|].
  intro results. cbn [foldM].
  destruct (String.eqb c col) eqn:E.
  - apply String.eqb_eq in E. subst c.
    unfold statistical_step at 1. unfold getitem.
    rewrite Hcs. cbn [bind]. rewrite Hcn. cbn [negb]. rewrite Hrs.
    cbn [bind]. now rewrite Hks.
  - destruct Hin as [-> | Hin]; [rewrite String.eqb_refl in E; discriminate|].
    destruct (statistical_step ks_2samp reference current alpha results c)
      as [results'|e']; [|reflexivity].
    cbn [bind]. now apply IH.
Qed.

End Statistical.

(** X17: a failure of the KS test is not swallowed.  If the test raises
    on one analysed column, [detect_statistical_drift] raises, and so
    does [comprehensive_drift_check], which returns no report, whatever
    the feature and target detectors found. *)
Theorem ks_failure_is_not_swallowed
    (percentile_at : list Q -> Q -> Q)
    (read_csv : string -> result DataFrame)
    (ks_2samp : Series -> Series -> result (float * float))
    (accuracy_score f1_score : Series -> Series -> result score)
    (make_dirs open_w : string -> result unit)
    (write_json : string -> DriftReport -> result unit)
    (timestamped_file : string)
    (self self' : DriftDetector) (reference current : DataFrame)
    (current_labels : option Series)
    (model : option (DataFrame -> result Series)) (baseline : option float)
    (alpha : float) (col : string) (rs cs : Series) (e : exn) :
  with_reference read_csv self = Ok (self', reference) ->
  In col (analysed_columns reference current) ->
  get reference col = Some rs ->
  get current col = Some cs ->
  ks_2samp rs cs = Raise e ->
  raises (detect_statistical_drift read_csv ks_2samp self current alpha) = true
  /\ raises (comprehensive_drift_check percentile_at read_csv ks_2samp
               accuracy_score f1_score make_dirs open_w write_json
               timestamped_file self current current_labels model baseline)
     = true.
Proof.
  intros Hwith Hin Hrs Hcs Hks.
  apply analysed_columns_spec in Hin as [Hin Hnum].
  unfold numeric_in in Hnum. rewrite Hcs in Hnum.
  assert (Hloop : forall a results,
             raises (foldM (statistical_step ks_2samp reference current a)
                           (common_cols reference current) results) = true).
  { intros a results.
    now apply (statistical_loop_raises ks_2samp reference current a
                 (common_cols reference current) col rs cs e). }
  split.
  - unfold detect_statistical_drift. rewrite Hwith. cbn [bind fst snd].
    apply ReferenceDtype.raises_bind, Hloop.
  - unfold comprehensive_drift_check, detect_feature_drift,
      detect_statistical_drift.
    rewrite Hwith. cbn [bind fst snd].
    destruct (feature_drift_of percentile_at reference current
        default_threshold)
      as [fd|e']; [|reflexivity].
    cbn [bind fst snd]. rewrite (with_reference_loaded _ _ _ _ Hwith).
    cbn [bind fst snd].
    apply ReferenceDtype.raises_bind, ReferenceDtype.raises_bind, Hloop.
Qed.

Lemma ks_failure_is_not_swallowed_witness :
  raises (comprehensive_drift_check linear_percentile_at read_csv_sample
            (fun _ _ => Raise ValueError)
            (score_of 1) (score_of 1) make_dirs_ok open_ok write_json_ok
            "reports/drift/drift_report_20240101_000000.json"
            fresh_detector current_frame None None None) = true.
Proof.
  apply (ks_failure_is_not_swallowed linear_percentile_at read_csv_sample
           (fun _ _ => Raise ValueError)
           (score_of 1) (score_of 1) make_dirs_ok open_ok write_json_ok
           "reports/drift/drift_report_20240101_000000.json"
           fresh_detector (loaded_detector reference_frame)
           reference_frame current_frame None None None default_alpha
           "age"
           (NumSeries [25; 31; 38; 44; 52; 60; 33; 47; 29; 55; 41]%Q)
           (NumSeries [66; 71; 78; 84; 92; 61; 73; 87; 69; 95; 81]%Q)
           ValueError); try reflexivity.
  cbn. tauto.
Defined.

Lemma statistical_and_feature_drift_cover_the_same_columns_witness :
  exists fd sd,
    detect_feature_drift linear_percentile_at read_csv_sample fresh_detector
        current_frame
      default_threshold = Ok (fd, loaded_detector reference_frame)
    /\ detect_statistical_drift read_csv_sample ks_apart fresh_detector
         current_frame default_alpha
       = Ok (sd, loaded_detector reference_frame)
    /\ keys (statistical_drift sd) = keys (feature_drift fd).
Proof.
  destruct (sample_run default_threshold) as (fd & Hrun & _).
  exists fd. eexists. split; [exact Hrun|].
  assert (Hs : detect_statistical_drift read_csv_sample ks_apart
                 fresh_detector current_frame default_alpha
               = Ok (_, loaded_detector reference_frame)) by reflexivity.
  split; [exact Hs|].
  apply (statistical_and_feature_drift_cover_the_same_columns
           linear_percentile_at read_csv_sample ks_apart fresh_detector _ _
               current_frame
           default_threshold default_alpha fd _
           current_frame_columns_are_distinct Hrun Hs).
Defined.

End StatisticalDriftFacts.

Module TargetDriftMore.

Import Np Drift DictFacts FeatureDriftFacts TargetDriftFacts Samples.
Open Scope string_scope.

Lemma positives_le_len (s : Series) : (positives s <= series_len s)%nat.
Proof.
  destruct s as [l|l]; cbn [positives series_len]; [|lia].
  induction l as [|x l IH]; [apply Nat.le_refl|]. cbn [filter].
  destruct (Qeq_bool 1 x); cbn [List.length]; lia.
Qed.

(** The share of a column whose rows can be counted exactly lies between
    0 and 1. *)
Lemma positive_share_unit (s : Series) :
  (Z.of_nat (series_len s) < Binary64.exact_counts)%Z ->
  Binary64.in_unit_interval (Prim2SF (positive_share s)) = true.
Proof.
  intro Hlen. unfold positive_share.
  pose proof (positives_le_len s) as Hle.
  destruct (positives s) as [|k]; [reflexivity|].
  apply Binary64Facts.share_unit; [lia|exact Hlen].
Qed.

(** X18: target drift does not depend on which frame is the reference.
    Swapping the two frames gives the same magnitude and the same status
    (or the empty result on both sides), with the two distributions
    exchanged; the magnitude is never negative, and it lies between 0 and
    1 when each label column has fewer than 2^53 rows. *)
Theorem target_drift_is_symmetric
    (read_csv : string -> result DataFrame) (path : string)
    (a b : DataFrame) :
  let on_a := {| reference_data_path := path; reference_data := Some a |} in
  let on_b := {| reference_data_path := path; reference_data := Some b |} in
  (detect_target_drift read_csv on_a b = Ok (None, on_a)
   <-> detect_target_drift read_csv on_b a = Ok (None, on_b))
  /\ forall t,
       detect_target_drift read_csv on_a b = Ok (Some t, on_a) ->
       (drift_magnitude t <? 0)%float = false
       /\ (forall ca cb,
              get a target_col = Some ca -> get b target_col = Some cb ->
              (Z.of_nat (series_len ca) < Binary64.exact_counts)%Z ->
              (Z.of_nat (series_len cb) < Binary64.exact_counts)%Z ->
              (0 <=? drift_magnitude t)%float = true
              /\ (drift_magnitude t <=? 1)%float = true)
       /\ detect_target_drift read_csv on_b a
          = Ok (Some {| reference_distribution := current_distribution t;
                        current_distribution := reference_distribution t;
                        drift_magnitude := drift_magnitude t;
                        target_status := target_status t |}, on_b).
Proof.
  cbn zeta. unfold detect_target_drift, with_reference.
  cbn [reference_data bind fst snd].
  destruct (get a target_col) as [ca|] eqn:Hca;
    destruct (get b target_col) as [cb|] eqn:Hcb.
  - rewrite (target_drift_of_labelled a b ca cb Hca Hcb).
    rewrite (target_drift_of_labelled b a cb ca Hcb Hca).
    rewrite (Binary64Facts.abs_sub_sym (positive_share cb) (positive_share ca)).
    split; [split; discriminate|].
    intros t Ht. injection Ht as <-.
    cbn [drift_magnitude reference_distribution current_distribution
           target_status].
    split; [apply Binary64Facts.abs_not_negative|]. split; [|reflexivity].
    intros ca' cb' Ha Hb Hla Hlb. inversion Ha; inversion Hb; subst ca' cb'.
    apply Binary64Facts.unit_bounds, Binary64Facts.abs_sub_unit;
      now apply positive_share_unit.
  - apply get_none_has_column in Hcb. unfold target_drift_of.
    rewrite Hcb. cbn [negb orb]. rewrite orb_true_r.
    split; [tauto|discriminate].
  - apply get_none_has_column in Hca. unfold target_drift_of.
    rewrite Hca. cbn [negb orb]. rewrite orb_true_r.
    split; [tauto|discriminate].
  - apply get_none_has_column in Hca. unfold target_drift_of.
    rewrite Hca. cbn [negb orb]. rewrite orb_true_r.
    split; [tauto|discriminate].
Qed.

Lemma target_drift_is_symmetric_witness :
  exists t,
    detect_target_drift read_csv_sample (loaded_detector label_frame)
      shifted_label_frame = Ok (Some t, loaded_detector label_frame)
    /\ detect_target_drift read_csv_sample (loaded_detector shifted_label_frame)
         label_frame
       = Ok (Some {| reference_distribution := current_distribution t;
                     current_distribution := reference_distribution t;
                     drift_magnitude := drift_magnitude t;
                     target_status := target_status t |},
             loaded_detector shifted_label_frame)
    /\ (0 <=? drift_magnitude t)%float = true
    /\ (drift_magnitude t <=? 1)%float = true.
Proof.
  eexists. split; [reflexivity|].
  destruct (proj2 (target_drift_is_symmetric read_csv_sample
                     "data/processed/classification_data.csv"
                     label_frame shifted_label_frame) _ eq_refl)
    as (_ & Hbounds & Hswap).
  split; [exact Hswap|].
  apply (Hbounds _ _ eq_refl eq_refl); reflexivity.
Defined.

(** X19: the positive class is the number 1.  When the label columns of
    both frames hold strings, no value equals 1, the magnitude is 0 and the
    status is NO_DRIFT, however different the two columns are. *)
Theorem text_labels_never_show_target_drift
    (read_csv : string -> result DataFrame) (self self' : DriftDetector)
    (reference current : DataFrame) (ref_labels cur_labels : list string) :
  with_reference read_csv self = Ok (self', reference) ->
  get reference target_col = Some (ObjSeries ref_labels) ->
  get current target_col = Some (ObjSeries cur_labels) ->
  exists t,
    detect_target_drift read_csv self current = Ok (Some t, self')
    /\ drift_magnitude t = 0%float
    /\ target_status t = "NO_DRIFT".
Proof.
  intros Hwith Hr Hc. unfold detect_target_drift. rewrite Hwith.
  cbn [bind fst snd].
  rewrite (target_drift_of_labelled reference current _ _ Hr Hc).
  eexists. split; [reflexivity|]. split; reflexivity.
Qed.

Lemma text_labels_never_show_target_drift_witness :
  exists t,
    detect_target_drift read_csv_sample
      (loaded_detector
         [("migraine_occurrence", ObjSeries ["yes"; "yes"; "no"])])
      [("migraine_occurrence", ObjSeries ["no"; "no"; "no"; "no"])]
    = Ok (Some t,
          loaded_detector
            [("migraine_occurrence", ObjSeries ["yes"; "yes"; "no"])])
    /\ target_status t = "NO_DRIFT".
Proof.
  destruct (text_labels_never_show_target_drift read_csv_sample
              (loaded_detector
                 [("migraine_occurrence", ObjSeries ["yes"; "yes"; "no"])])
              (loaded_detector
                 [("migraine_occurrence", ObjSeries ["yes"; "yes"; "no"])])
              [("migraine_occurrence", ObjSeries ["yes"; "yes"; "no"])]
              [("migraine_occurrence", ObjSeries ["no"; "no"; "no"; "no"])]
              ["yes"; "yes"; "no"] ["no"; "no"; "no"; "no"]
              eq_refl eq_refl eq_refl)
    as (t & Hrun & _ & Hst).
  exists t. split; assumption.
Defined.

End TargetDriftMore.

Module PerformanceDriftFacts.

Import Np Drift Samples.
Open Scope string_scope.

(** The tier of a degradation, and the sign of the degradation of an
    accuracy that did not fall. *)
Lemma degradation_tiers (baseline a : float) :
  let d := ((baseline - a) / baseline * 100)%float in
  let st :=
    if (10 <? d)%float then "SIGNIFICANT_DEGRADATION"
    else if (5 <? d)%float then "MODERATE_DEGRADATION"
    else "NO_DEGRADATION" in
  (st = "SIGNIFICANT_DEGRADATION" <-> (10 <? d)%float = true)
  /\ (st = "MODERATE_DEGRADATION"
      <-> (10 <? d)%float = false /\ (5 <? d)%float = true)
  /\ (st = "NO_DEGRADATION"
      <-> (10 <? d)%float = false /\ (5 <? d)%float = false)
  /\ ((0 <? baseline)%float = true -> (baseline <=? a)%float = true ->
      st = "NO_DEGRADATION").
Proof.
  cbn zeta.
  pose proof (Binary64Facts.not_above_baseline baseline a 10 eq_refl) as H10.
  pose proof (Binary64Facts.not_above_baseline baseline a 5 eq_refl) as H5.
  destruct (10 <? (baseline - a) / baseline * 100)%float.
  - repeat split; try discriminate; try tauto;
      try (intros [H _]; discriminate H).
    intros Hb Hle. discriminate (H10 Hb Hle).
  - destruct (5 <? (baseline - a) / baseline * 100)%float.
    + repeat split; try discriminate; try tauto;
        try (intros [_ H]; discriminate H).
      intros Hb Hle. discriminate (H5 Hb Hle).
    + repeat split; try discriminate; try tauto;
        try (intros [_ H]; discriminate H).
Qed.

Section Performance.

Variable accuracy_score : Series -> Series -> result score.
Variable f1_score : Series -> Series -> result score.

(** X20: the status of [detect_model_performance_drift] follows the
    degradation the code computes in binary64, the drop of the accuracy
    as a percentage of the baseline: SIGNIFICANT_DEGRADATION strictly
    above 10, MODERATE_DEGRADATION strictly above 5 and up to 10,
    NO_DEGRADATION otherwise; an accuracy at or above a positive baseline
    is never reported as a degradation. *)
Theorem performance_status_is_relative_to_the_baseline
    (model : DataFrame -> result Series) (current_data : DataFrame)
    (current_labels : Series) (baseline : float) (p : PerformanceDrift) :
  detect_model_performance_drift accuracy_score f1_score model current_data
    current_labels baseline = Ok p ->
  baseline_accuracy p = baseline
  /\ accuracy_drop p = (baseline - current_accuracy p)%float
  /\ performance_degradation_pct p
     = ((baseline - current_accuracy p) / baseline * 100)%float
  /\ (perf_status p = "SIGNIFICANT_DEGRADATION"
      <-> (10 <? performance_degradation_pct p)%float = true)
  /\ (perf_status p = "MODERATE_DEGRADATION"
      <-> (10 <? performance_degradation_pct p)%float = false
          /\ (5 <? performance_degradation_pct p)%float = true)
  /\ (perf_status p = "NO_DEGRADATION"
      <-> (10 <? performance_degradation_pct p)%float = false
          /\ (5 <? performance_degradation_pct p)%float = false)
  /\ ((0 <? baseline)%float = true ->
      (baseline <=? current_accuracy p)%float = true ->
      perf_status p = "NO_DEGRADATION").
Proof.
  unfold detect_model_performance_drift.
  destruct (model current_data) as [predictions|e]; [|discriminate].
  cbn [bind].
  destruct (accuracy_score current_labels predictions) as [c|e];
      [|discriminate].
  cbn [bind].
  destruct (f1_score current_labels predictions) as [f|e]; [|discriminate].
  cbn [bind].
  destruct c as [a|a]; cbn [score_value];
    [destruct (baseline =? 0)%float; [discriminate|]|];
    cbn [bind]; intro H; inversion H; subst p; clear H;
    cbn [baseline_accuracy accuracy_drop perf_status current_accuracy
         performance_degradation_pct score_value];
    (split; [reflexivity|]); (split; [reflexivity|]); (split; [reflexivity|]);
    exact (degradation_tiers baseline a).
Qed.

End Performance.

(** An accuracy of 0.95 against a baseline of 1.0: the degradation is
    computed as 5.000000000000004 percent, above 5, and the status is
    MODERATE_DEGRADATION. *)
Lemma performance_status_is_relative_to_the_baseline_witness :
  exists p,
    detect_model_performance_drift (score_of 0.95) (score_of 0.90)
      (constant_model sample_predictions) current_frame sample_labels 1.0
    = Ok p
    /\ performance_degradation_pct p = 5.000000000000004%float
    /\ perf_status p = "MODERATE_DEGRADATION".
Proof.
  eexists. split; [reflexivity|]. split; [reflexivity|].
  eapply (performance_status_is_relative_to_the_baseline
            (score_of 0.95) (score_of 0.90)
            (constant_model sample_predictions) current_frame sample_labels
            1.0).
  - reflexivity.
  - split; reflexivity.
Defined.

(** A baseline of zero: the quotient raises when scikit-learn returns
    Python floats, and is minus infinity, hence no degradation, when it
    returns [numpy.float64]. *)
Lemma zero_baseline :
  detect_model_performance_drift (score_of 0.5) (score_of 0.5)
    (constant_model sample_predictions) current_frame sample_labels 0
  = Raise ZeroDivisionError
  /\ exists p,
       detect_model_performance_drift (numpy_score_of 0.5) (numpy_score_of 0.5)
         (constant_model sample_predictions) current_frame sample_labels 0
       = Ok p
       /\ performance_degradation_pct p = neg_infinity
       /\ perf_status p = "NO_DEGRADATION".
Proof.
  split; [reflexivity|]. eexists. split; [reflexivity|]. split; reflexivity.
Qed.

End PerformanceDriftFacts.

Module ReportMore.

Import Np Drift DictFacts FeatureDriftFacts TargetDriftFacts Samples.
Import FeatureDriftWitness ReportFacts.
Open Scope string_scope.

Lemma drop_column_idempotent (df : DataFrame) (col : string) :
  drop_column (drop_column df col) col = drop_column df col.
Proof.
  unfold drop_column. induction df as [|kv df IH]; [reflexivity|].
  cbn [filter]. destruct (negb (String.eqb (fst kv) col)) eqn:E;
    [|exact IH]. cbn [filter]. now rewrite E, IH.
Qed.

Lemma set_not_empty {V : Type} (d : dict V) (k : string) (v : V) :
  set d k v <> [].
Proof.
  destruct d as [|[k' v'] d]; cbn; [discriminate|].
  destruct (String.eqb k k'); discriminate.
Qed.

Section Run.

Variable percentile_at : list Q -> Q -> Q.
Variable read_csv : string -> result DataFrame.
Variable ks_2samp : Series -> Series -> result (float * float).
Variable accuracy_score : Series -> Series -> result score.
Variable f1_score : Series -> Series -> result score.
Variable make_dirs : string -> result unit.
Variable open_w : string -> result unit.
Variable write_json : string -> DriftReport -> result unit.
Variable timestamped_file : string.

Lemma comprehensive_performance_inv (self : DriftDetector)
    (current_data : DataFrame) (current_labels : option Series)
    (model : option (DataFrame -> result Series)) (baseline : option float)
    (r : DriftReport) (s : DriftDetector) :
  comprehensive_drift_check percentile_at read_csv ks_2samp accuracy_score
    f1_score make_dirs open_w write_json timestamped_file self current_data
    current_labels model baseline
  = Ok (r, s) ->
  data_size r = frame_len current_data
  /\ match model, current_labels, baseline with
     | Some m, Some labels, Some b =>
         exists p,
           detect_model_performance_drift accuracy_score f1_score m
             (drop_column current_data target_col) labels b = Ok p
           /\ report_performance_drift r = Some p
     | _, _, _ => report_performance_drift r = None
     end.
Proof.
  unfold comprehensive_drift_check, detect_feature_drift,
    detect_statistical_drift, detect_target_drift.
  destruct (with_reference read_csv self) as [[s1 reference]|e] eqn:Hwith;
    [|discriminate].
  cbn [bind fst snd].
  destruct (feature_drift_of percentile_at reference current_data
      default_threshold)
    as [fd|e]; [|discriminate].
  cbn [bind fst snd].
  rewrite (with_reference_loaded _ _ _ _ Hwith). cbn [bind fst snd].
  match goal with
  | |- context [foldM ?f ?l ?i] =>
      destruct (foldM f l i) as [ks_results|e]; [|discriminate]
  end.
  cbn [bind fst snd].
  rewrite (with_reference_loaded _ _ _ _ Hwith). cbn [bind fst snd].
  destruct model as [m|]; [destruct current_labels as [labels|];
                           [destruct baseline as [b|]|]|].
  1: destruct (detect_model_performance_drift accuracy_score f1_score m
                 (drop_column current_data target_col) labels b)
       as [p|e] eqn:Hp; [|discriminate].
  all: cbn [bind];
    (match goal with
     | |- bind ?save _ = _ -> _ => destruct save as [[]|e]; [|discriminate]
     end);
    cbn [bind]; intro H; inversion H; subst; cbn; split; try reflexivity.
  exists p. split; reflexivity.
Qed.

(** X21: a report holds a performance section exactly when a model, the
    labels and a baseline were all supplied; its [data_size] is the
    number of rows of the current frame; and the model only ever sees the
    current frame without the label column: a model that drops the label
    itself before predicting yields the same run. *)
Theorem performance_section_needs_model_labels_and_baseline
    (self : DriftDetector) (current_data : DataFrame)
    (current_labels : option Series)
    (model : option (DataFrame -> result Series)) (baseline : option float)
    (r : DriftReport) (s : DriftDetector) :
  comprehensive_drift_check percentile_at read_csv ks_2samp accuracy_score
    f1_score make_dirs open_w write_json timestamped_file self current_data
    current_labels model baseline
  = Ok (r, s) ->
  (report_performance_drift r <> None
   <-> model <> None /\ current_labels <> None /\ baseline <> None)
  /\ data_size r = frame_len current_data
  /\ comprehensive_drift_check percentile_at read_csv ks_2samp accuracy_score
       f1_score make_dirs open_w write_json timestamped_file self current_data
       current_labels
       (option_map (fun m X => m (drop_column X target_col)) model) baseline
     = Ok (r, s).
Proof.
  intro Hrun.
  destruct (comprehensive_performance_inv _ _ _ _ _ _ _ Hrun) as [Hsize Hperf].
  split; [|split; [exact Hsize|]].
  - destruct model as [m|]; [destruct current_labels as [labels|];
                             [destruct baseline as [b|]|]|].
    + destruct Hperf as (p & _ & ->). split; [|discriminate].
      intros _. repeat split; discriminate.
    + rewrite Hperf. split; [congruence|]. intros (_ & _ & H). now elim H.
    + rewrite Hperf. split; [congruence|]. intros (_ & H & _). now elim H.
    + rewrite Hperf. split; [congruence|]. intros (H & _). now elim H.
  - rewrite <- Hrun. unfold comprehensive_drift_check.
    destruct model as [m|]; [|reflexivity]. cbn [option_map].
    destruct current_labels as [labels|]; [|reflexivity].
    destruct baseline as [b|]; [|reflexivity].
    unfold detect_model_performance_drift.
    now rewrite drop_column_idempotent.
Qed.

(** The statistical loop never drops a verdict. *)
Lemma statistical_loop_keeps (reference current : DataFrame) (alpha : float)
    (cols : list string) :
  forall results results',
    results <> [] ->
    foldM (statistical_step ks_2samp reference current alpha) cols results
    = Ok results' ->
    results' <> [].
Proof.
  induction cols as [|col cols IH]; intros results results' Hne Hrun.
  - cbn in Hrun. congruence.
  - cbn [foldM] in Hrun.
    destruct (statistical_step ks_2samp reference current alpha results col)
      as [results1|e] eqn:Hstep; [|discriminate Hrun].
    cbn [bind] in Hrun. apply (IH results1 results'); [|exact Hrun].
    unfold statistical_step, getitem in Hstep.
    destruct (get current col) as [cs|]; [|discriminate Hstep].
    cbn [bind] in Hstep.
    destruct (is_numeric_dtype cs); cbn [negb] in Hstep; [|congruence].
    destruct (get reference col) as [rs|]; [|discriminate Hstep].
    cbn [bind] in Hstep.
    destruct (ks_2samp rs cs) as [sp|]; [|discriminate Hstep].
    cbn [bind] in Hstep. inversion Hstep. apply set_not_empty.
Qed.

(** One analysed column is enough for the results of the loop to hold
    a verdict. *)
Lemma statistical_loop_not_empty (reference current : DataFrame)
    (alpha : float) (cols : list string) (col : string) :
  In col cols ->
  numeric_in current col = true ->
  forall results results',
    foldM (statistical_step ks_2samp reference current alpha) cols results
    = Ok results' ->
    results' <> [].
Proof.
  intros Hin Hnum. induction cols as [|c cols IH]; [destruct Hin|].
  intros results results' Hrun. cbn [foldM] in Hrun.
  destruct (statistical_step ks_2samp reference current alpha results c)
    as [results1|e] eqn:Hstep; [|discriminate Hrun].
  cbn [bind] in Hrun.
  destruct (String.eqb c col) eqn:E.
  - apply String.eqb_eq in E. subst c.
    apply (statistical_loop_keeps reference current alpha cols results1);
      [|exact Hrun].
    unfold statistical_step, getitem in Hstep. unfold numeric_in in Hnum.
    destruct (get current col) as [cs|]; [|discriminate Hnum].
    cbn [bind] in Hstep. rewrite Hnum in Hstep. cbn [negb] in Hstep.
    destruct (get reference col) as [rs|]; [|discriminate Hstep].
    cbn [bind] in Hstep.
    destruct (ks_2samp rs cs) as [sp|]; [|discriminate Hstep].
    cbn [bind] in Hstep. inversion Hstep. apply set_not_empty.
  - destruct Hin as [-> | Hin]; [rewrite String.eqb_refl in E; discriminate|].
    exact (IH Hin results1 results' Hrun).
Qed.

(** With a KS test that answers, the statistical loop answers. *)
Lemma statistical_loop_ok (reference current : DataFrame) (alpha : float)
    (cols : list string) :
  (forall a b, exists sp, ks_2samp a b = Ok sp) ->
  (forall col, In col cols ->
               has_column current col = true
               /\ has_column reference col = true) ->
  forall results,
  exists results',
    foldM (statistical_step ks_2samp reference current alpha) cols results
    = Ok results'.
Proof.
  intros Hks. induction cols as [|col cols IH]; intros Hcols results.
  - now exists results.
  - destruct (Hcols col (or_introl eq_refl)) as [Hcur Href].
    apply has_column_get in Hcur as [cs Hcs].
    apply has_column_get in Href as [rs Hrs].
    cbn [foldM]. unfold statistical_step at 1. unfold getitem.
    rewrite Hcs. cbn [bind].
    destruct (is_numeric_dtype cs); cbn [negb bind].
    + rewrite Hrs. cbn [bind]. destruct (Hks rs cs) as [sp ->]. cbn [bind].
      apply IH. intros c Hc. apply Hcols. now right.
    + apply IH. intros c Hc. apply Hcols. now right.
Qed.

(** X22: no report once a feature is analysed.  The verdict of the KS
    test on a column holds the [numpy.bool_] of [p_value < alpha], which
    [json.dump] cannot encode.  When at least one shared column other
    than the label is numeric in the current frame,
    [comprehensive_drift_check] raises and returns no report, whatever
    the detectors found; and when the three detectors and the performance
    check answer and the directory and the report file can be made, the
    exception is the [TypeError] of [json.dump]. *)
Theorem no_report_once_a_feature_is_analysed
    (self self' : DriftDetector) (reference current_data : DataFrame)
    (current_labels : option Series)
    (model : option (DataFrame -> result Series)) (baseline : option float) :
  with_reference read_csv self = Ok (self', reference) ->
  analysed_columns reference current_data <> [] ->
  raises (comprehensive_drift_check percentile_at read_csv ks_2samp
            accuracy_score f1_score make_dirs open_w write_json
            timestamped_file self current_data current_labels model baseline)
  = true
  /\ (forall fd,
         feature_drift_of percentile_at reference current_data
           default_threshold = Ok fd ->
         (forall a b, exists sp, ks_2samp a b = Ok sp) ->
         match model, current_labels, baseline with
         | Some m, Some labels, Some b =>
             exists p,
               detect_model_performance_drift accuracy_score f1_score m
                 (drop_column current_data target_col) labels b = Ok p
         | _, _, _ => True
         end ->
         make_dirs reports_dir = Ok tt ->
         open_w timestamped_file = Ok tt ->
         comprehensive_drift_check percentile_at read_csv ks_2samp
           accuracy_score f1_score make_dirs open_w write_json
           timestamped_file self current_data current_labels model baseline
         = Raise TypeError).
Proof.
  intros Hwith Hsome.
  destruct (analysed_columns reference current_data) as [|col rest] eqn:Hcols;
    [congruence|]. clear Hsome.
  assert (Hin : In col (analysed_columns reference current_data))
    by (rewrite Hcols; now left).
  apply analysed_columns_spec in Hin as [Hin Hnum].
  assert (Hverdict : forall results,
             foldM (statistical_step ks_2samp reference current_data
                      default_alpha)
                   (common_cols reference current_data) [] = Ok results ->
             results <> []).
  { intro results.
    apply (statistical_loop_not_empty reference current_data default_alpha
             (common_cols reference current_data) col Hin Hnum). }
  split.
  - unfold comprehensive_drift_check, detect_feature_drift,
      detect_statistical_drift, detect_target_drift.
    rewrite Hwith. cbn [bind fst snd].
    destruct (feature_drift_of percentile_at reference current_data
                default_threshold) as [fd|e]; [|reflexivity].
    cbn [bind fst snd].
    rewrite (with_reference_loaded _ _ _ _ Hwith). cbn [bind fst snd].
    match goal with
    | |- context [foldM ?f ?l ?i] =>
        destruct (foldM f l i) as [ks_results|e] eqn:Hloop; [|reflexivity]
    end.
    cbn [bind fst snd].
    rewrite (with_reference_loaded _ _ _ _ Hwith). cbn [bind fst snd].
    match goal with
    | |- raises (bind ?perf _) = _ =>
        destruct perf as [performance|e]; [|reflexivity]
    end.
    cbn [bind].
    match goal with
    | |- raises (bind (save_drift_report _ _ _ _ ?report) _) = _ =>
        destruct (save_drift_report_type_error make_dirs open_w write_json
                    timestamped_file report) as [Hraise _]
    end.
    + unfold json_serializable. cbn [report_statistical_drift
        statistical_drift].
      specialize (Hverdict ks_results eq_refl).
      destruct ks_results; [congruence|reflexivity].
    + now apply ReferenceDtype.raises_bind.
  - intros fd Hfd Hks Hperf Hdirs Hopen.
    unfold comprehensive_drift_check, detect_feature_drift,
      detect_statistical_drift, detect_target_drift.
    rewrite Hwith. cbn [bind fst snd]. rewrite Hfd. cbn [bind fst snd].
    rewrite (with_reference_loaded _ _ _ _ Hwith). cbn [bind fst snd].
    destruct (statistical_loop_ok reference current_data default_alpha
                (common_cols reference current_data) Hks)
      with (results := @nil (string * KsVerdict)) as [ks_results Hloop].
    { intros c Hc. apply common_cols_spec in Hc as (Hc & Href & _).
      split; [now apply in_columns_has_column|exact Href]. }
    specialize (Hverdict ks_results Hloop).
    unfold dict in *. rewrite Hloop. cbn [bind fst snd].
    rewrite (with_reference_loaded _ _ _ _ Hwith). cbn [bind fst snd].
    assert (Hp : exists performance,
      match model, current_labels, baseline with
      | Some m, Some labels, Some b =>
          (p <- detect_model_performance_drift accuracy_score f1_score m
                  (drop_column current_data target_col) labels b ;;
           ret (Some p))%py
      | _, _, _ => Ok None
      end = Ok performance).
    { destruct model as [m|]; [|now eexists].
      destruct current_labels as [labels|]; [|now eexists].
      destruct baseline as [b|]; [|now eexists].
      destruct Hperf as (p & ->). now eexists. }
    destruct Hp as [performance ->]. cbn [bind].
    match goal with
    | |- bind (save_drift_report _ _ _ _ ?report) _ = _ =>
        destruct (save_drift_report_type_error make_dirs open_w write_json
                    timestamped_file report) as [_ Herror]
    end.
    + unfold json_serializable. cbn [report_statistical_drift
        statistical_drift].
      destruct ks_results; [congruence|reflexivity].
    + now rewrite (Herror Hdirs Hopen).
Qed.

End Run.

Lemma performance_section_needs_model_labels_and_baseline_witness :
  exists r s,
    comprehensive_drift_check linear_percentile_at read_csv_sample ks_same
      (score_of 0.6) (score_of 0.6) make_dirs_ok open_ok write_json_ok
      "reports/drift/drift_report_20240101_000000.json"
      (loaded_detector reference_frame) shifted_label_frame
      (Some sample_labels) None (Some 0.8%float) = Ok (r, s)
    /\ report_performance_drift r = None
    /\ data_size r = 20%nat.
Proof.
  eexists. eexists.
  assert (Hrun :
    comprehensive_drift_check linear_percentile_at read_csv_sample ks_same
      (score_of 0.6) (score_of 0.6) make_dirs_ok open_ok write_json_ok
      "reports/drift/drift_report_20240101_000000.json"
      (loaded_detector reference_frame) shifted_label_frame
      (Some sample_labels) None (Some 0.8%float) = Ok (_, _))
    by reflexivity.
  split; [exact Hrun|].
  destruct (performance_section_needs_model_labels_and_baseline
              _ _ _ _ _ _ _ _ _ _ _ _ _ _ _ _ Hrun) as (_ & Hsize & _).
  split; [reflexivity|exact Hsize].
Defined.

Lemma no_report_once_a_feature_is_analysed_witness :
  comprehensive_drift_check linear_percentile_at read_csv_sample ks_same
    (score_of 1) (score_of 1) make_dirs_ok open_ok write_json_ok
    "reports/drift/drift_report_20240101_000000.json"
    (loaded_detector current_frame) current_frame
    (Some sample_labels) None None
  = Raise TypeError.
Proof.
  destruct (feature_drift_of_itself (percentile_at := linear_percentile_at)
              current_frame default_threshold
              current_frame_columns_are_distinct eq_refl)
    as (fd & Hfd & _).
  apply (proj2 (no_report_once_a_feature_is_analysed linear_percentile_at
                  read_csv_sample ks_same (score_of 1) (score_of 1)
                  make_dirs_ok open_ok write_json_ok
                  "reports/drift/drift_report_20240101_000000.json"
                  (loaded_detector current_frame) (loaded_detector
                      current_frame)
                  current_frame current_frame (Some sample_labels) None None
                  eq_refl ltac:(discriminate)) fd Hfd).
  - intros a b. now eexists.
  - exact I.
  - reflexivity.
  - reflexivity.
Defined.

End ReportMore.
